(** * TelemedicineSystem: a shallow embedding of the on-chain core

    The development follows [Contracts/TelemedicineSystem.sol]: storage is a
    record of finite maps and counters, every external function is a
    computation in a state-and-revert monad, and a transaction either commits
    the state its function returns or leaves the world as it was. *)

From Stdlib Require Import ZArith List Lia Bool.
From stdpp Require Import base option list gmap strings.

Local Open Scope Z_scope.

(** ** Machine integers *)

Module UInt.

Definition modulus (w : Z) : Z := 2 ^ w.
Definition max (w : Z) : Z := modulus w - 1.

(** Explicit conversions such as [uint48(x)] truncate. *)
Definition cast (w : Z) (x : Z) : Z := x mod modulus w.

Definition fits (w : Z) (x : Z) : bool := (0 <=? x) && (x <? modulus w).

End UInt.

(** ** Keccak-256

    [keccak256] is a builtin of the language; the contract uses it to derive
    the verification-code commitment of a prescription. Lanes are 64-bit
    integers, the state is the usual 25-lane array in row-major order. *)

Module Keccak.

Definition mask64 : Z := 2 ^ 64 - 1.

Definition rol64 (x n : Z) : Z :=
  Z.lor (Z.land (Z.shiftl x n) mask64) (Z.shiftr x (64 - n)).

Definition not64 (x : Z) : Z := Z.lxor x mask64.

Definition RC : list Z :=
  [ 0x0000000000000001; 0x0000000000008082; 0x800000000000808a;
    0x8000000080008000; 0x000000000000808b; 0x0000000080000001;
    0x8000000080008081; 0x8000000000008009; 0x000000000000008a;
    0x0000000000000088; 0x0000000080008009; 0x000000008000000a;
    0x000000008000808b; 0x800000000000008b; 0x8000000000008089;
    0x8000000000008003; 0x8000000000008002; 0x8000000000000080;
    0x000000000000800a; 0x800000008000000a; 0x8000000080008081;
    0x8000000000008080; 0x0000000080000001; 0x8000000080008008 ].

Definition rotc : list Z :=
  [ 1; 3; 6; 10; 15; 21; 28; 36; 45; 55; 2; 14;
    27; 41; 56; 8; 25; 43; 62; 18; 39; 61; 20; 44 ].

Definition piln : list nat :=
  [ 10; 7; 11; 17; 18; 3; 5; 16; 8; 21; 24; 4;
    15; 23; 19; 13; 12; 2; 20; 14; 22; 9; 6; 1 ]%nat.

Definition lane (st : list Z) (i : nat) : Z := nth i st 0.

Definition theta (st : list Z) : list Z :=
  let bc := map (fun i => fold_left Z.lxor
                   (map (fun j => lane st (i + 5 * j)) (seq 0 5)) 0) (seq 0 5) in
  let t i := Z.lxor (lane bc ((i + 4) mod 5)) (rol64 (lane bc ((i + 1) mod 5)) 1) in
  imap (fun k x => Z.lxor x (t (k mod 5)%nat)) st.

Fixpoint rho_pi_loop (steps : list (nat * Z)) (t : Z) (st : list Z) : list Z :=
  match steps with
  | [] => st
  | (j, r) :: rest =>
      let saved := lane st j in
      rho_pi_loop rest saved (<[j := rol64 t r]> st)
  end.

Definition rho_pi (st : list Z) : list Z :=
  rho_pi_loop (combine piln rotc) (lane st 1) st.

Definition chi (st : list Z) : list Z :=
  imap (fun k x =>
          let row := (5 * (k / 5))%nat in
          let i := (k mod 5)%nat in
          Z.lxor x (Z.land (not64 (lane st (row + (i + 1) mod 5)))
                           (lane st (row + (i + 2) mod 5)))) st.

Definition iota (rc : Z) (st : list Z) : list Z :=
  match st with
  | [] => []
  | x :: rest => Z.lxor x rc :: rest
  end.

Definition round (st : list Z) (rc : Z) : list Z :=
  iota rc (chi (rho_pi (theta st))).

Definition keccak_f (st : list Z) : list Z := fold_left round RC st.

(** Little-endian packing of eight bytes into a lane, and back. *)
Fixpoint le_to_Z (bs : list Z) : Z :=
  match bs with
  | [] => 0
  | b :: rest => b + 256 * le_to_Z rest
  end.

Fixpoint Z_to_le (n : nat) (x : Z) : list Z :=
  match n with
  | O => []
  | S n' => x mod 256 :: Z_to_le n' (x / 256)
  end.

Fixpoint chunks (fuel size : nat) (bs : list Z) : list (list Z) :=
  match fuel with
  | O => []
  | S fuel' =>
      match bs with
      | [] => []
      | _ => take size bs :: chunks fuel' size (drop size bs)
      end
  end.

Definition rate : nat := 136.

(** Original Keccak padding: 0x01, zeros, 0x80 (merged when one byte is
    missing). *)
Definition pad (bs : list Z) : list Z :=
  let missing := (rate - length bs mod rate)%nat in
  if (missing =? 1)%nat then bs ++ [0x81]
  else bs ++ [0x01] ++ replicate (missing - 2) 0 ++ [0x80].

Definition absorb (st : list Z) (block : list Z) : list Z :=
  let lanes := map le_to_Z (chunks 17 8 block) ++ replicate 8 0 in
  keccak_f (zip_with Z.lxor st lanes).

Definition digest_bytes (bs : list Z) : list Z :=
  let padded := pad bs in
  let blocks := chunks (length padded) rate padded in
  let st := fold_left absorb blocks (replicate 25 0) in
  take 32 (concat (map (Z_to_le 8) st)).

(** Big-endian reading of a byte string, as [bytes32] and [uint256] are. *)
Definition be_to_Z (bs : list Z) : Z := fold_left (fun acc b => acc * 256 + b) bs 0.

Definition Z_to_be (n : nat) (x : Z) : list Z := rev (Z_to_le n x).

Definition keccak256 (bs : list Z) : Z := be_to_Z (digest_bytes bs).

End Keccak.

Example keccak256_empty :
  Keccak.keccak256 [] = 0xc5d2460186f7233c927e7db2dcc703c0e500b653ca82273b7bfad8045d85a470.
Proof. vm_compute. reflexivity. Qed.

Example keccak256_abc :
  Keccak.keccak256 [0x61; 0x62; 0x63] =
  0x4e03657aea45a94fc7d47ba826c8d667c0d1e6e33a64a036ec44f58fa12d6c45.
Proof. vm_compute. reflexivity. Qed.

(** ** Elementary types *)

Definition address : Type := Z.
Definition bytes32 : Type := Z.

(** The five role identifiers. In the contract they are the Keccak hashes of
    their names ([role_id]); only these five are ever administered. *)
Inductive Role := ADMIN_ROLE | DOCTOR_ROLE | PATIENT_ROLE | LAB_TECH_ROLE | PHARMACY_ROLE.

#[global] Instance Role_eq_dec : EqDecision Role.
Proof. solve_decision. Defined.

Definition Role_to_nat (r : Role) : nat :=
  match r with
  | ADMIN_ROLE => 0 | DOCTOR_ROLE => 1 | PATIENT_ROLE => 2
  | LAB_TECH_ROLE => 3 | PHARMACY_ROLE => 4
  end%nat.

Definition Role_of_nat (n : nat) : option Role :=
  match n with
  | 0 => Some ADMIN_ROLE | 1 => Some DOCTOR_ROLE | 2 => Some PATIENT_ROLE
  | 3 => Some LAB_TECH_ROLE | 4 => Some PHARMACY_ROLE | _ => None
  end%nat.

#[global] Instance Role_countable : Countable Role.
Proof.
  apply (inj_countable Role_to_nat Role_of_nat).
  intros []; reflexivity.
Defined.

Definition ascii_bytes (s : string) : list Z :=
  map (fun c => Z.of_nat (Ascii.nat_of_ascii c)) (String.list_ascii_of_string s).

Definition role_name (r : Role) : string :=
  match r with
  | ADMIN_ROLE => "ADMIN_ROLE" | DOCTOR_ROLE => "DOCTOR_ROLE"
  | PATIENT_ROLE => "PATIENT_ROLE" | LAB_TECH_ROLE => "LAB_TECH_ROLE"
  | PHARMACY_ROLE => "PHARMACY_ROLE"
  end.

Definition role_id (r : Role) : bytes32 := Keccak.keccak256 (ascii_bytes (role_name r)).

Definition minutes : Z := 60.
Definition hours : Z := 3600.
Definition days : Z := 86400.

Definition MIN_BOOKING_BUFFER : Z := 15 * minutes.
Definition MIN_CANCELLATION_BUFFER : Z := 1 * hours.
Definition VERIFICATION_TIMEOUT : Z := 7 * days.
Definition DATA_MONETIZATION_REWARD : Z := 10 * 10 ^ 18.

Inductive AppointmentStatus := Pending | Confirmed | Completed | Cancelled | Emergency.
Inductive PaymentType := ETH | USDC | SONIC.
Inductive LabTestStatus := Requested | Collected | ResultsUploaded | Reviewed.
Inductive PrescriptionStatus := Generated | Verified | Fulfilled.
Inductive DataSharingStatus := Disabled | Enabled.

#[global] Instance AppointmentStatus_eq_dec : EqDecision AppointmentStatus.
Proof. solve_decision. Defined.
#[global] Instance PaymentType_eq_dec : EqDecision PaymentType.
Proof. solve_decision. Defined.
#[global] Instance LabTestStatus_eq_dec : EqDecision LabTestStatus.
Proof. solve_decision. Defined.
#[global] Instance PrescriptionStatus_eq_dec : EqDecision PrescriptionStatus.
Proof. solve_decision. Defined.
#[global] Instance DataSharingStatus_eq_dec : EqDecision DataSharingStatus.
Proof. solve_decision. Defined.

(** ** Structs

    One module per struct keeps the field names of the source. [default] is
    the value an unwritten mapping slot reads as. *)

Module GamificationData.
Record t := mk { mediPoints : Z; currentLevel : Z }.
Definition default : t := mk 0 0.
End GamificationData.

Module Patient.
Record t := mk {
  isRegistered : bool;
  encryptedSymmetricKey : string;
  medicalHistoryHash : bytes32;
  gamification : GamificationData.t;
  dataSharing : DataSharingStatus;
  lastRewardTimestamp : Z
}.
Definition default : t := mk false "" 0 GamificationData.default Disabled 0.

Definition with_mediPoints (v : Z) (p : t) : t :=
  mk (isRegistered p) (encryptedSymmetricKey p) (medicalHistoryHash p)
     (GamificationData.mk v (GamificationData.currentLevel (gamification p)))
     (dataSharing p) (lastRewardTimestamp p).
Definition with_dataSharing (v : DataSharingStatus) (p : t) : t :=
  mk (isRegistered p) (encryptedSymmetricKey p) (medicalHistoryHash p)
     (gamification p) v (lastRewardTimestamp p).
Definition with_lastRewardTimestamp (v : Z) (p : t) : t :=
  mk (isRegistered p) (encryptedSymmetricKey p) (medicalHistoryHash p)
     (gamification p) (dataSharing p) v.
End Patient.

Module Doctor.
Record t := mk { isVerified : bool; consultationFee : Z; licenseNumber : string }.
Definition default : t := mk false 0 "".
End Doctor.

Module LabTechnician.
Record t := mk { isVerified : bool; licenseNumber : string }.
Definition default : t := mk false "".
End LabTechnician.

Module Pharmacy.
Record t := mk { isRegistered : bool; licenseNumber : string }.
Definition default : t := mk false "".
End Pharmacy.

Module Appointment.
Record t := mk {
  id : Z;
  patient : address;
  doctor : address;
  scheduledTimestamp : Z;
  status : AppointmentStatus;
  fee : Z;
  paymentType : PaymentType;
  videoCallLink : string;
  isVideoCall : bool
}.
Definition default : t := mk 0 0 0 0 Pending 0 ETH "" false.

Definition with_status (v : AppointmentStatus) (a : t) : t :=
  mk (id a) (patient a) (doctor a) (scheduledTimestamp a) v (fee a)
     (paymentType a) (videoCallLink a) (isVideoCall a).
End Appointment.

Module LabTestOrder.
Record t := mk {
  id : Z;
  patient : address;
  doctor : address;
  labTech : address;
  status : LabTestStatus;
  testType : string;
  sampleCollectionIpfsHash : string;
  resultsIpfsHash : string;
  orderedTimestamp : Z;
  completedTimestamp : Z
}.
Definition default : t := mk 0 0 0 0 Requested "" "" "" 0 0.

Definition with_labTech (v : address) (o : t) : t :=
  mk (id o) (patient o) (doctor o) v (status o) (testType o)
     (sampleCollectionIpfsHash o) (resultsIpfsHash o) (orderedTimestamp o)
     (completedTimestamp o).
Definition with_status (v : LabTestStatus) (o : t) : t :=
  mk (id o) (patient o) (doctor o) (labTech o) v (testType o)
     (sampleCollectionIpfsHash o) (resultsIpfsHash o) (orderedTimestamp o)
     (completedTimestamp o).
Definition with_sampleCollectionIpfsHash (v : string) (o : t) : t :=
  mk (id o) (patient o) (doctor o) (labTech o) (status o) (testType o)
     v (resultsIpfsHash o) (orderedTimestamp o) (completedTimestamp o).
Definition with_resultsIpfsHash (v : string) (o : t) : t :=
  mk (id o) (patient o) (doctor o) (labTech o) (status o) (testType o)
     (sampleCollectionIpfsHash o) v (orderedTimestamp o) (completedTimestamp o).
Definition with_completedTimestamp (v : Z) (o : t) : t :=
  mk (id o) (patient o) (doctor o) (labTech o) (status o) (testType o)
     (sampleCollectionIpfsHash o) (resultsIpfsHash o) (orderedTimestamp o) v.
End LabTestOrder.

Module Prescription.
Record t := mk {
  id : Z;
  patient : address;
  doctor : address;
  verificationCodeHash : bytes32;
  medicationDetails : string;
  prescriptionIpfsHash : string;
  status : PrescriptionStatus;
  pharmacy : address;
  generatedTimestamp : Z;
  expirationTimestamp : Z
}.
Definition default : t := mk 0 0 0 0 "" "" Generated 0 0 0.

Definition with_status (v : PrescriptionStatus) (p : t) : t :=
  mk (id p) (patient p) (doctor p) (verificationCodeHash p) (medicationDetails p)
     (prescriptionIpfsHash p) v (pharmacy p) (generatedTimestamp p)
     (expirationTimestamp p).
Definition with_pharmacy (v : address) (p : t) : t :=
  mk (id p) (patient p) (doctor p) (verificationCodeHash p) (medicationDetails p)
     (prescriptionIpfsHash p) (status p) v (generatedTimestamp p)
     (expirationTimestamp p).
End Prescription.

Module AISymptomAnalysis.
Record t := mk {
  id : Z;
  patient : address;
  symptoms : string;
  analysisIpfsHash : string;
  doctorReviewed : bool
}.
Definition default : t := mk 0 0 "" "" false.

Definition with_analysisIpfsHash (v : string) (a : t) : t :=
  mk (id a) (patient a) (symptoms a) v (doctorReviewed a).
Definition with_doctorReviewed (v : bool) (a : t) : t :=
  mk (id a) (patient a) (symptoms a) (analysisIpfsHash a) v.
End AISymptomAnalysis.

(** ** Events *)

Inductive Event :=
| RoleGranted (role : Role) (account sender : address)
| RoleRevoked (role : Role) (account sender : address)
| PatientRegistered (patient : address)
| DoctorVerified (doctor : address)
| LabTechnicianVerified (labTech : address)
| PharmacyRegistered (pharmacy : address)
| AppointmentBooked (id : Z) (patient : address)
| LabTestOrdered (id : Z) (patient : address)
| LabTestResultsUploaded (id : Z) (ipfsHash : string)
| PrescriptionGenerated (id : Z) (patient : address)
| PrescriptionVerified (id : Z) (pharmacy : address)
| PrescriptionFulfilled (id : Z) (pharmacy : address)
| AISymptomAnalyzed (id : Z) (patient : address)
| VideoCallStarted (appointmentId : Z) (videoCallLink : string)
| DataMonetizationOptIn (patient : address) (enabled : bool)
| DataRewardClaimed (patient : address) (amount : Z).

#[global] Instance Event_eq_dec : EqDecision Event.
Proof. solve_decision. Defined.

(** ** Reverts *)

Inductive Failure :=
| Require (reason : string)                  (* a failed [require] *)
| MissingRole (account : address) (role : Role)  (* [onlyRole] *)
| Panic (code : Z)                           (* 0x11: checked arithmetic *)
| CallReverted                               (* an external call reverted *)
| NotPayable                                 (* value sent to a non-payable function *)
| OutOfFunds.                                (* the sender cannot cover [msg.value] *)

Inductive Result (A : Type) :=
| Ok (a : A)
| Revert (f : Failure).
Arguments Ok {A} a.
Arguments Revert {A} f.

(** Call context. *)
Record Env := mkEnv { msg_sender : address; msg_value : Z; block_timestamp : Z }.

(** ** Token collaborator *)

(** Modelled from the spec: the token-transfer collaborator of section 6
    ([transferFrom], [transfer], [balanceOf]); the ERC-20 contracts behind
    [usdcToken] and [sonicToken] are not part of the sources. The first
    argument of the two transfers is the calling contract; [None] is a call
    that reverts, [Some (b, t)] a call that returns [b] and leaves the token
    in state [t]. *)
Class ERC20 (T : Type) := {
  balanceOf : T -> address -> Z;
  transfer : address -> address -> Z -> T -> option (bool * T);
  transferFrom : address -> address -> address -> Z -> T -> option (bool * T)
}.

Declare Scope sol_scope.
Delimit Scope sol_scope with sol.

Section Contract.

Context {T : Type} `{!ERC20 T}.

(** ** The world: contract storage, native balances, the two tokens and the
    event log (newest event first).

    [_roles], [_paused] and [_entered] are the storage of the inherited
    access-control, pause and reentrancy-guard mixins. [rejecting] is the
    set of accounts whose code refuses a plain native-currency transfer. *)

Record State : Type := mkState {
  self : address;
  _roles : gset (Role * address);
  _paused : bool;
  _entered : bool;
  patients : gmap address Patient.t;
  doctors : gmap address Doctor.t;
  labTechnicians : gmap address LabTechnician.t;
  pharmacies : gmap address Pharmacy.t;
  appointments : gmap Z Appointment.t;
  labTestOrders : gmap Z LabTestOrder.t;
  prescriptions : gmap Z Prescription.t;
  aiAnalyses : gmap Z AISymptomAnalysis.t;
  appointmentCounter : Z;
  labTestCounter : Z;
  prescriptionCounter : Z;
  aiAnalysisCounter : Z;
  balances : gmap address Z;
  rejecting : gset address;
  sonicToken : T;
  usdcToken : T;
  events : list Event
}.

Definition with_roles (v : gset (Role * address)) (s : State) : State :=
  mkState (self s) v (_paused s) (_entered s) (patients s) (doctors s)
    (labTechnicians s) (pharmacies s) (appointments s) (labTestOrders s)
    (prescriptions s) (aiAnalyses s) (appointmentCounter s)
    (labTestCounter s) (prescriptionCounter s) (aiAnalysisCounter s)
    (balances s) (rejecting s) (sonicToken s) (usdcToken s) (events s).

Definition with_entered (v : bool) (s : State) : State :=
  mkState (self s) (_roles s) (_paused s) v (patients s) (doctors s)
    (labTechnicians s) (pharmacies s) (appointments s) (labTestOrders s)
    (prescriptions s) (aiAnalyses s) (appointmentCounter s)
    (labTestCounter s) (prescriptionCounter s) (aiAnalysisCounter s)
    (balances s) (rejecting s) (sonicToken s) (usdcToken s) (events s).

Definition with_patients (v : gmap address Patient.t) (s : State) : State :=
  mkState (self s) (_roles s) (_paused s) (_entered s) v (doctors s)
    (labTechnicians s) (pharmacies s) (appointments s) (labTestOrders s)
    (prescriptions s) (aiAnalyses s) (appointmentCounter s)
    (labTestCounter s) (prescriptionCounter s) (aiAnalysisCounter s)
    (balances s) (rejecting s) (sonicToken s) (usdcToken s) (events s).

Definition with_doctors (v : gmap address Doctor.t) (s : State) : State :=
  mkState (self s) (_roles s) (_paused s) (_entered s) (patients s) v
    (labTechnicians s) (pharmacies s) (appointments s) (labTestOrders s)
    (prescriptions s) (aiAnalyses s) (appointmentCounter s)
    (labTestCounter s) (prescriptionCounter s) (aiAnalysisCounter s)
    (balances s) (rejecting s) (sonicToken s) (usdcToken s) (events s).

Definition with_labTechnicians (v : gmap address LabTechnician.t) (s : State) : State :=
  mkState (self s) (_roles s) (_paused s) (_entered s) (patients s)
    (doctors s) v (pharmacies s) (appointments s) (labTestOrders s)
    (prescriptions s) (aiAnalyses s) (appointmentCounter s)
    (labTestCounter s) (prescriptionCounter s) (aiAnalysisCounter s)
    (balances s) (rejecting s) (sonicToken s) (usdcToken s) (events s).

Definition with_pharmacies (v : gmap address Pharmacy.t) (s : State) : State :=
  mkState (self s) (_roles s) (_paused s) (_entered s) (patients s)
    (doctors s) (labTechnicians s) v (appointments s) (labTestOrders s)
    (prescriptions s) (aiAnalyses s) (appointmentCounter s)
    (labTestCounter s) (prescriptionCounter s) (aiAnalysisCounter s)
    (balances s) (rejecting s) (sonicToken s) (usdcToken s) (events s).

Definition with_appointments (v : gmap Z Appointment.t) (s : State) : State :=
  mkState (self s) (_roles s) (_paused s) (_entered s) (patients s)
    (doctors s) (labTechnicians s) (pharmacies s) v (labTestOrders s)
    (prescriptions s) (aiAnalyses s) (appointmentCounter s)
    (labTestCounter s) (prescriptionCounter s) (aiAnalysisCounter s)
    (balances s) (rejecting s) (sonicToken s) (usdcToken s) (events s).

Definition with_labTestOrders (v : gmap Z LabTestOrder.t) (s : State) : State :=
  mkState (self s) (_roles s) (_paused s) (_entered s) (patients s)
    (doctors s) (labTechnicians s) (pharmacies s) (appointments s) v
    (prescriptions s) (aiAnalyses s) (appointmentCounter s)
    (labTestCounter s) (prescriptionCounter s) (aiAnalysisCounter s)
    (balances s) (rejecting s) (sonicToken s) (usdcToken s) (events s).

Definition with_prescriptions (v : gmap Z Prescription.t) (s : State) : State :=
  mkState (self s) (_roles s) (_paused s) (_entered s) (patients s)
    (doctors s) (labTechnicians s) (pharmacies s) (appointments s)
    (labTestOrders s) v (aiAnalyses s) (appointmentCounter s)
    (labTestCounter s) (prescriptionCounter s) (aiAnalysisCounter s)
    (balances s) (rejecting s) (sonicToken s) (usdcToken s) (events s).

Definition with_aiAnalyses (v : gmap Z AISymptomAnalysis.t) (s : State) : State :=
  mkState (self s) (_roles s) (_paused s) (_entered s) (patients s)
    (doctors s) (labTechnicians s) (pharmacies s) (appointments s)
    (labTestOrders s) (prescriptions s) v (appointmentCounter s)
    (labTestCounter s) (prescriptionCounter s) (aiAnalysisCounter s)
    (balances s) (rejecting s) (sonicToken s) (usdcToken s) (events s).

Definition with_appointmentCounter (v : Z) (s : State) : State :=
  mkState (self s) (_roles s) (_paused s) (_entered s) (patients s)
    (doctors s) (labTechnicians s) (pharmacies s) (appointments s)
    (labTestOrders s) (prescriptions s) (aiAnalyses s) v (labTestCounter s)
    (prescriptionCounter s) (aiAnalysisCounter s) (balances s) (rejecting s)
    (sonicToken s) (usdcToken s) (events s).

Definition with_labTestCounter (v : Z) (s : State) : State :=
  mkState (self s) (_roles s) (_paused s) (_entered s) (patients s)
    (doctors s) (labTechnicians s) (pharmacies s) (appointments s)
    (labTestOrders s) (prescriptions s) (aiAnalyses s)
    (appointmentCounter s) v (prescriptionCounter s) (aiAnalysisCounter s)
    (balances s) (rejecting s) (sonicToken s) (usdcToken s) (events s).

Definition with_prescriptionCounter (v : Z) (s : State) : State :=
  mkState (self s) (_roles s) (_paused s) (_entered s) (patients s)
    (doctors s) (labTechnicians s) (pharmacies s) (appointments s)
    (labTestOrders s) (prescriptions s) (aiAnalyses s)
    (appointmentCounter s) (labTestCounter s) v (aiAnalysisCounter s)
    (balances s) (rejecting s) (sonicToken s) (usdcToken s) (events s).

Definition with_aiAnalysisCounter (v : Z) (s : State) : State :=
  mkState (self s) (_roles s) (_paused s) (_entered s) (patients s)
    (doctors s) (labTechnicians s) (pharmacies s) (appointments s)
    (labTestOrders s) (prescriptions s) (aiAnalyses s)
    (appointmentCounter s) (labTestCounter s) (prescriptionCounter s) v
    (balances s) (rejecting s) (sonicToken s) (usdcToken s) (events s).

Definition with_balances (v : gmap address Z) (s : State) : State :=
  mkState (self s) (_roles s) (_paused s) (_entered s) (patients s)
    (doctors s) (labTechnicians s) (pharmacies s) (appointments s)
    (labTestOrders s) (prescriptions s) (aiAnalyses s)
    (appointmentCounter s) (labTestCounter s) (prescriptionCounter s)
    (aiAnalysisCounter s) v (rejecting s) (sonicToken s) (usdcToken s)
    (events s).

Definition with_sonicToken (v : T) (s : State) : State :=
  mkState (self s) (_roles s) (_paused s) (_entered s) (patients s)
    (doctors s) (labTechnicians s) (pharmacies s) (appointments s)
    (labTestOrders s) (prescriptions s) (aiAnalyses s)
    (appointmentCounter s) (labTestCounter s) (prescriptionCounter s)
    (aiAnalysisCounter s) (balances s) (rejecting s) v (usdcToken s)
    (events s).

Definition with_usdcToken (v : T) (s : State) : State :=
  mkState (self s) (_roles s) (_paused s) (_entered s) (patients s)
    (doctors s) (labTechnicians s) (pharmacies s) (appointments s)
    (labTestOrders s) (prescriptions s) (aiAnalyses s)
    (appointmentCounter s) (labTestCounter s) (prescriptionCounter s)
    (aiAnalysisCounter s) (balances s) (rejecting s) (sonicToken s) v
    (events s).

Definition with_events (v : list Event) (s : State) : State :=
  mkState (self s) (_roles s) (_paused s) (_entered s) (patients s)
    (doctors s) (labTechnicians s) (pharmacies s) (appointments s)
    (labTestOrders s) (prescriptions s) (aiAnalyses s)
    (appointmentCounter s) (labTestCounter s) (prescriptionCounter s)
    (aiAnalysisCounter s) (balances s) (rejecting s) (sonicToken s)
    (usdcToken s) v.

(** ** State-and-revert monad *)

Definition M (A : Type) : Type := State -> Result (A * State).

Definition ret {A} (a : A) : M A := fun s => Ok (a, s).

Definition bind {A B} (m : M A) (k : A -> M B) : M B :=
  fun s => match m s with
           | Ok (a, s') => k a s'
           | Revert f => Revert f
           end.

Definition get : M State := fun s => Ok (s, s).
Definition modify (f : State -> State) : M unit := fun s => Ok (tt, f s).
Definition revert {A} (f : Failure) : M A := fun _ => Revert f.

Definition require (b : bool) (reason : string) : M unit :=
  if b then ret tt else revert (Require reason).

Definition emit (e : Event) : M unit :=
  modify (fun s => with_events (e :: events s) s).

Notation "x <- c1 ;; c2" := (bind c1 (fun x => c2))
  (at level 100, c1 at next level, c2 at level 200, right associativity) : sol_scope.
Notation "c1 ;; c2" := (bind c1 (fun _ => c2))
  (at level 100, c2 at level 200, right associativity) : sol_scope.
Local Open Scope sol_scope.

(** Checked arithmetic of the 0.8 compiler. *)
Definition checked_add (w a b : Z) : M Z :=
  if a + b <=? UInt.max w then ret (a + b) else revert (Panic 0x11).

(** ** Mapping reads: an unwritten slot reads as the zero value *)

Definition patientOf (s : State) (a : address) : Patient.t :=
  default Patient.default (patients s !! a).
Definition doctorOf (s : State) (a : address) : Doctor.t :=
  default Doctor.default (doctors s !! a).
Definition appointmentOf (s : State) (i : Z) : Appointment.t :=
  default Appointment.default (appointments s !! i).
Definition getLabTestDetails (s : State) (_labTestId : Z) : LabTestOrder.t :=
  default LabTestOrder.default (labTestOrders s !! _labTestId).
Definition getPrescriptionDetails (s : State) (_prescriptionId : Z) : Prescription.t :=
  default Prescription.default (prescriptions s !! _prescriptionId).
Definition getAIAnalysisDetails (s : State) (_aiAnalysisId : Z) : AISymptomAnalysis.t :=
  default AISymptomAnalysis.default (aiAnalyses s !! _aiAnalysisId).
Definition getPatientDataStatus (s : State) (_patient : address) : DataSharingStatus * Z :=
  (Patient.dataSharing (patientOf s _patient),
   Patient.lastRewardTimestamp (patientOf s _patient)).

Definition balance (s : State) (a : address) : Z := default 0 (balances s !! a).

(** ** Inherited mixins *)

Definition hasRole (s : State) (role : Role) (account : address) : bool :=
  bool_decide ((role, account) ∈ _roles s).

Definition onlyRole (env : Env) (role : Role) : M unit :=
  s <- get ;;
  if hasRole s role (msg_sender env) then ret tt
  else revert (MissingRole (msg_sender env) role).

Definition _grantRole (env : Env) (role : Role) (account : address) : M unit :=
  s <- get ;;
  if hasRole s role account then ret tt
  else modify (with_roles ({[ (role, account) ]} ∪ _roles s)) ;;
       emit (RoleGranted role account (msg_sender env)).

Definition _revokeRole (env : Env) (role : Role) (account : address) : M unit :=
  s <- get ;;
  if hasRole s role account
  then modify (with_roles (_roles s ∖ {[ (role, account) ]})) ;;
       emit (RoleRevoked role account (msg_sender env))
  else ret tt.

Definition whenNotPaused : M unit :=
  s <- get ;; require (negb (_paused s)) "Pausable: paused".

Definition nonReentrant {A} (body : M A) : M A :=
  s <- get ;;
  require (negb (_entered s)) "ReentrancyGuard: reentrant call" ;;
  modify (with_entered true) ;;
  r <- body ;;
  modify (with_entered false) ;;
  ret r.

(** ** External calls *)

Definition ledger_move (from to : address) (amount : Z)
           (bal : gmap address Z) : gmap address Z :=
  let bal1 := <[from := default 0 (bal !! from) - amount]> bal in
  <[to := default 0 (bal1 !! to) + amount]> bal1.

(** [payable(to).transfer(amount)] *)
Definition native_transfer (to : address) (amount : Z) : M unit :=
  s <- get ;;
  if bool_decide (to ∈ rejecting s) || (balance s (self s) <? amount)
  then revert CallReverted
  else modify (with_balances (ledger_move (self s) to amount (balances s))).

Definition sonic_transfer (to : address) (amount : Z) : M bool :=
  fun s => match transfer (self s) to amount (sonicToken s) with
           | None => Revert CallReverted
           | Some (b, t') => Ok (b, with_sonicToken t' s)
           end.

Definition sonic_transferFrom (from to : address) (amount : Z) : M bool :=
  fun s => match transferFrom (self s) from to amount (sonicToken s) with
           | None => Revert CallReverted
           | Some (b, t') => Ok (b, with_sonicToken t' s)
           end.

Definition usdc_transferFrom (from to : address) (amount : Z) : M bool :=
  fun s => match transferFrom (self s) from to amount (usdcToken s) with
           | None => Revert CallReverted
           | Some (b, t') => Ok (b, with_usdcToken t' s)
           end.

Definition abi_encodePacked_uint256_address_uint256 (a : Z) (b : address) (c : Z) : list Z :=
  Keccak.Z_to_be 32 a ++ Keccak.Z_to_be 20 b ++ Keccak.Z_to_be 32 c.

(** ** Internal functions *)

Definition _processPayment (env : Env) (_type : PaymentType) (_amount : Z) : M unit :=
  match _type with
  | ETH =>
      require (_amount <=? msg_value env) "Insufficient ETH" ;;
      if _amount <? msg_value env
      then native_transfer (msg_sender env) (msg_value env - _amount)
      else ret tt
  | USDC =>
      s <- get ;;
      ok <- usdc_transferFrom (msg_sender env) (self s) _amount ;;
      require ok "USDC transfer failed"
  | SONIC =>
      s <- get ;;
      ok <- sonic_transferFrom (msg_sender env) (self s) _amount ;;
      require ok "SONIC transfer failed"
  end.

(** The guard of [_monetizeData]; [&&] does not evaluate the sum when
    sharing is disabled. *)
Definition reward_due (env : Env) (patient : Patient.t) : M bool :=
  match Patient.dataSharing patient with
  | Disabled => ret false
  | Enabled =>
      next <- checked_add 256 (Patient.lastRewardTimestamp patient) (1 * days) ;;
      ret (next <=? block_timestamp env)
  end.

Definition _monetizeData (env : Env) (_patient : address) : M unit :=
  s <- get ;;
  let patient := patientOf s _patient in
  due <- reward_due env patient ;;
  if due then
    modify (with_patients
              (<[_patient := Patient.with_lastRewardTimestamp (block_timestamp env) patient]>
                 (patients s))) ;;
    _ <- sonic_transfer _patient DATA_MONETIZATION_REWARD ;;
    emit (DataRewardClaimed _patient DATA_MONETIZATION_REWARD)
  else ret tt.

(** ** Admin functions *)

Definition verifyDoctor (env : Env) (_doctor : address) (_licenseNumber : string)
           (_fee : Z) : M unit :=
  onlyRole env ADMIN_ROLE ;;
  s <- get ;;
  modify (with_doctors (<[_doctor := Doctor.mk true _fee _licenseNumber]> (doctors s))) ;;
  _grantRole env DOCTOR_ROLE _doctor ;;
  emit (DoctorVerified _doctor).

Definition verifyLabTechnician (env : Env) (_labTech : address)
           (_licenseNumber : string) : M unit :=
  onlyRole env ADMIN_ROLE ;;
  s <- get ;;
  modify (with_labTechnicians
            (<[_labTech := LabTechnician.mk true _licenseNumber]> (labTechnicians s))) ;;
  _grantRole env LAB_TECH_ROLE _labTech ;;
  emit (LabTechnicianVerified _labTech).

Definition registerPharmacy (env : Env) (_pharmacy : address)
           (_licenseNumber : string) : M unit :=
  onlyRole env ADMIN_ROLE ;;
  s <- get ;;
  modify (with_pharmacies
            (<[_pharmacy := Pharmacy.mk true _licenseNumber]> (pharmacies s))) ;;
  _grantRole env PHARMACY_ROLE _pharmacy ;;
  emit (PharmacyRegistered _pharmacy).

(** ** Patient functions *)

Definition registerPatient (env : Env) (_encryptedSymmetricKey : string) : M unit :=
  whenNotPaused ;;
  s <- get ;;
  require (negb (Patient.isRegistered (patientOf s (msg_sender env)))) "Already registered" ;;
  modify (with_patients
            (<[msg_sender env :=
                 Patient.mk true _encryptedSymmetricKey 0 (GamificationData.mk 0 1)
                            Disabled 0]> (patients s))) ;;
  _grantRole env PATIENT_ROLE (msg_sender env) ;;
  emit (PatientRegistered (msg_sender env)).

(** [patients[who].gamification.mediPoints += points] on a [uint96]. *)
Definition add_mediPoints (who : address) (points : Z) : M unit :=
  s <- get ;;
  let patient := patientOf s who in
  total <- checked_add 96 (GamificationData.mediPoints (Patient.gamification patient)) points ;;
  modify (with_patients (<[who := Patient.with_mediPoints total patient]> (patients s))).

Definition bookAppointment (env : Env) (_doctor : address) (_timestamp : Z)
           (_paymentType : PaymentType) (_isVideoCall : bool)
           (_videoCallLink : string) : M unit :=
  onlyRole env PATIENT_ROLE ;;
  nonReentrant (
    s <- get ;;
    require (Doctor.isVerified (doctorOf s _doctor)) "Doctor not verified" ;;
    earliest <- checked_add 256 (block_timestamp env) MIN_BOOKING_BUFFER ;;
    require (earliest <? _timestamp) "Too soon" ;;
    let fee := Doctor.consultationFee (doctorOf s _doctor) in
    _processPayment env _paymentType fee ;;
    s <- get ;;
    counter <- checked_add 256 (appointmentCounter s) 1 ;;
    modify (with_appointmentCounter counter) ;;
    s <- get ;;
    modify (with_appointments
              (<[counter :=
                   Appointment.mk counter (msg_sender env) _doctor _timestamp Pending fee
                                  _paymentType
                                  (if _isVideoCall then _videoCallLink else "")
                                  _isVideoCall]> (appointments s))) ;;
    add_mediPoints (msg_sender env) 20 ;;
    emit (AppointmentBooked counter (msg_sender env))).

(** The four functions that end in [_monetizeData] are written as their
    own statements, which yield the patient the trigger is fired for,
    followed by the trigger. *)
Definition requestAISymptomAnalysis_own (env : Env) (_symptoms : string) : M address :=
  onlyRole env PATIENT_ROLE ;;
  s <- get ;;
  counter <- checked_add 256 (aiAnalysisCounter s) 1 ;;
  modify (with_aiAnalysisCounter counter) ;;
  s <- get ;;
  modify (with_aiAnalyses
            (<[counter := AISymptomAnalysis.mk counter (msg_sender env) _symptoms "" false]>
               (aiAnalyses s))) ;;
  add_mediPoints (msg_sender env) 10 ;;
  emit (AISymptomAnalyzed counter (msg_sender env)) ;;
  ret (msg_sender env).

Definition requestAISymptomAnalysis (env : Env) (_symptoms : string) : M unit :=
  patient <- requestAISymptomAnalysis_own env _symptoms ;;
  _monetizeData env patient.

(** ** Data monetization functions *)

Definition toggleDataMonetization (env : Env) (_enable : bool) : M unit :=
  onlyRole env PATIENT_ROLE ;;
  s <- get ;;
  let patient := patientOf s (msg_sender env) in
  require (Patient.isRegistered patient) "Not registered" ;;
  modify (with_patients
            (<[msg_sender env :=
                 Patient.with_dataSharing (if _enable then Enabled else Disabled) patient]>
               (patients s))) ;;
  emit (DataMonetizationOptIn (msg_sender env) _enable).

Definition claimDataReward (env : Env) : M unit :=
  onlyRole env PATIENT_ROLE ;;
  nonReentrant (
    s <- get ;;
    let patient := patientOf s (msg_sender env) in
    require (bool_decide (Patient.dataSharing patient = Enabled)) "Data sharing not enabled" ;;
    next <- checked_add 256 (Patient.lastRewardTimestamp patient) (1 * days) ;;
    require (next <=? block_timestamp env) "Reward not yet available" ;;
    require (DATA_MONETIZATION_REWARD <=? balanceOf (sonicToken s) (self s))
            "Insufficient SONIC tokens" ;;
    modify (with_patients
              (<[msg_sender env :=
                   Patient.with_lastRewardTimestamp (block_timestamp env) patient]>
                 (patients s))) ;;
    _ <- sonic_transfer (msg_sender env) DATA_MONETIZATION_REWARD ;;
    emit (DataRewardClaimed (msg_sender env) DATA_MONETIZATION_REWARD)).

(** ** Doctor functions *)

Definition confirmAppointment (env : Env) (_appointmentId : Z) : M unit :=
  onlyRole env DOCTOR_ROLE ;;
  s <- get ;;
  let apt := appointmentOf s _appointmentId in
  require (bool_decide (Appointment.doctor apt = msg_sender env)) "Not your appointment" ;;
  require (bool_decide (Appointment.status apt = Pending)) "Not pending" ;;
  modify (with_appointments
            (<[_appointmentId := Appointment.with_status Confirmed apt]> (appointments s))) ;;
  if Appointment.isVideoCall apt
  then emit (VideoCallStarted _appointmentId (Appointment.videoCallLink apt))
  else ret tt.

Definition orderLabTest_own (env : Env) (_patient : address) (_testType : string)
  : M address :=
  onlyRole env DOCTOR_ROLE ;;
  s <- get ;;
  require (Patient.isRegistered (patientOf s _patient)) "Patient not registered" ;;
  counter <- checked_add 256 (labTestCounter s) 1 ;;
  modify (with_labTestCounter counter) ;;
  s <- get ;;
  modify (with_labTestOrders
            (<[counter :=
                 LabTestOrder.mk counter _patient (msg_sender env) 0 Requested _testType
                                 "" "" (UInt.cast 48 (block_timestamp env)) 0]>
               (labTestOrders s))) ;;
  emit (LabTestOrdered counter _patient) ;;
  ret _patient.

Definition orderLabTest (env : Env) (_patient : address) (_testType : string) : M unit :=
  patient <- orderLabTest_own env _patient _testType ;;
  _monetizeData env patient.

Definition reviewLabResults_own (env : Env) (_labTestId : Z) (_medicationDetails : string)
           (_prescriptionIpfsHash : string) : M address :=
  onlyRole env DOCTOR_ROLE ;;
  s <- get ;;
  let order := getLabTestDetails s _labTestId in
  require (bool_decide (LabTestOrder.doctor order = msg_sender env)) "Not your order" ;;
  require (bool_decide (LabTestOrder.status order = ResultsUploaded)) "Results not uploaded" ;;
  let order' :=
    LabTestOrder.with_completedTimestamp (UInt.cast 48 (block_timestamp env))
      (LabTestOrder.with_status Reviewed order) in
  modify (with_labTestOrders (<[_labTestId := order']> (labTestOrders s))) ;;
  s <- get ;;
  counter <- checked_add 256 (prescriptionCounter s) 1 ;;
  modify (with_prescriptionCounter counter) ;;
  let verificationCodeHash :=
    Keccak.keccak256
      (abi_encodePacked_uint256_address_uint256 counter (msg_sender env)
                                                (block_timestamp env)) in
  expiry <- checked_add 256 (block_timestamp env) (30 * days) ;;
  s <- get ;;
  modify (with_prescriptions
            (<[counter :=
                 Prescription.mk counter (LabTestOrder.patient order') (msg_sender env)
                                 verificationCodeHash _medicationDetails
                                 _prescriptionIpfsHash Generated 0
                                 (UInt.cast 48 (block_timestamp env))
                                 (UInt.cast 48 expiry)]> (prescriptions s))) ;;
  emit (PrescriptionGenerated counter (LabTestOrder.patient order')) ;;
  ret (LabTestOrder.patient order').

Definition reviewLabResults (env : Env) (_labTestId : Z) (_medicationDetails : string)
           (_prescriptionIpfsHash : string) : M unit :=
  patient <- reviewLabResults_own env _labTestId _medicationDetails _prescriptionIpfsHash ;;
  _monetizeData env patient.

Definition reviewAISymptomAnalysis (env : Env) (_aiAnalysisId : Z)
           (_analysisIpfsHash : string) : M unit :=
  onlyRole env DOCTOR_ROLE ;;
  s <- get ;;
  let analysis := getAIAnalysisDetails s _aiAnalysisId in
  require (negb (AISymptomAnalysis.doctorReviewed analysis)) "Already reviewed" ;;
  modify (with_aiAnalyses
            (<[_aiAnalysisId :=
                 AISymptomAnalysis.with_doctorReviewed true
                   (AISymptomAnalysis.with_analysisIpfsHash _analysisIpfsHash analysis)]>
               (aiAnalyses s))).

(** ** Lab technician functions *)

Definition collectSample (env : Env) (_labTestId : Z) (_ipfsHash : string) : M unit :=
  onlyRole env LAB_TECH_ROLE ;;
  s <- get ;;
  let order := getLabTestDetails s _labTestId in
  require (bool_decide (LabTestOrder.status order = Requested)) "Invalid status" ;;
  modify (with_labTestOrders
            (<[_labTestId :=
                 LabTestOrder.with_status Collected
                   (LabTestOrder.with_sampleCollectionIpfsHash _ipfsHash
                      (LabTestOrder.with_labTech (msg_sender env) order))]>
               (labTestOrders s))).

Definition uploadLabResults_own (env : Env) (_labTestId : Z) (_resultsIpfsHash : string)
  : M address :=
  onlyRole env LAB_TECH_ROLE ;;
  s <- get ;;
  let order := getLabTestDetails s _labTestId in
  require (bool_decide (LabTestOrder.labTech order = msg_sender env)) "Not your order" ;;
  require (bool_decide (LabTestOrder.status order = Collected)) "Sample not collected" ;;
  modify (with_labTestOrders
            (<[_labTestId :=
                 LabTestOrder.with_status ResultsUploaded
                   (LabTestOrder.with_resultsIpfsHash _resultsIpfsHash order)]>
               (labTestOrders s))) ;;
  emit (LabTestResultsUploaded _labTestId _resultsIpfsHash) ;;
  ret (LabTestOrder.patient order).

Definition uploadLabResults (env : Env) (_labTestId : Z) (_resultsIpfsHash : string) : M unit :=
  patient <- uploadLabResults_own env _labTestId _resultsIpfsHash ;;
  _monetizeData env patient.

(** ** Pharmacy functions *)

Definition verifyPrescription (env : Env) (_prescriptionId : Z)
           (_verificationCodeHash : bytes32) : M unit :=
  onlyRole env PHARMACY_ROLE ;;
  s <- get ;;
  let prescription := getPrescriptionDetails s _prescriptionId in
  require (bool_decide (Prescription.status prescription = Generated)) "Invalid status" ;;
  require (bool_decide (Prescription.verificationCodeHash prescription = _verificationCodeHash))
          "Invalid code" ;;
  modify (with_prescriptions
            (<[_prescriptionId :=
                 Prescription.with_pharmacy (msg_sender env)
                   (Prescription.with_status Verified prescription)]>
               (prescriptions s))) ;;
  emit (PrescriptionVerified _prescriptionId (msg_sender env)).

Definition fulfillPrescription (env : Env) (_prescriptionId : Z) : M unit :=
  onlyRole env PHARMACY_ROLE ;;
  s <- get ;;
  let prescription := getPrescriptionDetails s _prescriptionId in
  require (bool_decide (Prescription.pharmacy prescription = msg_sender env))
          "Not your prescription" ;;
  require (bool_decide (Prescription.status prescription = Verified)) "Not verified" ;;
  require (block_timestamp env <=? Prescription.expirationTimestamp prescription) "Expired" ;;
  modify (with_prescriptions
            (<[_prescriptionId := Prescription.with_status Fulfilled prescription]>
               (prescriptions s))) ;;
  emit (PrescriptionFulfilled _prescriptionId (msg_sender env)).

(** ** Role administration *)

(** Modelled from the spec: [grant(role, identity)] and
    [revoke(role, identity)] of section 4.1, restricted to Admin (Admin
    administers every role, itself included); the access-control mixin that
    implements them is imported, not part of the sources. *)
Definition grantRole (env : Env) (role : Role) (account : address) : M unit :=
  onlyRole env ADMIN_ROLE ;;
  _grantRole env role account.

Definition revokeRole (env : Env) (role : Role) (account : address) : M unit :=
  onlyRole env ADMIN_ROLE ;;
  _revokeRole env role account.

(** ** Deployment *)

(** The storage right after [initialize], called by [deployer] on the
    contract at address [this]. *)
Definition initialize (this deployer : address) (_usdcToken _sonicToken : T)
           (bal : gmap address Z) (rej : gset address) : State :=
  mkState this {[ (ADMIN_ROLE, deployer) ]} false false ∅ ∅ ∅ ∅ ∅ ∅ ∅ ∅ 0 0 0 0
          bal rej _sonicToken _usdcToken [RoleGranted ADMIN_ROLE deployer deployer].

(** ** Transactions *)

(** The external entry points. [handleUserOp], which re-dispatches an
    opaque payload through the entry-point contract, is left out, and so
    are the entry points the contract inherits from the imported
    access-control mixin beyond granting and revoking ([renounceRole]
    among them): their code is not part of the sources. *)
Inductive Call :=
| Call_grantRole (role : Role) (account : address)
| Call_revokeRole (role : Role) (account : address)
| Call_verifyDoctor (_doctor : address) (_licenseNumber : string) (_fee : Z)
| Call_verifyLabTechnician (_labTech : address) (_licenseNumber : string)
| Call_registerPharmacy (_pharmacy : address) (_licenseNumber : string)
| Call_registerPatient (_encryptedSymmetricKey : string)
| Call_bookAppointment (_doctor : address) (_timestamp : Z) (_paymentType : PaymentType)
                       (_isVideoCall : bool) (_videoCallLink : string)
| Call_requestAISymptomAnalysis (_symptoms : string)
| Call_toggleDataMonetization (_enable : bool)
| Call_claimDataReward
| Call_confirmAppointment (_appointmentId : Z)
| Call_orderLabTest (_patient : address) (_testType : string)
| Call_reviewLabResults (_labTestId : Z) (_medicationDetails _prescriptionIpfsHash : string)
| Call_reviewAISymptomAnalysis (_aiAnalysisId : Z) (_analysisIpfsHash : string)
| Call_collectSample (_labTestId : Z) (_ipfsHash : string)
| Call_uploadLabResults (_labTestId : Z) (_resultsIpfsHash : string)
| Call_verifyPrescription (_prescriptionId : Z) (_verificationCodeHash : bytes32)
| Call_fulfillPrescription (_prescriptionId : Z).

Definition is_payable (c : Call) : bool :=
  match c with
  | Call_bookAppointment _ _ _ _ _ => true
  | _ => false
  end.

Definition dispatch (env : Env) (c : Call) : M unit :=
  match c with
  | Call_grantRole r a => grantRole env r a
  | Call_revokeRole r a => revokeRole env r a
  | Call_verifyDoctor d l f => verifyDoctor env d l f
  | Call_verifyLabTechnician t l => verifyLabTechnician env t l
  | Call_registerPharmacy p l => registerPharmacy env p l
  | Call_registerPatient k => registerPatient env k
  | Call_bookAppointment d t p v l => bookAppointment env d t p v l
  | Call_requestAISymptomAnalysis sy => requestAISymptomAnalysis env sy
  | Call_toggleDataMonetization e => toggleDataMonetization env e
  | Call_claimDataReward => claimDataReward env
  | Call_confirmAppointment i => confirmAppointment env i
  | Call_orderLabTest p t => orderLabTest env p t
  | Call_reviewLabResults i m h => reviewLabResults env i m h
  | Call_reviewAISymptomAnalysis i h => reviewAISymptomAnalysis env i h
  | Call_collectSample i h => collectSample env i h
  | Call_uploadLabResults i h => uploadLabResults env i h
  | Call_verifyPrescription i h => verifyPrescription env i h
  | Call_fulfillPrescription i => fulfillPrescription env i
  end.

Inductive Outcome :=
| Success
| Failed (f : Failure).

(** Sending no value needs no funds. *)
Definition covers (s : State) (env : Env) : bool :=
  (msg_value env =? 0) || (msg_value env <=? balance s (msg_sender env)).

(** The attached value moves from the sender to the contract. *)
Definition receive_value (env : Env) (s : State) : State :=
  with_balances (ledger_move (msg_sender env) (self s) (msg_value env) (balances s)) s.

(** One transaction: the attached value moves to the contract, the
    function runs, and a revert restores the state the transaction found. *)
Definition transact (env : Env) (c : Call) (s : State) : State * Outcome :=
  if negb (covers s env) then (s, Failed OutOfFunds)
  else
    let body :=
      if is_payable c || (msg_value env =? 0) then dispatch env c else revert NotPayable in
    match body (receive_value env s) with
    | Ok (_, s') => (s', Success)
    | Revert f => (s, Failed f)
    end.

Fixpoint run (txs : list (Env * Call)) (s : State) : State :=
  match txs with
  | [] => s
  | (env, c) :: rest => run rest (fst (transact env c s))
  end.

End Contract.

Arguments State T : clear implicits.
Arguments M T A : clear implicits.

(** ** Two token collaborators *)

(** Modelled from the spec: a token-transfer collaborator (section 6) kept as
    a plain ledger of balances and allowances whose transfers throw when the
    balance or the allowance is short and return [true] otherwise. *)
Module StdToken.

Record t := mk { bal : gmap address Z; allowed : gmap (address * address) Z }.

Definition balanceOf (tk : t) (a : address) : Z := default 0 (bal tk !! a).
Definition allowance (tk : t) (owner spender : address) : Z :=
  default 0 (allowed tk !! (owner, spender)).

Definition transfer (caller to : address) (amount : Z) (tk : t) : option (bool * t) :=
  if balanceOf tk caller <? amount then None
  else Some (true, mk (ledger_move caller to amount (bal tk)) (allowed tk)).

Definition transferFrom (caller from to : address) (amount : Z) (tk : t)
  : option (bool * t) :=
  if (allowance tk from caller <? amount) || (balanceOf tk from <? amount) then None
  else Some (true, mk (ledger_move from to amount (bal tk))
                      (<[(from, caller) := allowance tk from caller - amount]> (allowed tk))).

Definition funded (holder : address) (amount : Z) : t := mk {[ holder := amount ]} ∅.

End StdToken.

#[global] Instance StdToken_ERC20 : ERC20 StdToken.t :=
  {| balanceOf := StdToken.balanceOf;
     transfer := StdToken.transfer;
     transferFrom := StdToken.transferFrom |}.

(** Modelled from the spec: a token-transfer collaborator (section 6) that
    never throws: a transfer it cannot make returns [false] and moves
    nothing. *)
Module SilentToken.

Record t := mk { bal : gmap address Z }.

Definition balanceOf (tk : t) (a : address) : Z := default 0 (bal tk !! a).

Definition transfer (caller to : address) (amount : Z) (tk : t) : option (bool * t) :=
  if balanceOf tk caller <? amount then Some (false, tk)
  else Some (true, mk (ledger_move caller to amount (bal tk))).

(** No allowances: only the holder's own contract may pull. *)
Definition transferFrom (caller from to : address) (amount : Z) (tk : t)
  : option (bool * t) :=
  if negb (bool_decide (caller = from)) || (balanceOf tk from <? amount)
  then Some (false, tk)
  else Some (true, mk (ledger_move from to amount (bal tk))).

End SilentToken.

#[global] Instance SilentToken_ERC20 : ERC20 SilentToken.t :=
  {| balanceOf := SilentToken.balanceOf;
     transfer := SilentToken.transfer;
     transferFrom := SilentToken.transferFrom |}.

(** What a transfer that returned [true] did to the balances. *)
Class ERC20Lawful (T : Type) `{!ERC20 T} : Prop := {
  transfer_moves :
    forall (t t' : T) (from to : address) (v : Z),
      transfer from to v t = Some (true, t') ->
      from <> to ->
      balanceOf t' to = balanceOf t to + v /\ balanceOf t' from = balanceOf t from - v
}.

(** ** A worked scenario, used by the examples below *)

Module Scenario.

Definition this : address := 0xC0DE.
Definition admin : address := 0xAD.
Definition doc : address := 0xD0C.
Definition pat : address := 0xBA7.
Definition tech : address := 0x7EC.
Definition pharm : address := 0xFA.

Definition t0 : Z := 1700000000.

Definition at_ (who : address) (now : Z) : Env := mkEnv who 0 now.

Definition genesis (treasury : Z) : State StdToken.t :=
  initialize this admin (StdToken.funded this 0) (StdToken.funded this treasury)
             {[ pat := 5000 ]} ∅.

Definition onboarding : list (Env * Call) :=
  [ (at_ admin t0, Call_verifyDoctor doc "LIC-D" 1000);
    (at_ admin t0, Call_verifyLabTechnician tech "LIC-T");
    (at_ admin t0, Call_registerPharmacy pharm "LIC-P");
    (at_ pat t0, Call_registerPatient "key") ].

Definition lab_cycle : list (Env * Call) :=
  [ (at_ doc t0, Call_orderLabTest pat "blood panel");
    (at_ tech t0, Call_collectSample 1 "Qm-sample");
    (at_ tech t0, Call_uploadLabResults 1 "Qm-results");
    (at_ doc t0, Call_reviewLabResults 1 "amoxicillin" "Qm-rx") ].

End Scenario.

(** * Verification *)

Arguments Keccak.keccak256 : simpl never.
Arguments UInt.max : simpl never.
Arguments UInt.cast : simpl never.
Arguments ledger_move : simpl never.

Ltac unfold_calls :=
  unfold transact, dispatch, grantRole, revokeRole, verifyDoctor, verifyLabTechnician,
    registerPharmacy, registerPatient, bookAppointment, requestAISymptomAnalysis,
    toggleDataMonetization, claimDataReward, confirmAppointment, orderLabTest,
    reviewLabResults, reviewAISymptomAnalysis, collectSample, uploadLabResults,
    verifyPrescription, fulfillPrescription, requestAISymptomAnalysis_own,
    orderLabTest_own, reviewLabResults_own, uploadLabResults_own, receive_value,
    _processPayment, _monetizeData, reward_due, add_mediPoints in *.

Ltac unfold_monad :=
  unfold onlyRole, nonReentrant, whenNotPaused, _grantRole, _revokeRole, checked_add,
    native_transfer, sonic_transfer, sonic_transferFrom, usdc_transferFrom,
    emit, require, bind, get, modify, ret, revert in *.

Ltac unfold_reads :=
  unfold hasRole, patientOf, doctorOf, appointmentOf, getLabTestDetails,
    getPrescriptionDetails, getAIAnalysisDetails, covers, balance in *.

(** The guard that the evaluation of a monadic term is waiting for. *)
Ltac head_scrut t :=
  lazymatch t with
  | match ?x with Ok _ => _ | Revert _ => _ end => head_scrut x
  | match ?x with Some _ => _ | None => _ end => head_scrut x
  | match ?x with (_, _) => _ end => head_scrut x
  | match ?x with Disabled => _ | Enabled => _ end => head_scrut x
  | match ?x with ETH => _ | USDC => _ | SONIC => _ end => head_scrut x
  | (if ?b then _ else _) _ => head_scrut b
  | if ?b then _ else _ => head_scrut b
  | (match ?x with Disabled => _ | Enabled => _ end) _ => head_scrut x
  | (match ?x with ETH => _ | USDC => _ | SONIC => _ end) _ => head_scrut x
  | _ => t
  end.

(** One step of symbolic execution: case analysis on the next guard. *)
Ltac step :=
  match goal with
  | |- context [match ?x with Ok _ => _ | Revert _ => _ end] =>
      let b := head_scrut x in destruct b eqn:?; cbn in *; try congruence
  | H : context [match ?x with Ok _ => _ | Revert _ => _ end] |- _ =>
      let b := head_scrut x in destruct b eqn:?; cbn in *; try congruence
  end.

(** Closes the side goals left by a case analysis on guards. *)
Ltac guard_solve :=
  intros; subst; unfold covers, days, hours, minutes, MIN_BOOKING_BUFFER in *; cbn in *;
  repeat match goal with
         | H : negb _ = true |- _ => apply (proj1 (negb_true_iff _)) in H
         | H : negb _ = false |- _ => apply (proj1 (negb_false_iff _)) in H
         | H : _ || _ = true |- _ => apply (proj1 (orb_true_iff _ _)) in H
         | H : _ || _ = false |- _ => apply orb_false_iff in H; destruct H
         | H : _ && _ = true |- _ => apply andb_true_iff in H; destruct H
         | H : bool_decide _ = true |- _ => apply bool_decide_eq_true_1 in H
         | H : bool_decide _ = false |- _ => apply bool_decide_eq_false_1 in H
         | H : (_ <=? _) = true |- _ => apply Z.leb_le in H
         | H : (_ <=? _) = false |- _ => apply Z.leb_gt in H
         | H : (_ <? _) = true |- _ => apply Z.ltb_lt in H
         | H : (_ <? _) = false |- _ => apply Z.ltb_ge in H
         | H : (_ =? _) = true |- _ => apply Z.eqb_eq in H
         | H : (_ =? _) = false |- _ => apply Z.eqb_neq in H
         end;
  try congruence; try lia; try tauto.

Section Transactions.

Context {T : Type} `{!ERC20 T}.
Implicit Types (s : State T) (env : Env) (c : Call) (f : Failure).

(** A failed transaction leaves the world as it found it. *)
Lemma transact_failed env c s s' f :
  transact env c s = (s', Failed f) -> s' = s.
Proof.
  unfold transact. destruct (negb _); [congruence |].
  destruct (_ _) as [[[] s1] | f1]; congruence.
Qed.

Lemma transact_outcome env c s :
  (exists s', transact env c s = (s', Success)) \/
  (exists f, transact env c s = (s, Failed f)).
Proof.
  unfold transact. destruct (negb _); [right; eauto |].
  destruct (_ _) as [[[] s1] | f1]; [left | right]; eauto.
Qed.

End Transactions.

(** ** Booking against an unverified doctor *)

Section Booking.

Context {T : Type} `{!ERC20 T}.
Implicit Types (s : State T) (env : Env).

(** C10. Booking a doctor whose record is not verified always fails and
    the transaction returns the very state it found: no appointment record,
    the appointment counter, every balance and the caller's gamification
    counter as before. For a caller holding the Patient role (outside a
    reentrant call, able to cover the attached value) the failure is the
    ["Doctor not verified"] requirement. *)
Theorem bookAppointment_unverified_doctor env s d ts pt v link :
  Doctor.isVerified (doctorOf s d) = false ->
  exists f,
    transact env (Call_bookAppointment d ts pt v link) s = (s, Failed f) /\
    (hasRole s PATIENT_ROLE (msg_sender env) = true ->
     _entered s = false ->
     covers s env = true ->
     f = Require "Doctor not verified").
Proof.
  intros Hd. unfold transact, dispatch, bookAppointment.
  destruct (negb (covers s env)) eqn:Hc.
  { eexists; split; [reflexivity | guard_solve]. }
  unfold_monad. unfold_reads. cbn in *.
  repeat step; eexists; (split; [reflexivity | guard_solve]).
Qed.

End Booking.

Lemma bookAppointment_unverified_doctor_witness :
  let s := run (skipn 1 Scenario.onboarding) (Scenario.genesis 0) in
  let env := mkEnv Scenario.pat 1000 Scenario.t0 in
  Doctor.isVerified (doctorOf s Scenario.doc) = false /\
  exists f,
    transact env (Call_bookAppointment Scenario.doc (Scenario.t0 + 3600) ETH false "") s
    = (s, Failed f) /\
    (hasRole s PATIENT_ROLE (msg_sender env) = true ->
     _entered s = false ->
     covers s env = true ->
     f = Require "Doctor not verified").
Proof.
  split; [vm_compute; reflexivity |].
  apply (bookAppointment_unverified_doctor
           (mkEnv Scenario.pat 1000 Scenario.t0)
           (run (skipn 1 Scenario.onboarding) (Scenario.genesis 0))).
  vm_compute; reflexivity.
Defined.

(** ** Prescriptions *)

(** Turns a successful transaction equation into facts about its state. *)
Ltac tx_done :=
  repeat match goal with
         | H : (_, _) = (_, _) |- _ => injection H as H; try subst
         end;
  cbn in *; rewrite ?lookup_insert_eq in *; cbn in *.

Section Prescriptions.

Context {T : Type} `{!ERC20 T}.
Implicit Types (s : State T) (env : Env).

(** C6, as the code has it. A successful [fulfillPrescription] implies a
    Pharmacy-role caller who is the recorded verifying pharmacy, status
    Verified and a current time at or before the expiration timestamp (the
    expiration instant itself still passes); strictly after it the call
    fails, with ["Expired"] when every other check passes, and the failed
    call returns the state it found; all guards passing, it succeeds. *)
Theorem fulfillPrescription_guards env s id :
  let p := getPrescriptionDetails s id in
  let caller := msg_sender env in
  (forall s', transact env (Call_fulfillPrescription id) s = (s', Success) ->
     hasRole s PHARMACY_ROLE caller = true /\
     Prescription.pharmacy p = caller /\
     Prescription.status p = Verified /\
     block_timestamp env <= Prescription.expirationTimestamp p /\
     getPrescriptionDetails s' id = Prescription.with_status Fulfilled p) /\
  (Prescription.expirationTimestamp p < block_timestamp env ->
     exists f, transact env (Call_fulfillPrescription id) s = (s, Failed f) /\
       (hasRole s PHARMACY_ROLE caller = true ->
        Prescription.pharmacy p = caller ->
        Prescription.status p = Verified ->
        msg_value env = 0 ->
        f = Require "Expired")) /\
  (hasRole s PHARMACY_ROLE caller = true ->
   Prescription.pharmacy p = caller ->
   Prescription.status p = Verified ->
   msg_value env = 0 ->
   block_timestamp env <= Prescription.expirationTimestamp p ->
   exists s', transact env (Call_fulfillPrescription id) s = (s', Success)).
Proof.
  cbn zeta. unfold transact, dispatch, fulfillPrescription.
  destruct (negb (covers s env)) eqn:Hc.
  { repeat split; try (intros; discriminate); intros.
    - eexists; split; [reflexivity |]. guard_solve.
    - guard_solve. }
  unfold_monad. unfold_reads. cbn in *.
  repeat split; intros.
  all: repeat step.
  all: try (eexists; split; [reflexivity |]).
  all: try solve [guard_solve].
  - tx_done. reflexivity.
  - eexists; reflexivity.
Qed.

(** C3, as the code has it. [verifyPrescription] succeeds only for a
    Pharmacy-role caller, on a prescription in status Generated, when the
    32-byte value the caller supplies is itself equal to the stored
    commitment; nothing is hashed. On success the status is Verified and
    the caller is recorded as the pharmacy; in any other status the call
    fails and returns the state it found. *)
Theorem verifyPrescription_guards env s id code :
  let p := getPrescriptionDetails s id in
  let caller := msg_sender env in
  (forall s', transact env (Call_verifyPrescription id code) s = (s', Success) ->
     hasRole s PHARMACY_ROLE caller = true /\
     Prescription.status p = Generated /\
     code = Prescription.verificationCodeHash p /\
     getPrescriptionDetails s' id =
       Prescription.with_pharmacy caller (Prescription.with_status Verified p)) /\
  (Prescription.status p <> Generated ->
     exists f, transact env (Call_verifyPrescription id code) s = (s, Failed f)) /\
  (hasRole s PHARMACY_ROLE caller = true ->
   Prescription.status p = Generated ->
   code = Prescription.verificationCodeHash p ->
   msg_value env = 0 ->
   exists s', transact env (Call_verifyPrescription id code) s = (s', Success)).
Proof.
  cbn zeta. unfold transact, dispatch, verifyPrescription.
  destruct (negb (covers s env)) eqn:Hc.
  { repeat split; try (intros; discriminate); intros.
    - eexists; reflexivity.
    - guard_solve. }
  unfold_monad. unfold_reads. cbn in *.
  repeat split; intros.
  all: repeat step.
  all: try solve [eexists; reflexivity].
  all: try solve [guard_solve].
  tx_done. reflexivity.
Qed.

End Prescriptions.

Module PrescriptionExamples.
Import Scenario.

Definition generated : State StdToken.t := run (onboarding ++ lab_cycle) (genesis 0).

Definition commitment : bytes32 :=
  Prescription.verificationCodeHash (getPrescriptionDetails generated 1).

Definition verified : State StdToken.t :=
  run [(at_ pharm t0, Call_verifyPrescription 1 commitment)] generated.

Definition expiry : Z :=
  Prescription.expirationTimestamp (getPrescriptionDetails verified 1).

Example commitment_value :
  commitment = Keccak.keccak256 (abi_encodePacked_uint256_address_uint256 1 doc t0).
Proof. vm_compute. reflexivity. Qed.

Example expiry_value : expiry = t0 + 30 * days.
Proof. vm_compute. reflexivity. Qed.

End PrescriptionExamples.

(** Counterexample to C6 as stated: at the expiration instant itself, which
    is not strictly before it, the verifying pharmacy still fulfils. *)
Lemma fulfillPrescription_at_expiration_instant :
  snd (transact (Scenario.at_ Scenario.pharm PrescriptionExamples.expiry)
                (Call_fulfillPrescription 1) PrescriptionExamples.verified) = Success /\
  ~ (PrescriptionExamples.expiry <
     Prescription.expirationTimestamp
       (getPrescriptionDetails PrescriptionExamples.verified 1)).
Proof.
  split; vm_compute; [reflexivity | discriminate].
Qed.

Lemma fulfillPrescription_guards_witness :
  (exists s', transact (Scenario.at_ Scenario.pharm (PrescriptionExamples.expiry - 1))
                       (Call_fulfillPrescription 1) PrescriptionExamples.verified
              = (s', Success)) /\
  (exists f, transact (Scenario.at_ Scenario.pharm (PrescriptionExamples.expiry + 1))
                      (Call_fulfillPrescription 1) PrescriptionExamples.verified
             = (PrescriptionExamples.verified, Failed f) /\ f = Require "Expired").
Proof.
  split.
  - pose proof (fulfillPrescription_guards
                  (Scenario.at_ Scenario.pharm (PrescriptionExamples.expiry - 1))
                  PrescriptionExamples.verified 1) as (_ & _ & Hok).
    apply Hok; vm_compute; first [reflexivity | discriminate].
  - pose proof (fulfillPrescription_guards
                  (Scenario.at_ Scenario.pharm (PrescriptionExamples.expiry + 1))
                  PrescriptionExamples.verified 1) as (_ & Hlate & _).
    destruct Hlate as [f [Hf Hwhy]]; [vm_compute; reflexivity |].
    exists f. split; [exact Hf |].
    apply Hwhy; vm_compute; reflexivity.
Defined.

(** Counterexample to C3 as stated: the pharmacy supplies the stored
    commitment itself and the call succeeds, although the Keccak hash of the
    supplied value differs from the commitment. *)
Lemma verifyPrescription_compares_unhashed :
  snd (transact (Scenario.at_ Scenario.pharm Scenario.t0)
                (Call_verifyPrescription 1 PrescriptionExamples.commitment)
                PrescriptionExamples.generated) = Success /\
  Keccak.keccak256 (Keccak.Z_to_be 32 PrescriptionExamples.commitment)
  <> Prescription.verificationCodeHash
       (getPrescriptionDetails PrescriptionExamples.generated 1).
Proof.
  split; vm_compute; [reflexivity | discriminate].
Qed.

Lemma verifyPrescription_guards_witness :
  exists s', transact (Scenario.at_ Scenario.pharm Scenario.t0)
                      (Call_verifyPrescription 1 PrescriptionExamples.commitment)
                      PrescriptionExamples.generated = (s', Success).
Proof.
  pose proof (verifyPrescription_guards (Scenario.at_ Scenario.pharm Scenario.t0)
                PrescriptionExamples.generated 1 PrescriptionExamples.commitment)
    as (_ & _ & Hok).
  apply Hok; vm_compute; reflexivity.
Defined.

(** ** Lab tests *)

(** The linear chain Requested, Collected, ResultsUploaded, Reviewed. *)
Definition lab_next (st : LabTestStatus) : option LabTestStatus :=
  match st with
  | Requested => Some Collected
  | Collected => Some ResultsUploaded
  | ResultsUploaded => Some Reviewed
  | Reviewed => None
  end.

Definition lab_forward (before after : LabTestStatus) : Prop :=
  before = after \/ lab_next before = Some after.

Definition lab_rank (st : LabTestStatus) : Z :=
  match st with
  | Requested => 0 | Collected => 1 | ResultsUploaded => 2 | Reviewed => 3
  end.

Section LabTests.

Context {T : Type} `{!ERC20 T}.
Implicit Types (s : State T) (env : Env).

(** An order exists once [orderLabTest] has issued its identifier. *)
Definition lab_created s (id : Z) : Prop := 1 <= id <= labTestCounter s.

Definition lab_status s (id : Z) : LabTestStatus :=
  LabTestOrder.status (getLabTestDetails s id).

Lemma lab_step env c s id :
  lab_created s id ->
  lab_forward (lab_status s id) (lab_status (fst (transact env c s)) id) /\
  labTestCounter s <= labTestCounter (fst (transact env c s)).
Proof.
  unfold lab_created, lab_status, lab_forward. intros Hid.
  destruct c; unfold_calls.
  all: destruct (negb (covers s env)) eqn:Hc; [cbn; split; [left; reflexivity | lia] |].
  all: unfold_monad; unfold_reads; cbn in *.
  all: repeat step.
  all: cbn.
  all: try (split; [left; reflexivity | lia]).
  all: split; [| lia].
  all: rewrite lookup_insert;
    match goal with
    | |- context [decide (?k = ?i)] => destruct (decide (k = i))
    end; subst; cbn; [| left; reflexivity].
  all: try lia.
  all: repeat match goal with
              | H : bool_decide _ = true |- _ => apply bool_decide_eq_true_1 in H
              end.
  all: right;
    match goal with
    | H : LabTestOrder.status _ = _ |- _ => rewrite H; reflexivity
    end.
Qed.

Lemma lab_run txs : forall s id,
  lab_created s id ->
  lab_created (run txs s) id /\
  lab_rank (lab_status s id) <= lab_rank (lab_status (run txs s) id).
Proof.
  induction txs as [| [env c] txs IH]; intros s id Hid; cbn.
  - split; [assumption | lia].
  - destruct (lab_step env c s id Hid) as [Hfw Hcnt].
    assert (Hid' : lab_created (fst (transact env c s)) id)
      by (unfold lab_created in *; lia).
    destruct (IH _ id Hid') as [Hc Hr]. split; [assumption |].
    etrans; [| exact Hr].
    destruct Hfw as [-> | Hn]; [lia |].
    destruct (lab_status s id); cbn in Hn; inversion Hn; cbn; lia.
Qed.

(** An order that exists and is still Requested has no technician. *)
Definition lab_unassigned s : Prop :=
  forall id, lab_created s id -> lab_status s id = Requested ->
             LabTestOrder.labTech (getLabTestDetails s id) = 0.

Lemma lab_unassigned_step env c s :
  lab_unassigned s -> lab_unassigned (fst (transact env c s)).
Proof.
  unfold lab_unassigned, lab_created, lab_status. intros Hinv.
  destruct c; unfold_calls.
  all: destruct (negb (covers s env)) eqn:Hc; [exact Hinv |].
  all: unfold_monad; unfold_reads; cbn in *.
  all: repeat step.
  all: cbn; try exact Hinv.
  all: intros id; specialize (Hinv id).
  all: rewrite lookup_insert;
    match goal with
    | |- context [decide (?k = ?i)] => destruct (decide (k = i))
    end; subst; cbn; try discriminate; try reflexivity.
  all: intros; apply Hinv; try assumption; lia.
Qed.

Lemma lab_unassigned_run txs : forall s, lab_unassigned s -> lab_unassigned (run txs s).
Proof.
  induction txs as [| [env c] txs IH]; intros s Hs; cbn; [assumption |].
  apply IH, lab_unassigned_step, Hs.
Qed.

Lemma lab_unassigned_initialize this deployer usdc sonic bal rej :
  lab_unassigned (initialize this deployer usdc sonic bal rej).
Proof. intros id [H1 H2]. cbn in *. lia. Qed.

(** C8, as the code has it. On an existing order every transaction
    leaves the status where it is or moves it one step along the chain,
    so over any run it never goes back; [uploadLabResults] on an order
    still Requested always fails and returns the state it found. The
    failure is the ownership error ["Not your order"] unless the caller is
    the recorded technician, and in every state reached from deployment
    an existing Requested order has no technician, so a real caller meets
    the ownership error, not the status error ["Sample not collected"]. *)
Theorem labTest_lifecycle :
  (forall env c s id,
      lab_created s id ->
      lab_forward (lab_status s id) (lab_status (fst (transact env c s)) id)) /\
  (forall txs s id,
      lab_created s id ->
      lab_created (run txs s) id /\
      lab_rank (lab_status s id) <= lab_rank (lab_status (run txs s) id)) /\
  (forall env s id r,
      lab_status s id = Requested ->
      exists f,
        transact env (Call_uploadLabResults id r) s = (s, Failed f) /\
        (hasRole s LAB_TECH_ROLE (msg_sender env) = true ->
         msg_value env = 0 ->
         f = if bool_decide (LabTestOrder.labTech (getLabTestDetails s id) = msg_sender env)
             then Require "Sample not collected"
             else Require "Not your order")) /\
  (forall txs this deployer usdc sonic bal rej env id r,
      let s := run txs (initialize this deployer usdc sonic bal rej) in
      lab_created s id ->
      lab_status s id = Requested ->
      hasRole s LAB_TECH_ROLE (msg_sender env) = true ->
      msg_sender env <> 0 ->
      msg_value env = 0 ->
      transact env (Call_uploadLabResults id r) s = (s, Failed (Require "Not your order"))).
Proof.
  assert (Hupload : forall env s id r,
      lab_status s id = Requested ->
      exists f,
        transact env (Call_uploadLabResults id r) s = (s, Failed f) /\
        (hasRole s LAB_TECH_ROLE (msg_sender env) = true ->
         msg_value env = 0 ->
         f = if bool_decide (LabTestOrder.labTech (getLabTestDetails s id) = msg_sender env)
             then Require "Sample not collected"
             else Require "Not your order")).
  { intros env s id r Hst. unfold lab_status in Hst. unfold_calls.
    destruct (negb (covers s env)) eqn:Hc.
    { eexists; split; [reflexivity | guard_solve]. }
    unfold_monad; unfold_reads; cbn in *.
    repeat step.
    all: try (eexists; split; [reflexivity | guard_solve]).
    all: rewrite Hst in *; guard_solve. }
  split; [intros; apply lab_step; assumption |].
  split; [intros; apply lab_run; assumption |].
  split; [exact Hupload |].
  intros txs this deployer usdc sonic bal rej env id r s Hid Hst Hrole Hne Hval.
  destruct (Hupload env s id r Hst) as [f [Hf Hwhy]].
  rewrite Hf, (Hwhy Hrole Hval).
  assert (Hun : LabTestOrder.labTech (getLabTestDetails s id) = 0).
  { apply (lab_unassigned_run txs _ (lab_unassigned_initialize _ _ _ _ _ _)); assumption. }
  rewrite Hun. rewrite bool_decide_eq_false_2; [reflexivity | congruence].
Qed.

End LabTests.

(** Discharges closed side conditions by evaluation. *)
Ltac by_eval :=
  vm_compute; repeat split; first [reflexivity | discriminate | congruence].

Module LabExamples.
Import Scenario.

Definition ordered : list (Env * Call) :=
  onboarding ++ [(at_ doc t0, Call_orderLabTest pat "blood panel")].

End LabExamples.

(** Counterexample to C8 as stated: on an order that is still Requested the
    technician's [uploadLabResults] is refused with the ownership error, not
    with the status error. *)
Lemma uploadLabResults_before_collect_not_state_error :
  let s := run LabExamples.ordered (Scenario.genesis 0) in
  lab_status s 1 = Requested /\
  transact (Scenario.at_ Scenario.tech Scenario.t0)
           (Call_uploadLabResults 1 "Qm-results") s
  = (s, Failed (Require "Not your order")) /\
  Require "Not your order" <> Require "Sample not collected".
Proof. by_eval. Qed.

Lemma labTest_lifecycle_witness :
  let s := run LabExamples.ordered
               (initialize Scenario.this Scenario.admin
                           (StdToken.funded Scenario.this 0)
                           (StdToken.funded Scenario.this 0)
                           {[ Scenario.pat := 5000 ]} ∅) in
  transact (Scenario.at_ Scenario.tech Scenario.t0)
           (Call_uploadLabResults 1 "Qm-results") s
  = (s, Failed (Require "Not your order")).
Proof.
  pose proof (@labTest_lifecycle StdToken.t _) as (_ & _ & _ & Hreach).
  apply (Hreach LabExamples.ordered); by_eval.
Defined.

(** ** Identifiers that were never written *)

Section Unwritten.

Context {T : Type} `{!ERC20 T}.
Implicit Types (s : State T) (env : Env).

(** C4, as the code has it. A slot no operation has written reads as the
    all-default record, whose status is the first state of its machine;
    right after deployment that is every identifier. On such a slot
    [verifyPrescription] with the zero hash, from any Pharmacy-role
    caller, succeeds and leaves a Verified record, and [collectSample],
    from any LabTech-role caller, succeeds and leaves a Collected record;
    neither touches the counter, so the identifier stays never-created
    while its slot is no longer the default one. *)
Theorem unwritten_slot_passes_guards :
  (forall s id,
      prescriptions s !! id = None ->
      getPrescriptionDetails s id = Prescription.default) /\
  (forall s id,
      labTestOrders s !! id = None ->
      getLabTestDetails s id = LabTestOrder.default) /\
  (forall s id,
      appointments s !! id = None ->
      appointmentOf s id = Appointment.default) /\
  (Prescription.status Prescription.default = Generated /\
   LabTestOrder.status LabTestOrder.default = Requested /\
   Appointment.status Appointment.default = Pending) /\
  (forall this deployer (usdc sonic : T) bal rej id,
      let s := initialize this deployer usdc sonic bal rej in
      prescriptions s !! id = None /\ labTestOrders s !! id = None /\
      appointments s !! id = None) /\
  (forall env s id,
      prescriptions s !! id = None ->
      hasRole s PHARMACY_ROLE (msg_sender env) = true ->
      msg_value env = 0 ->
      exists s',
        transact env (Call_verifyPrescription id 0) s = (s', Success) /\
        getPrescriptionDetails s' id =
          Prescription.with_pharmacy (msg_sender env)
            (Prescription.with_status Verified Prescription.default) /\
        prescriptionCounter s' = prescriptionCounter s) /\
  (forall env s id ipfs,
      labTestOrders s !! id = None ->
      hasRole s LAB_TECH_ROLE (msg_sender env) = true ->
      msg_value env = 0 ->
      exists s',
        transact env (Call_collectSample id ipfs) s = (s', Success) /\
        getLabTestDetails s' id =
          LabTestOrder.with_status Collected
            (LabTestOrder.with_sampleCollectionIpfsHash ipfs
               (LabTestOrder.with_labTech (msg_sender env) LabTestOrder.default)) /\
        labTestCounter s' = labTestCounter s).
Proof.
  repeat split.
  1-3: intros s id Hnone; unfold_reads; rewrite Hnone; reflexivity.
  - intros env s id Hnone Hrole Hval. unfold_calls.
    destruct (negb (covers s env)) eqn:Hc; [guard_solve |].
    unfold_monad; unfold_reads; cbn in *.
    repeat (step; rewrite ?Hnone in *; cbn in *; try congruence); try solve [guard_solve].
    eexists; split; [reflexivity |]. cbn.
    rewrite lookup_insert_eq. split; reflexivity.
  - intros env s id ipfs Hnone Hrole Hval. unfold_calls.
    destruct (negb (covers s env)) eqn:Hc; [guard_solve |].
    unfold_monad; unfold_reads; cbn in *.
    repeat (step; rewrite ?Hnone in *; cbn in *; try congruence); try solve [guard_solve].
    eexists; split; [reflexivity |]. cbn.
    rewrite lookup_insert_eq. split; reflexivity.
Qed.

End Unwritten.

Module PhantomExamples.
Import Scenario.

Definition staffed : State StdToken.t := run onboarding (genesis 0).

Definition phantom_collected : State StdToken.t :=
  run [(at_ tech t0, Call_collectSample 7 "Qm-none")] staffed.

End PhantomExamples.

(** Counterexample to C4 as stated: identifier 7 lies beyond the lab-test
    counter, so it was never created, yet after a technician's
    [collectSample] its stored record is not the all-default one. *)
Lemma never_created_slot_not_default :
  labTestCounter PhantomExamples.phantom_collected < 7 /\
  getLabTestDetails PhantomExamples.phantom_collected 7 <> LabTestOrder.default /\
  LabTestOrder.status (getLabTestDetails PhantomExamples.phantom_collected 7) = Collected.
Proof. by_eval. Qed.

Lemma unwritten_slot_passes_guards_witness :
  prescriptionCounter PhantomExamples.staffed < 1 /\
  (exists s',
      transact (Scenario.at_ Scenario.pharm Scenario.t0) (Call_verifyPrescription 1 0)
               PhantomExamples.staffed = (s', Success) /\
      getPrescriptionDetails s' 1 =
        Prescription.with_pharmacy Scenario.pharm
          (Prescription.with_status Verified Prescription.default) /\
      prescriptionCounter s' = prescriptionCounter PhantomExamples.staffed) /\
  labTestCounter PhantomExamples.staffed < 7 /\
  (exists s',
      transact (Scenario.at_ Scenario.tech Scenario.t0) (Call_collectSample 7 "Qm-none")
               PhantomExamples.staffed = (s', Success) /\
      getLabTestDetails s' 7 =
        LabTestOrder.with_status Collected
          (LabTestOrder.with_sampleCollectionIpfsHash "Qm-none"
             (LabTestOrder.with_labTech Scenario.tech LabTestOrder.default)) /\
      labTestCounter s' = labTestCounter PhantomExamples.staffed).
Proof.
  pose proof (@unwritten_slot_passes_guards StdToken.t _)
    as (_ & _ & _ & _ & _ & Hrx & Hlab).
  split; [by_eval |]. split.
  - apply (Hrx (Scenario.at_ Scenario.pharm Scenario.t0) PhantomExamples.staffed 1); by_eval.
  - split; [by_eval |].
    apply (Hlab (Scenario.at_ Scenario.tech Scenario.t0) PhantomExamples.staffed 7); by_eval.
Defined.

(** ** Patient registration *)

Definition is_registration (a : address) (e : Event) : bool :=
  match e with
  | PatientRegistered p => bool_decide (p = a)
  | _ => false
  end.

Section Registration.

Context {T : Type} `{!ERC20 T}.
Implicit Types (s : State T) (env : Env).

(** How many times [registerPatient] has gone through for [a], read off
    the event log. Each such success is one grant of the Patient role by
    registration. *)
Definition registrations s (a : address) : nat :=
  length (List.filter (is_registration a) (events s)).

Definition registered s (a : address) : bool := Patient.isRegistered (patientOf s a).

Lemma registration_step env c s a :
  let s' := fst (transact env c s) in
  _paused s' = _paused s /\
  ((registered s' a = registered s a /\ registrations s' a = registrations s a) \/
   (registered s a = false /\ registered s' a = true /\
    registrations s' a = S (registrations s a))).
Proof.
  unfold registered, registrations. cbn zeta.
  destruct c; unfold_calls.
  all: destruct (negb (covers s env)) eqn:Hc; [cbn; split; [reflexivity | left; split; reflexivity] |].
  all: unfold_monad; unfold_reads; cbn in *.
  all: repeat step.
  all: cbn; split; [reflexivity |].
  all: try (left; split; reflexivity).
  all: repeat (first [ rewrite lookup_insert
                     | match goal with
                       | |- context [decide (?k = ?i)] =>
                           destruct (decide (k = i)); try subst; cbn; try congruence
                       end ]).
  all: repeat match goal with
              | |- context [bool_decide (?k = ?i)] =>
                  destruct (bool_decide_reflect (k = i)); try subst; cbn; try congruence
              end.
  all: try (left; split; reflexivity).
  all: right; repeat split; guard_solve.
Qed.

Lemma registration_run txs : forall s a,
  registered s a = true ->
  registered (run txs s) a = true /\
  registrations (run txs s) a = registrations s a /\
  _paused (run txs s) = _paused s.
Proof.
  induction txs as [| [env c] txs IH]; intros s a Hreg; cbn; [auto |].
  destruct (registration_step env c s a) as [Hp [[Hr Hn] | [Hr _]]]; [| congruence].
  destruct (IH (fst (transact env c s)) a) as (IH1 & IH2 & IH3); [congruence |].
  repeat split; congruence.
Qed.

(** In a state reached from deployment the log holds one registration for
    a registered identity and none for any other. *)
Definition registrations_exact s : Prop :=
  forall a, registrations s a = if registered s a then 1%nat else 0%nat.

Lemma registrations_exact_run txs : forall s,
  registrations_exact s -> registrations_exact (run txs s).
Proof.
  induction txs as [| [env c] txs IH]; intros s Hs; cbn; [assumption |].
  apply IH. intros a. specialize (Hs a).
  destruct (registration_step env c s a) as [_ [[Hr Hn] | (Hr0 & Hr1 & Hn)]].
  - rewrite Hr, Hn. exact Hs.
  - rewrite Hr1, Hn, Hs, Hr0. reflexivity.
Qed.

Lemma registrations_exact_initialize this deployer (usdc sonic : T) bal rej :
  registrations_exact (initialize this deployer usdc sonic bal rej).
Proof. intros a. reflexivity. Qed.

(** C9. An unregistered identity registers: the call succeeds, stores the
    fresh record and grants the Patient role. From then on, whatever
    transactions come in between, every further [registerPatient] from
    that identity fails, with ["Already registered"], and returns the
    state it found, so the record stays as it is and the number of
    registrations of that identity (one role grant each) stays one above
    what it was; counted from deployment it is exactly one. *)
Theorem registerPatient_once env0 key0 s0 :
  let a := msg_sender env0 in
  _paused s0 = false ->
  registered s0 a = false ->
  msg_value env0 = 0 ->
  exists s1,
    transact env0 (Call_registerPatient key0) s0 = (s1, Success) /\
    hasRole s1 PATIENT_ROLE a = true /\
    patientOf s1 a = Patient.mk true key0 0 (GamificationData.mk 0 1) Disabled 0 /\
    registrations s1 a = S (registrations s0 a) /\
    (forall txs env key,
        msg_sender env = a ->
        let s2 := run txs s1 in
        registrations s2 a = S (registrations s0 a) /\
        exists f,
          transact env (Call_registerPatient key) s2 = (s2, Failed f) /\
          (msg_value env = 0 -> f = Require "Already registered")) /\
    (forall txs0 this deployer usdc sonic bal rej txs,
        s0 = run txs0 (initialize this deployer usdc sonic bal rej) ->
        registrations (run txs s1) a = 1%nat).
Proof.
  intros a Hp Hreg Hval.
  assert (Hfirst : exists s1,
    transact env0 (Call_registerPatient key0) s0 = (s1, Success) /\
    hasRole s1 PATIENT_ROLE a = true /\
    patientOf s1 a = Patient.mk true key0 0 (GamificationData.mk 0 1) Disabled 0 /\
    registrations s1 a = S (registrations s0 a) /\
    _paused s1 = false).
  { subst a. unfold registered, registrations in *. unfold_calls.
    destruct (negb (covers s0 env0)) eqn:Hc; [guard_solve |].
    unfold_monad; unfold_reads; cbn in *.
    repeat step; try solve [guard_solve].
    all: eexists; split; [reflexivity |]; cbn.
    all: rewrite lookup_insert_eq,
           (bool_decide_eq_true_2 (msg_sender env0 = msg_sender env0)) by reflexivity.
    all: repeat split; try reflexivity; try assumption.
    apply bool_decide_eq_true_2; set_solver. }
  destruct Hfirst as (s1 & Htx & Hrole & Hrec & Hcnt & Hp1).
  exists s1. repeat split; try assumption.
  - destruct (registration_run txs s1 a) as (_ & Hn & _);
      [unfold registered; rewrite Hrec; reflexivity |].
    cbn zeta. congruence.
  - destruct (registration_run txs s1 a) as (Hr2 & _ & Hp2);
      [unfold registered; rewrite Hrec; reflexivity |].
    cbn zeta. set (s2 := run txs s1) in *. rewrite Hp1 in Hp2.
    unfold registered in Hr2. subst a. rewrite <- H in Hr2.
    unfold_calls.
    destruct (negb (covers s2 env)) eqn:Hc.
    { eexists; split; [reflexivity | guard_solve]. }
    unfold_monad; unfold_reads; cbn in *.
    repeat step; try solve [guard_solve].
    all: eexists; split; [reflexivity | guard_solve].
  - intros txs0 this deployer usdc sonic bal rej txs Hs0.
    destruct (registration_run txs s1 a) as (_ & Hn & _);
      [unfold registered; rewrite Hrec; reflexivity |].
    rewrite Hn, Hcnt.
    pose proof (registrations_exact_run txs0 _
                  (registrations_exact_initialize this deployer usdc sonic bal rej) a) as Hex.
    rewrite <- Hs0, Hreg in Hex. rewrite Hex. reflexivity.
Qed.

End Registration.

Lemma registerPatient_once_witness :
  let s0 := run (take 3 Scenario.onboarding) (Scenario.genesis 0) in
  exists s1,
    transact (Scenario.at_ Scenario.pat Scenario.t0) (Call_registerPatient "key") s0
    = (s1, Success) /\
    registrations (run Scenario.lab_cycle s1) Scenario.pat = 1%nat /\
    exists f,
      transact (Scenario.at_ Scenario.pat (Scenario.t0 + 60)) (Call_registerPatient "other")
               (run Scenario.lab_cycle s1)
      = (run Scenario.lab_cycle s1, Failed f) /\
      f = Require "Already registered".
Proof.
  intros s0.
  assert (Hp : _paused s0 = false) by by_eval.
  assert (Hreg : registered s0 Scenario.pat = false) by by_eval.
  destruct (registerPatient_once (Scenario.at_ Scenario.pat Scenario.t0) "key" s0
                                 Hp Hreg eq_refl)
    as (s1 & Htx & _ & _ & _ & Hagain & Hone).
  exists s1. split; [exact Htx |]. split.
  - apply (Hone (take 3 Scenario.onboarding) Scenario.this Scenario.admin
                (StdToken.funded Scenario.this 0) (StdToken.funded Scenario.this 0)
                {[ Scenario.pat := 5000 ]} ∅ Scenario.lab_cycle).
    reflexivity.
  - destruct (Hagain Scenario.lab_cycle (Scenario.at_ Scenario.pat (Scenario.t0 + 60)) "other"
                     eq_refl)
      as (_ & f & Hf & Hwhy).
    exists f. split; [exact Hf | exact (Hwhy eq_refl)].
Defined.

(** ** Rewards *)

Section Rewards.

Context {T : Type} `{!ERC20 T}.
Implicit Types (s : State T) (env : Env).

Lemma claimDataReward_first env s b t' :
  hasRole s PATIENT_ROLE (msg_sender env) = true ->
  _entered s = false ->
  msg_value env = 0 ->
  Patient.dataSharing (patientOf s (msg_sender env)) = Enabled ->
  Patient.lastRewardTimestamp (patientOf s (msg_sender env)) + 1 * days
    <= block_timestamp env ->
  block_timestamp env <= UInt.max 256 ->
  DATA_MONETIZATION_REWARD <= balanceOf (sonicToken s) (self s) ->
  transfer (self s) (msg_sender env) DATA_MONETIZATION_REWARD (sonicToken s) = Some (b, t') ->
  exists s1,
    transact env Call_claimDataReward s = (s1, Success) /\
    patientOf s1 (msg_sender env) =
      Patient.with_lastRewardTimestamp (block_timestamp env) (patientOf s (msg_sender env)) /\
    sonicToken s1 = t' /\
    events s1 = DataRewardClaimed (msg_sender env) DATA_MONETIZATION_REWARD :: events s /\
    _roles s1 = _roles s /\
    _entered s1 = false.
Proof.
  intros Hrole Hent Hv Hshare Hcool Hmax Htreasury Htransfer.
  unfold_calls.
  destruct (negb (covers s env)) eqn:Hc; [guard_solve |].
  unfold_monad; unfold_reads; cbn in *.
  repeat (step; rewrite ?Htransfer in *; cbn in *); try solve [guard_solve].
  eexists; split; [reflexivity |]. cbn.
  rewrite lookup_insert_eq. cbn.
  repeat split.
Qed.

Lemma claimDataReward_too_soon env s :
  hasRole s PATIENT_ROLE (msg_sender env) = true ->
  _entered s = false ->
  msg_value env = 0 ->
  Patient.dataSharing (patientOf s (msg_sender env)) = Enabled ->
  Patient.lastRewardTimestamp (patientOf s (msg_sender env)) + 1 * days <= UInt.max 256 ->
  block_timestamp env
    < Patient.lastRewardTimestamp (patientOf s (msg_sender env)) + 1 * days ->
  transact env Call_claimDataReward s = (s, Failed (Require "Reward not yet available")).
Proof.
  intros Hrole Hent Hv Hshare Hmax Hsoon.
  unfold_calls.
  destruct (negb (covers s env)) eqn:Hc; [guard_solve |].
  unfold_monad; unfold_reads; cbn in *.
  repeat step; try solve [guard_solve].
Qed.

(** C5. A Patient-role caller with sharing enabled, whose cooldown since
    the previous payout has elapsed and whose claim the treasury covers,
    claims: the call succeeds, stamps the payout time, performs the one
    token transfer of the fixed reward and logs it. A second claim before
    24 hours have passed since that stamp fails with ["Reward not yet
    available"] and returns the state it found: one payout in all. With a
    token that moves what it reports as transferred, the patient's balance
    is up by the reward. *)
Theorem claimDataReward_once_per_window env1 env2 s b t' :
  let p := msg_sender env1 in
  hasRole s PATIENT_ROLE p = true ->
  _entered s = false ->
  msg_value env1 = 0 ->
  Patient.dataSharing (patientOf s p) = Enabled ->
  Patient.lastRewardTimestamp (patientOf s p) + 1 * days <= block_timestamp env1 ->
  block_timestamp env1 + 1 * days <= UInt.max 256 ->
  DATA_MONETIZATION_REWARD <= balanceOf (sonicToken s) (self s) ->
  transfer (self s) p DATA_MONETIZATION_REWARD (sonicToken s) = Some (b, t') ->
  msg_sender env2 = p ->
  msg_value env2 = 0 ->
  block_timestamp env2 < block_timestamp env1 + 1 * days ->
  exists s1,
    transact env1 Call_claimDataReward s = (s1, Success) /\
    Patient.lastRewardTimestamp (patientOf s1 p) = block_timestamp env1 /\
    Patient.dataSharing (patientOf s1 p) = Enabled /\
    sonicToken s1 = t' /\
    events s1 = DataRewardClaimed p DATA_MONETIZATION_REWARD :: events s /\
    transact env2 Call_claimDataReward s1
    = (s1, Failed (Require "Reward not yet available")) /\
    (ERC20Lawful T -> b = true -> p <> self s ->
     balanceOf (sonicToken s1) p = balanceOf (sonicToken s) p + DATA_MONETIZATION_REWARD).
Proof.
  intros p Hrole Hent Hv1 Hshare Hcool Hmax Htreasury Htransfer Hsender Hv2 Hsoon.
  subst p.
  destruct (claimDataReward_first env1 s b t') as (s1 & Htx & Hpat & Htok & Hev & Hroles & Hent1);
    try assumption.
  { unfold days in *. lia. }
  exists s1. rewrite Hpat, Htok. cbn.
  repeat split; try assumption.
  - apply claimDataReward_too_soon; rewrite ?Hsender, ?Hpat; cbn; try assumption.
    unfold hasRole in *. rewrite Hroles. exact Hrole.
  - intros HL Hb Hne. subst b.
    apply transfer_moves in Htransfer as [Hto _]; [exact Hto | congruence].
Qed.

End Rewards.

Module RewardExamples.
Import Scenario.

Definition treasury : Z := 3 * DATA_MONETIZATION_REWARD.

(** The patient registers and opts in; the treasury holds three rewards. *)
Definition opted_in : State StdToken.t :=
  run (onboarding ++ [(at_ pat t0, Call_toggleDataMonetization true)]) (genesis treasury).

Definition paid (tk : StdToken.t) : StdToken.t :=
  StdToken.mk (ledger_move this pat DATA_MONETIZATION_REWARD (StdToken.bal tk))
              (StdToken.allowed tk).

End RewardExamples.

#[global] Instance StdToken_lawful : ERC20Lawful StdToken.t.
Proof.
  constructor. intros t t' from to v Htr Hne.
  change (StdToken.transfer from to v t = Some (true, t')) in Htr.
  unfold StdToken.transfer in Htr.
  destruct (StdToken.balanceOf t from <? v); [discriminate |].
  injection Htr as <-.
  change (StdToken.balanceOf
            (StdToken.mk (ledger_move from to v (StdToken.bal t)) (StdToken.allowed t)) to
          = StdToken.balanceOf t to + v /\
          StdToken.balanceOf
            (StdToken.mk (ledger_move from to v (StdToken.bal t)) (StdToken.allowed t)) from
          = StdToken.balanceOf t from - v).
  unfold StdToken.balanceOf, ledger_move. cbn [StdToken.bal].
  rewrite lookup_insert_eq, (lookup_insert_ne _ from to) by assumption.
  rewrite (lookup_insert_ne _ to from) by congruence.
  rewrite lookup_insert_eq. cbn [default]. split; reflexivity.
Qed.

Lemma claimDataReward_once_per_window_witness :
  exists s1,
    transact (Scenario.at_ Scenario.pat (Scenario.t0 + 60)) Call_claimDataReward
             RewardExamples.opted_in = (s1, Success) /\
    transact (Scenario.at_ Scenario.pat (Scenario.t0 + 3600)) Call_claimDataReward s1
    = (s1, Failed (Require "Reward not yet available")) /\
    balanceOf (sonicToken s1) Scenario.pat = DATA_MONETIZATION_REWARD.
Proof.
  destruct (claimDataReward_once_per_window
              (Scenario.at_ Scenario.pat (Scenario.t0 + 60))
              (Scenario.at_ Scenario.pat (Scenario.t0 + 3600))
              RewardExamples.opted_in true
              (RewardExamples.paid (sonicToken RewardExamples.opted_in)))
    as (s1 & Htx & _ & _ & _ & _ & Hagain & Hbal);
    [by_eval | by_eval | by_eval | by_eval | by_eval | by_eval | by_eval | by_eval
     | by_eval | by_eval | by_eval |].
  exists s1. split; [exact Htx |]. split; [exact Hagain |].
  assert (Hne : Scenario.pat <> self RewardExamples.opted_in) by by_eval.
  pose proof (Hbal StdToken_lawful eq_refl Hne) as Hb.
  change (balanceOf (sonicToken s1) Scenario.pat
          = balanceOf (sonicToken RewardExamples.opted_in) Scenario.pat
            + DATA_MONETIZATION_REWARD) in Hb.
  rewrite Hb. by_eval.
Defined.

(** ** Payment settlement in native currency *)

Lemma ledger_move_to (from to : address) (v : Z) (bal : gmap address Z) :
  from <> to ->
  default 0 (ledger_move from to v bal !! to) = default 0 (bal !! to) + v.
Proof.
  intros Hne. unfold ledger_move.
  rewrite lookup_insert_eq, (lookup_insert_ne _ from to) by assumption. reflexivity.
Qed.

Lemma ledger_move_from (from to : address) (v : Z) (bal : gmap address Z) :
  from <> to ->
  default 0 (ledger_move from to v bal !! from) = default 0 (bal !! from) - v.
Proof.
  intros Hne. unfold ledger_move.
  rewrite (lookup_insert_ne _ to from) by congruence.
  rewrite lookup_insert_eq. reflexivity.
Qed.

Section Settlement.

Context {T : Type} `{!ERC20 T}.
Implicit Types (s : State T) (env : Env).

(** C7. A booking paid in native currency that goes through has attached
    at least the doctor's fee; the contract ends up holding exactly the
    fee more than before and the caller exactly the fee less, the excess
    [attached - fee] having gone back, and the new appointment records
    that fee. With less than the fee attached the booking fails with
    ["Insufficient ETH"] and returns the state it found. With enough
    attached, and every other guard passing, it does go through. *)
Theorem bookAppointment_native_settlement env s d ts v link :
  let fee := Doctor.consultationFee (doctorOf s d) in
  let caller := msg_sender env in
  let bookable :=
    hasRole s PATIENT_ROLE caller = true /\
    _entered s = false /\
    Doctor.isVerified (doctorOf s d) = true /\
    block_timestamp env + MIN_BOOKING_BUFFER <= UInt.max 256 /\
    block_timestamp env + MIN_BOOKING_BUFFER < ts /\
    covers s env = true in
  (forall s',
      transact env (Call_bookAppointment d ts ETH v link) s = (s', Success) ->
      fee <= msg_value env /\
      appointmentCounter s' = appointmentCounter s + 1 /\
      Appointment.fee (appointmentOf s' (appointmentCounter s')) = fee /\
      Appointment.patient (appointmentOf s' (appointmentCounter s')) = caller /\
      (caller <> self s ->
       balance s' (self s) = balance s (self s) + fee /\
       balance s' caller = balance s caller - fee)) /\
  (bookable ->
   msg_value env < fee ->
   transact env (Call_bookAppointment d ts ETH v link) s
   = (s, Failed (Require "Insufficient ETH"))) /\
  (bookable ->
   fee <= msg_value env ->
   msg_value env = fee \/ caller ∉ rejecting s ->
   caller <> self s ->
   0 <= balance s (self s) + fee ->
   appointmentCounter s + 1 <= UInt.max 256 ->
   GamificationData.mediPoints (Patient.gamification (patientOf s caller)) + 20
     <= UInt.max 96 ->
   exists s', transact env (Call_bookAppointment d ts ETH v link) s = (s', Success)).
Proof.
  cbn zeta. unfold_calls.
  destruct (negb (covers s env)) eqn:Hc.
  { repeat split; try (intros; discriminate); guard_solve. }
  unfold_monad; unfold_reads; cbn in *.
  split; [| split].
  - intros s' Htx. repeat step; tx_done.
    all: repeat split; try solve [guard_solve].
    all: repeat first [ rewrite ledger_move_to by congruence
                      | rewrite ledger_move_from by congruence ].
    all: guard_solve.
  - intros (Hrole & Hent & Hver & Hmax & Hlead & _) Hshort.
    repeat step; try solve [guard_solve].
  - intros (Hrole & Hent & Hver & Hmax & Hlead & _) Hfee Hrefund Hne Hself Hcnt Hpts.
    repeat step; try solve [guard_solve]; try solve [eexists; reflexivity].
    rewrite ledger_move_to in * by congruence.
    destruct Hrefund as [Heq | Hacc]; [guard_solve |].
    apply orb_true_iff in Heqb6 as [Hrej | Hlow].
    + apply bool_decide_eq_true_1 in Hrej. contradiction.
    + guard_solve.
Qed.

End Settlement.

Module BookingExamples.
Import Scenario.

Definition staffed : State StdToken.t := run onboarding (genesis 0).

(** The patient holds 5000 and attaches 1500 against a fee of 1000. *)
Definition overpaying : Env := mkEnv pat 1500 t0.
Definition underpaying : Env := mkEnv pat 999 t0.

Definition booked : State StdToken.t :=
  fst (transact overpaying (Call_bookAppointment doc (t0 + 3600) ETH false "") staffed).

Example overpayment_refunded :
  balance booked this = 1000 /\ balance booked pat = 4000 /\
  appointmentCounter booked = 1 /\
  Appointment.fee (appointmentOf booked 1) = 1000.
Proof. by_eval. Qed.

End BookingExamples.

Lemma bookAppointment_native_settlement_witness :
  (exists s',
      transact BookingExamples.overpaying
               (Call_bookAppointment Scenario.doc (Scenario.t0 + 3600) ETH false "")
               BookingExamples.staffed = (s', Success)) /\
  transact BookingExamples.underpaying
           (Call_bookAppointment Scenario.doc (Scenario.t0 + 3600) ETH false "")
           BookingExamples.staffed
  = (BookingExamples.staffed, Failed (Require "Insufficient ETH")).
Proof.
  split.
  - pose proof (bookAppointment_native_settlement BookingExamples.overpaying
                  BookingExamples.staffed Scenario.doc (Scenario.t0 + 3600) false "")
      as (_ & _ & Hok).
    apply Hok; [by_eval | by_eval | right; by_eval | by_eval | by_eval | by_eval | by_eval].
  - pose proof (bookAppointment_native_settlement BookingExamples.underpaying
                  BookingExamples.staffed Scenario.doc (Scenario.t0 + 3600) false "")
      as (_ & Hshort & _).
    apply Hshort; by_eval.
Defined.

(** ** The implicit reward trigger *)

Section ImplicitTrigger.

Context {T : Type} `{!ERC20 T}.
Implicit Types (s : State T) (env : Env) (p : Patient.t).

(** The trigger has nothing to do: sharing is off, or the cooldown since
    the last payout is still running. *)
Definition reward_idle env p : Prop :=
  Patient.dataSharing p = Disabled \/
  (Patient.dataSharing p = Enabled /\
   Patient.lastRewardTimestamp p + 1 * days <= UInt.max 256 /\
   block_timestamp env < Patient.lastRewardTimestamp p + 1 * days).

(** Sharing is on and the cooldown has elapsed. *)
Definition reward_ready env p : Prop :=
  Patient.dataSharing p = Enabled /\
  Patient.lastRewardTimestamp p + 1 * days <= UInt.max 256 /\
  Patient.lastRewardTimestamp p + 1 * days <= block_timestamp env.

(** What a fired trigger leaves behind, given the token state [t'] the
    transfer call returned. *)
Definition payout_stamped env (patient : address) (t' : T) s : State T :=
  with_events (DataRewardClaimed patient DATA_MONETIZATION_REWARD :: events s)
    (with_sonicToken t'
       (with_patients
          (<[patient := Patient.with_lastRewardTimestamp (block_timestamp env)
                          (patientOf s patient)]> (patients s)) s)).

(** The operations that end in the trigger, with their own part. *)
Definition trigger_site env (c : Call) : option (M T address) :=
  match c with
  | Call_requestAISymptomAnalysis sy => Some (requestAISymptomAnalysis_own env sy)
  | Call_orderLabTest pa ty => Some (orderLabTest_own env pa ty)
  | Call_uploadLabResults i h => Some (uploadLabResults_own env i h)
  | Call_reviewLabResults i m h => Some (reviewLabResults_own env i m h)
  | _ => None
  end.

Lemma _monetizeData_idle env patient s :
  reward_idle env (patientOf s patient) ->
  _monetizeData env patient s = Ok (tt, s).
Proof.
  intros Hidle. unfold _monetizeData, reward_due. unfold_monad. cbn.
  destruct Hidle as [Hoff | (Hon & Hmax & Hsoon)].
  - rewrite Hoff. reflexivity.
  - rewrite Hon. cbn.
    rewrite (proj2 (Z.leb_le _ _) Hmax). cbn.
    rewrite (proj2 (Z.leb_gt _ _) Hsoon). reflexivity.
Qed.

Lemma _monetizeData_ready env patient s :
  reward_ready env (patientOf s patient) ->
  _monetizeData env patient s =
  match transfer (self s) patient DATA_MONETIZATION_REWARD (sonicToken s) with
  | None => Revert CallReverted
  | Some (_, t') => Ok (tt, payout_stamped env patient t' s)
  end.
Proof.
  intros (Hon & Hmax & Hdue). unfold _monetizeData, reward_due, payout_stamped.
  unfold_monad. cbn. rewrite Hon. cbn.
  rewrite (proj2 (Z.leb_le _ _) Hmax). cbn.
  rewrite (proj2 (Z.leb_le _ _) Hdue). cbn.
  destruct (transfer _ _ _ _) as [[b t'] |]; reflexivity.
Qed.

Lemma trigger_site_dispatch env c own :
  trigger_site env c = Some own ->
  is_payable c = false /\
  dispatch env c = bind own (fun patient => _monetizeData env patient).
Proof. destruct c; cbn; intros [= <-]; split; reflexivity. Qed.

(** The trigger, case by case. For each operation that ends in it: when
    its own statements revert, the operation fails with their failure;
    when they succeed and the trigger is idle (sharing disabled or
    cooldown running), the operation succeeds and its state is exactly the
    one its own statements produced. When they succeed and the trigger is
    due, the token is called without the look at the treasury that
    [claimDataReward] takes and without a look at what the call returns,
    as [_processPayment] takes: a transfer call that reverts makes the
    whole operation fail and return the state it found, and a transfer
    call that returns, whatever it returns, leaves the payout stamped and
    logged. *)
Theorem implicit_trigger env c own s :
  trigger_site env c = Some own ->
  msg_value env = 0 ->
  (forall f,
      own (receive_value env s) = Revert f ->
      transact env c s = (s, Failed f)) /\
  (forall patient s',
      own (receive_value env s) = Ok (patient, s') ->
      reward_idle env (patientOf s' patient) ->
      transact env c s = (s', Success)) /\
  (forall patient s',
      own (receive_value env s) = Ok (patient, s') ->
      reward_ready env (patientOf s' patient) ->
      transfer (self s') patient DATA_MONETIZATION_REWARD (sonicToken s') = None ->
      transact env c s = (s, Failed CallReverted)) /\
  (forall patient s' b t',
      own (receive_value env s) = Ok (patient, s') ->
      reward_ready env (patientOf s' patient) ->
      transfer (self s') patient DATA_MONETIZATION_REWARD (sonicToken s') = Some (b, t') ->
      transact env c s = (payout_stamped env patient t' s', Success)).
Proof.
  intros Hsite Hval.
  destruct (trigger_site_dispatch env c own Hsite) as [Hpay Hdisp].
  assert (Htx : transact env c s =
                match bind own (fun patient => _monetizeData env patient)
                           (receive_value env s) with
                | Ok (_, s') => (s', Success)
                | Revert f => (s, Failed f)
                end).
  { unfold transact, covers. rewrite Hpay, Hdisp, Hval. reflexivity. }
  rewrite Htx. unfold bind.
  repeat split.
  - intros f ->. reflexivity.
  - intros patient s' -> Hidle. rewrite (_monetizeData_idle _ _ _ Hidle). reflexivity.
  - intros patient s' -> Hready Hcall.
    rewrite (_monetizeData_ready _ _ _ Hready), Hcall. reflexivity.
  - intros patient s' b t' -> Hready Hcall.
    rewrite (_monetizeData_ready _ _ _ Hready), Hcall. reflexivity.
Qed.

End ImplicitTrigger.

(** ** A fresh opt-in followed by qualifying actions *)

Section FreshOptIn.

Context {T : Type} `{!ERC20 T}.
Implicit Types (s : State T) (env : Env).

Definition fresh_patient (key : string) : Patient.t :=
  Patient.mk true key 0 (GamificationData.mk 0 1) Disabled 0.

Lemma registerPatient_first env key s :
  _paused s = false ->
  registered s (msg_sender env) = false ->
  msg_value env = 0 ->
  exists s1,
    transact env (Call_registerPatient key) s = (s1, Success) /\
    hasRole s1 PATIENT_ROLE (msg_sender env) = true /\
    patientOf s1 (msg_sender env) = fresh_patient key /\
    registrations s1 (msg_sender env) = S (registrations s (msg_sender env)) /\
    _paused s1 = false /\
    sonicToken s1 = sonicToken s /\ self s1 = self s /\
    aiAnalysisCounter s1 = aiAnalysisCounter s.
Proof.
  intros Hp Hreg Hval. unfold registered, registrations, fresh_patient in *. unfold_calls.
  destruct (negb (covers s env)) eqn:Hc; [guard_solve |].
  unfold_monad; unfold_reads; cbn in *.
  repeat step; try solve [guard_solve].
  all: eexists; split; [reflexivity |]; cbn.
  all: rewrite lookup_insert_eq,
         (bool_decide_eq_true_2 (msg_sender env = msg_sender env)) by reflexivity.
  all: repeat split; try reflexivity; try assumption.
  apply bool_decide_eq_true_2; set_solver.
Qed.

Lemma toggleDataMonetization_step env (enable : bool) s :
  hasRole s PATIENT_ROLE (msg_sender env) = true ->
  registered s (msg_sender env) = true ->
  msg_value env = 0 ->
  exists s2,
    transact env (Call_toggleDataMonetization enable) s = (s2, Success) /\
    _roles s2 = _roles s /\
    patientOf s2 (msg_sender env) =
      Patient.with_dataSharing (if enable then Enabled else Disabled)
                               (patientOf s (msg_sender env)) /\
    sonicToken s2 = sonicToken s /\ self s2 = self s /\
    aiAnalysisCounter s2 = aiAnalysisCounter s.
Proof.
  intros Hrole Hreg Hval. unfold registered in *. unfold_calls.
  destruct (negb (covers s env)) eqn:Hc; [guard_solve |].
  unfold_monad; unfold_reads; cbn in *.
  repeat step; try solve [guard_solve].
  eexists; split; [reflexivity |]; cbn.
  rewrite lookup_insert_eq. repeat split.
Qed.

(** A qualifying action while the trigger is idle: nothing is paid. *)
Lemma requestAISymptomAnalysis_idle env sy s :
  let who := msg_sender env in
  hasRole s PATIENT_ROLE who = true ->
  msg_value env = 0 ->
  aiAnalysisCounter s + 1 <= UInt.max 256 ->
  GamificationData.mediPoints (Patient.gamification (patientOf s who)) + 10 <= UInt.max 96 ->
  reward_idle env (patientOf s who) ->
  exists s',
    transact env (Call_requestAISymptomAnalysis sy) s = (s', Success) /\
    _roles s' = _roles s /\
    patientOf s' who =
      Patient.with_mediPoints
        (GamificationData.mediPoints (Patient.gamification (patientOf s who)) + 10)
        (patientOf s who) /\
    sonicToken s' = sonicToken s /\ self s' = self s /\
    aiAnalysisCounter s' = aiAnalysisCounter s + 1 /\
    events s' = AISymptomAnalyzed (aiAnalysisCounter s + 1) who :: events s.
Proof.
  intros who Hrole Hval Hcnt Hpts Hidle. subst who.
  unfold reward_idle in Hidle. unfold requestAISymptomAnalysis. unfold_calls.
  destruct (negb (covers s env)) eqn:Hc; [guard_solve |].
  unfold_monad; unfold_reads; cbn in *.
  repeat (step; rewrite ?lookup_insert_eq in *; cbn in * ); try solve [guard_solve].
  all: try (eexists; split; [reflexivity |]; cbn;
            rewrite ?lookup_insert_eq; repeat split).
  all: destruct Hidle as [Hoff | (Hon & Hmax & Hsoon)]; guard_solve.
Qed.

(** A qualifying action while the trigger is due: one transfer is made. *)
Lemma requestAISymptomAnalysis_paid env sy s b t' :
  let who := msg_sender env in
  hasRole s PATIENT_ROLE who = true ->
  msg_value env = 0 ->
  aiAnalysisCounter s + 1 <= UInt.max 256 ->
  GamificationData.mediPoints (Patient.gamification (patientOf s who)) + 10 <= UInt.max 96 ->
  reward_ready env (patientOf s who) ->
  transfer (self s) who DATA_MONETIZATION_REWARD (sonicToken s) = Some (b, t') ->
  exists s',
    transact env (Call_requestAISymptomAnalysis sy) s = (s', Success) /\
    _roles s' = _roles s /\
    patientOf s' who =
      Patient.with_lastRewardTimestamp (block_timestamp env)
        (Patient.with_mediPoints
           (GamificationData.mediPoints (Patient.gamification (patientOf s who)) + 10)
           (patientOf s who)) /\
    sonicToken s' = t' /\ self s' = self s /\
    aiAnalysisCounter s' = aiAnalysisCounter s + 1 /\
    events s' = DataRewardClaimed who DATA_MONETIZATION_REWARD
                :: AISymptomAnalyzed (aiAnalysisCounter s + 1) who :: events s.
Proof.
  intros who Hrole Hval Hcnt Hpts (Hon & Hmax & Hdue) Hcall. subst who.
  unfold requestAISymptomAnalysis. unfold_calls.
  destruct (negb (covers s env)) eqn:Hc; [guard_solve |].
  unfold_monad; unfold_reads; cbn in *.
  repeat (step; rewrite ?lookup_insert_eq, ?Hcall in *; cbn in * ); try solve [guard_solve].
  all: try (eexists; split; [reflexivity |]; cbn;
            rewrite ?lookup_insert_eq, ?insert_insert_eq; repeat split).
  all: guard_solve.
Qed.

Lemma mediPoints_room : 30 <= UInt.max 96.
Proof. vm_compute. discriminate. Qed.

(** C2, as the code has it. Registration leaves the last-payout stamp at
    zero and enabling sharing does not touch it, so the cooldown is
    measured from time zero: the first qualifying action after a fresh
    opt-in, at any clock of one day or more, already pays. A further
    action within 24 hours of that payout pays nothing, and one made 24
    hours or more after it pays exactly once again; with a token that
    moves what it reports as transferred, each payout raises the
    patient's balance by the fixed reward. *)
Theorem fresh_optin_reward_schedule
        env_r env_t env1 env2 env3 key sy1 sy2 sy3 s b1 t1 b3 t3 :
  let who := msg_sender env_r in
  msg_sender env_t = who -> msg_sender env1 = who ->
  msg_sender env2 = who -> msg_sender env3 = who ->
  msg_value env_r = 0 -> msg_value env_t = 0 -> msg_value env1 = 0 ->
  msg_value env2 = 0 -> msg_value env3 = 0 ->
  _paused s = false ->
  registered s who = false ->
  aiAnalysisCounter s + 3 <= UInt.max 256 ->
  1 * days <= block_timestamp env1 ->
  block_timestamp env1 + 1 * days <= UInt.max 256 ->
  block_timestamp env2 < block_timestamp env1 + 1 * days ->
  block_timestamp env1 + 1 * days <= block_timestamp env3 ->
  transfer (self s) who DATA_MONETIZATION_REWARD (sonicToken s) = Some (b1, t1) ->
  transfer (self s) who DATA_MONETIZATION_REWARD t1 = Some (b3, t3) ->
  exists s1 s2 s3 s4 s5,
    transact env_r (Call_registerPatient key) s = (s1, Success) /\
    transact env_t (Call_toggleDataMonetization true) s1 = (s2, Success) /\
    sonicToken s2 = sonicToken s /\
    transact env1 (Call_requestAISymptomAnalysis sy1) s2 = (s3, Success) /\
    sonicToken s3 = t1 /\
    Patient.lastRewardTimestamp (patientOf s3 who) = block_timestamp env1 /\
    head (events s3) = Some (DataRewardClaimed who DATA_MONETIZATION_REWARD) /\
    transact env2 (Call_requestAISymptomAnalysis sy2) s3 = (s4, Success) /\
    sonicToken s4 = t1 /\
    transact env3 (Call_requestAISymptomAnalysis sy3) s4 = (s5, Success) /\
    sonicToken s5 = t3 /\
    (ERC20Lawful T -> who <> self s ->
     (b1 = true ->
      balanceOf t1 who = balanceOf (sonicToken s) who + DATA_MONETIZATION_REWARD) /\
     (b3 = true ->
      balanceOf t3 who = balanceOf t1 who + DATA_MONETIZATION_REWARD)).
Proof.
  intros who Hst Hs1 Hs2 Hs3 Hvr Hvt Hv1 Hv2 Hv3 Hp Hreg Hcnt Hday Hmax Hsoon Hlate
         Hpay1 Hpay3.
  pose proof mediPoints_room as Hroom.
  destruct (registerPatient_first env_r key s Hp Hreg Hvr)
    as (s1 & Htx1 & Hrole1 & Hpat1 & _ & _ & Htok1 & Hself1 & Hcnt1).
  fold who in Hrole1, Hpat1.
  destruct (toggleDataMonetization_step env_t true s1)
    as (s2 & Htx2 & Hroles2 & Hpat2 & Htok2 & Hself2 & Hcnt2);
    rewrite ?Hst; try assumption.
  { unfold registered. rewrite Hpat1. reflexivity. }
  rewrite Hst, Hpat1 in Hpat2.
  assert (Hrole2 : hasRole s2 PATIENT_ROLE who = true)
    by (unfold hasRole in *; rewrite Hroles2; exact Hrole1).
  destruct (requestAISymptomAnalysis_paid env1 sy1 s2 b1 t1)
    as (s3 & Htx3 & Hroles3 & Hpat3 & Htok3 & Hself3 & Hcnt3 & Hev3);
    rewrite ?Hs1, ?Hpat2; cbn; try assumption; try lia.
  { unfold reward_ready. cbn. unfold days in *. repeat split; lia. }
  { rewrite Hself2, Hself1, Htok2, Htok1. exact Hpay1. }
  rewrite Hs1, Hpat2 in Hpat3. cbn in Hpat3.
  assert (Hrole3 : hasRole s3 PATIENT_ROLE who = true)
    by (unfold hasRole in *; rewrite Hroles3; exact Hrole2).
  destruct (requestAISymptomAnalysis_idle env2 sy2 s3)
    as (s4 & Htx4 & Hroles4 & Hpat4 & Htok4 & Hself4 & Hcnt4 & _);
    rewrite ?Hs2, ?Hpat3; cbn; try assumption; try lia.
  { unfold reward_idle. cbn. right. unfold days in *. repeat split; lia. }
  rewrite Hs2, Hpat3 in Hpat4. cbn in Hpat4.
  assert (Hrole4 : hasRole s4 PATIENT_ROLE who = true)
    by (unfold hasRole in *; rewrite Hroles4; exact Hrole3).
  destruct (requestAISymptomAnalysis_paid env3 sy3 s4 b3 t3)
    as (s5 & Htx5 & _ & _ & Htok5 & _);
    rewrite ?Hs3, ?Hpat4; cbn; try assumption; try lia.
  { unfold reward_ready. cbn. unfold days in *. repeat split; lia. }
  { rewrite Hself4, Hself3, Hself2, Hself1, Htok4, Htok3. exact Hpay3. }
  exists s1, s2, s3, s4, s5.
  repeat split; try assumption.
  - congruence.
  - rewrite Hpat3. reflexivity.
  - rewrite Hev3, Hs1. reflexivity.
  - congruence.
  - intros ->. apply transfer_moves in Hpay1 as [Hto _]; [exact Hto | congruence].
  - intros ->. apply transfer_moves in Hpay3 as [Hto _]; [exact Hto | congruence].
Qed.

End FreshOptIn.

Module TriggerExamples.
Import Scenario.

(** The patient has opted in; the treasury is empty. *)
Definition dry : State StdToken.t :=
  run (onboarding ++ [(at_ pat t0, Call_toggleDataMonetization true)]) (genesis 0).

Definition dry_silent : State SilentToken.t :=
  run (onboarding ++ [(at_ pat t0, Call_toggleDataMonetization true)])
      (initialize this admin (SilentToken.mk ∅) (SilentToken.mk ∅) {[ pat := 5000 ]} ∅).

Definition staffed : State StdToken.t := run onboarding (genesis 0).
Definition ordered : State StdToken.t :=
  run [(at_ doc t0, Call_orderLabTest pat "blood panel")] staffed.
Definition collected : State StdToken.t :=
  run [(at_ tech t0, Call_collectSample 1 "Qm-sample")] ordered.
Definition uploaded : State StdToken.t :=
  run [(at_ tech t0, Call_uploadLabResults 1 "Qm-results")] collected.

(** The state a successful computation ends in. *)
Definition state_of {T A} (r : Result (A * State T)) (otherwise : State T) : State T :=
  match r with
  | Ok (_, s) => s
  | Revert _ => otherwise
  end.

End TriggerExamples.

(** C1 does not hold of the code: the trigger can fail the enclosing
    operation. The patient has sharing enabled, the cooldown has elapsed
    and the treasury holds nothing. The operation's own statements
    succeed, yet with a token that throws on an uncovered transfer the
    whole operation fails and nothing of it is kept; with a token that
    returns [false] it succeeds, but the trigger has stamped the payout
    time and logged a payout that moved nothing. In the same two states
    the explicit path, [claimDataReward], looks at the treasury first and
    stops at its own guard. *)
Lemma trigger_fails_enclosing_operation :
  let env := Scenario.at_ Scenario.pat (Scenario.t0 + 60) in
  (exists s',
      requestAISymptomAnalysis_own env "cough" (receive_value env TriggerExamples.dry)
      = Ok (Scenario.pat, s')) /\
  balanceOf (sonicToken TriggerExamples.dry) (self TriggerExamples.dry)
    < DATA_MONETIZATION_REWARD /\
  transact env (Call_requestAISymptomAnalysis "cough") TriggerExamples.dry
  = (TriggerExamples.dry, Failed CallReverted) /\
  (let done := transact env (Call_requestAISymptomAnalysis "cough")
                        TriggerExamples.dry_silent in
   snd done = Success /\
   Patient.lastRewardTimestamp (patientOf (fst done) Scenario.pat) = Scenario.t0 + 60 /\
   head (events (fst done))
   = Some (DataRewardClaimed Scenario.pat DATA_MONETIZATION_REWARD) /\
   balanceOf (sonicToken (fst done)) Scenario.pat = 0) /\
  transact env Call_claimDataReward TriggerExamples.dry
  = (TriggerExamples.dry, Failed (Require "Insufficient SONIC tokens")) /\
  transact env Call_claimDataReward TriggerExamples.dry_silent
  = (TriggerExamples.dry_silent, Failed (Require "Insufficient SONIC tokens")).
Proof.
  split; [eexists; vm_compute; reflexivity |]. by_eval.
Qed.

Lemma implicit_trigger_witness :
  let env_p := Scenario.at_ Scenario.pat Scenario.t0 in
  let env_d := Scenario.at_ Scenario.doc Scenario.t0 in
  let env_t := Scenario.at_ Scenario.tech Scenario.t0 in
  (exists s',
      requestAISymptomAnalysis_own env_p "cough" (receive_value env_p TriggerExamples.staffed)
      = Ok (Scenario.pat, s') /\
      transact env_p (Call_requestAISymptomAnalysis "cough") TriggerExamples.staffed
      = (s', Success)) /\
  (exists s',
      orderLabTest_own env_d Scenario.pat "blood panel"
                       (receive_value env_d TriggerExamples.staffed)
      = Ok (Scenario.pat, s') /\
      transact env_d (Call_orderLabTest Scenario.pat "blood panel") TriggerExamples.staffed
      = (s', Success)) /\
  (exists s',
      uploadLabResults_own env_t 1 "Qm-results" (receive_value env_t TriggerExamples.collected)
      = Ok (Scenario.pat, s') /\
      transact env_t (Call_uploadLabResults 1 "Qm-results") TriggerExamples.collected
      = (s', Success)) /\
  (exists s',
      reviewLabResults_own env_d 1 "amoxicillin" "Qm-rx"
                           (receive_value env_d TriggerExamples.uploaded)
      = Ok (Scenario.pat, s') /\
      transact env_d (Call_reviewLabResults 1 "amoxicillin" "Qm-rx") TriggerExamples.uploaded
      = (s', Success)) /\
  transact (Scenario.at_ Scenario.pat (Scenario.t0 + 60))
           (Call_requestAISymptomAnalysis "cough") TriggerExamples.dry
  = (TriggerExamples.dry, Failed CallReverted).
Proof.
  intros env_p env_d env_t.
  split; [| split; [| split; [| split]]].
  - set (own := requestAISymptomAnalysis_own env_p "cough").
    set (s := TriggerExamples.staffed).
    set (s' := TriggerExamples.state_of (own (receive_value env_p s)) s).
    assert (Hown : own (receive_value env_p s) = Ok (Scenario.pat, s')) by by_eval.
    exists s'. split; [exact Hown |].
    refine (proj1 (proj2 (implicit_trigger env_p
              (Call_requestAISymptomAnalysis "cough") own s eq_refl eq_refl))
              Scenario.pat s' Hown _).
    left. by_eval.
  - set (own := orderLabTest_own env_d Scenario.pat "blood panel").
    set (s := TriggerExamples.staffed).
    set (s' := TriggerExamples.state_of (own (receive_value env_d s)) s).
    assert (Hown : own (receive_value env_d s) = Ok (Scenario.pat, s')) by by_eval.
    exists s'. split; [exact Hown |].
    refine (proj1 (proj2 (implicit_trigger env_d
              (Call_orderLabTest Scenario.pat "blood panel") own s eq_refl eq_refl))
              Scenario.pat s' Hown _).
    left. by_eval.
  - set (own := uploadLabResults_own env_t 1 "Qm-results").
    set (s := TriggerExamples.collected).
    set (s' := TriggerExamples.state_of (own (receive_value env_t s)) s).
    assert (Hown : own (receive_value env_t s) = Ok (Scenario.pat, s')) by by_eval.
    exists s'. split; [exact Hown |].
    refine (proj1 (proj2 (implicit_trigger env_t
              (Call_uploadLabResults 1 "Qm-results") own s eq_refl eq_refl))
              Scenario.pat s' Hown _).
    left. by_eval.
  - set (own := reviewLabResults_own env_d 1 "amoxicillin" "Qm-rx").
    set (s := TriggerExamples.uploaded).
    set (s' := TriggerExamples.state_of (own (receive_value env_d s)) s).
    assert (Hown : own (receive_value env_d s) = Ok (Scenario.pat, s')) by by_eval.
    exists s'. split; [exact Hown |].
    refine (proj1 (proj2 (implicit_trigger env_d
              (Call_reviewLabResults 1 "amoxicillin" "Qm-rx") own s eq_refl eq_refl))
              Scenario.pat s' Hown _).
    left. by_eval.
  - set (env := Scenario.at_ Scenario.pat (Scenario.t0 + 60)).
    pose (own := requestAISymptomAnalysis_own env "cough" : M StdToken.t address).
    set (s := TriggerExamples.dry).
    set (s' := TriggerExamples.state_of (own (receive_value env s)) s).
    assert (Hown : own (receive_value env s) = Ok (Scenario.pat, s')) by by_eval.
    refine (proj1 (proj2 (proj2 (implicit_trigger env
              (Call_requestAISymptomAnalysis "cough") own s eq_refl eq_refl)))
              Scenario.pat s' Hown _ _); by_eval.
Defined.

(** Counterexample to C2 as stated: the patient registers, enables sharing
    and acts at once, all at the same clock; that first action already
    pays the reward. *)
Lemma first_action_after_optin_pays :
  let env := Scenario.at_ Scenario.pat Scenario.t0 in
  let done := transact env (Call_requestAISymptomAnalysis "cough") RewardExamples.opted_in in
  snd done = Success /\
  balanceOf (sonicToken RewardExamples.opted_in) Scenario.pat = 0 /\
  balanceOf (sonicToken (fst done)) Scenario.pat = DATA_MONETIZATION_REWARD /\
  head (events (fst done)) = Some (DataRewardClaimed Scenario.pat DATA_MONETIZATION_REWARD).
Proof. by_eval. Qed.

Lemma fresh_optin_reward_schedule_witness :
  let s := run (take 3 Scenario.onboarding) (Scenario.genesis RewardExamples.treasury) in
  let t1 := RewardExamples.paid (sonicToken s) in
  let t3 := RewardExamples.paid t1 in
  exists s1 s2 s3 s4 s5,
    transact (Scenario.at_ Scenario.pat Scenario.t0) (Call_registerPatient "key") s
    = (s1, Success) /\
    transact (Scenario.at_ Scenario.pat Scenario.t0) (Call_toggleDataMonetization true) s1
    = (s2, Success) /\
    transact (Scenario.at_ Scenario.pat Scenario.t0) (Call_requestAISymptomAnalysis "a") s2
    = (s3, Success) /\
    sonicToken s3 = t1 /\
    transact (Scenario.at_ Scenario.pat (Scenario.t0 + 3600))
             (Call_requestAISymptomAnalysis "b") s3 = (s4, Success) /\
    sonicToken s4 = t1 /\
    transact (Scenario.at_ Scenario.pat (Scenario.t0 + 86400))
             (Call_requestAISymptomAnalysis "c") s4 = (s5, Success) /\
    sonicToken s5 = t3 /\
    balanceOf t3 Scenario.pat = 2 * DATA_MONETIZATION_REWARD.
Proof.
  intros s t1 t3.
  destruct (fresh_optin_reward_schedule
              (Scenario.at_ Scenario.pat Scenario.t0)
              (Scenario.at_ Scenario.pat Scenario.t0)
              (Scenario.at_ Scenario.pat Scenario.t0)
              (Scenario.at_ Scenario.pat (Scenario.t0 + 3600))
              (Scenario.at_ Scenario.pat (Scenario.t0 + 86400))
              "key" "a" "b" "c" s true t1 true t3)
    as (s1 & s2 & s3 & s4 & s5 & H1 & H2 & _ & H3 & Ht3 & _ & _ & H4 & Ht4 & H5 & Ht5 & _);
    [by_eval | by_eval | by_eval | by_eval | by_eval | by_eval | by_eval | by_eval
     | by_eval | by_eval | by_eval | by_eval | by_eval | by_eval | by_eval | by_eval
     | by_eval | by_eval |].
  exists s1, s2, s3, s4, s5.
  split; [exact H1 |]. split; [exact H2 |]. split; [exact H3 |]. split; [exact Ht3 |].
  split; [exact H4 |]. split; [exact Ht4 |]. split; [exact H5 |]. split; [exact Ht5 |].
  by_eval.
Defined.


(** * Further properties of the contract *)

(** Symbolic execution of one transaction, whichever entry point it calls. *)
Ltac each_call c s env :=
  destruct c; unfold_calls;
  (destruct (negb (covers s env)) eqn:?Hc;
   [| unfold_monad; unfold_reads; cbn in *; repeat step; cbn in * ]).

(** The same, for a goal about the state [s'] that [transact] returned. *)
Ltac each_result c s env :=
  each_call c s env;
  repeat match goal with
         | H : (_, _) = (_, _) |- _ => injection H as H; try subst
         end;
  cbn in *.

(** The same for one given entry point. *)
Ltac this_result s env :=
  unfold_calls;
  (destruct (negb (covers s env)) eqn:?Hc;
   [| unfold_monad; unfold_reads; cbn in *; repeat step; cbn in * ]);
  repeat match goal with
         | H : (_, _) = (_, _) |- _ => injection H as H; try subst
         end;
  cbn in *.

(** Case analysis on the keys of the map updates in the goal. *)
Ltac map_cases :=
  repeat (first [ rewrite lookup_insert
                | match goal with
                  | |- context [decide (?k = ?i)] =>
                      destruct (decide (k = i)); try subst; cbn; try congruence
                  end ]).

(** ** Guards and counters *)

Section GuardsAndCounters.

Context {T : Type} `{!ERC20 T}.
Implicit Types (s : State T) (env : Env) (c : Call).

Definition steps_by_one (before after : Z) : Prop :=
  after = before \/ after = before + 1.

Lemma guards_result env c s s' o :
  transact env c s = (s', o) ->
  _paused s' = _paused s /\
  (_entered s = false -> _entered s' = false) /\
  self s' = self s /\
  steps_by_one (appointmentCounter s) (appointmentCounter s') /\
  steps_by_one (labTestCounter s) (labTestCounter s') /\
  steps_by_one (prescriptionCounter s) (prescriptionCounter s') /\
  steps_by_one (aiAnalysisCounter s) (aiAnalysisCounter s').
Proof.
  unfold steps_by_one. intros Htx.
  each_result c s env.
  all: repeat split;
    first [ reflexivity | left; reflexivity | right; reflexivity
          | intros; first [assumption | reflexivity] ].
Qed.

Lemma guards_step env c s :
  let s' := fst (transact env c s) in
  _paused s' = _paused s /\
  (_entered s = false -> _entered s' = false) /\
  self s' = self s /\
  steps_by_one (appointmentCounter s) (appointmentCounter s') /\
  steps_by_one (labTestCounter s) (labTestCounter s') /\
  steps_by_one (prescriptionCounter s) (prescriptionCounter s') /\
  steps_by_one (aiAnalysisCounter s) (aiAnalysisCounter s').
Proof.
  cbn zeta. destruct (transact env c s) as [s' o] eqn:Htx.
  exact (guards_result env c s s' o Htx).
Qed.

(** The contract inherits a pause switch and guards [registerPatient] with
    it, but exposes nothing that flips it: from deployment on, whatever
    transactions are sent, the contract is never paused; and between
    transactions the reentrancy guard is always released. *)
Theorem never_paused txs this deployer (usdc sonic : T) bal rej :
  let s := run txs (initialize this deployer usdc sonic bal rej) in
  _paused s = false /\ _entered s = false /\ self s = this.
Proof.
  cbn zeta.
  assert (Hgen : forall s0, _paused s0 = false -> _entered s0 = false ->
                            _paused (run txs s0) = false /\ _entered (run txs s0) = false /\
                            self (run txs s0) = self s0).
  { induction txs as [| [env c] txs IH]; intros s0 Hp He; cbn; [auto |].
    destruct (guards_step env c s0) as (Hp' & He' & Hs' & _).
    destruct (IH (fst (transact env c s0))) as (H1 & H2 & H3); [congruence | auto |].
    repeat split; congruence. }
  apply Hgen; reflexivity.
Qed.

(** Each of the four identifier counters never decreases and grows by at
    most one per transaction: after a run of [n] transactions it lies
    between its old value and its old value plus [n]. *)
Theorem counters_monotone txs s :
  let s' := run txs s in
  let n := Z.of_nat (length txs) in
  appointmentCounter s <= appointmentCounter s' <= appointmentCounter s + n /\
  labTestCounter s <= labTestCounter s' <= labTestCounter s + n /\
  prescriptionCounter s <= prescriptionCounter s' <= prescriptionCounter s + n /\
  aiAnalysisCounter s <= aiAnalysisCounter s' <= aiAnalysisCounter s + n.
Proof.
  cbn zeta. revert s.
  induction txs as [| [env c] txs IH]; intros s; cbn [run length].
  - cbn. lia.
  - destruct (guards_step env c s) as (_ & _ & _ & Ha & Hl & Hp & Hi).
    specialize (IH (fst (transact env c s))).
    unfold steps_by_one in *. rewrite Nat2Z.inj_succ. lia.
Qed.

End GuardsAndCounters.


(** ** Records behind issued identifiers *)

Section IssuedRecords.

Context {T : Type} `{!ERC20 T}.
Implicit Types (s : State T) (env : Env) (c : Call).

(** Every issued identifier holds a record carrying that identifier. *)
Definition ids_dense s : Prop :=
  (forall i, 1 <= i <= appointmentCounter s -> Appointment.id (appointmentOf s i) = i) /\
  (forall i, 1 <= i <= labTestCounter s -> LabTestOrder.id (getLabTestDetails s i) = i) /\
  (forall i, 1 <= i <= prescriptionCounter s ->
             Prescription.id (getPrescriptionDetails s i) = i) /\
  (forall i, 1 <= i <= aiAnalysisCounter s ->
             AISymptomAnalysis.id (getAIAnalysisDetails s i) = i).

Lemma ids_dense_result env c s s' o :
  transact env c s = (s', o) -> ids_dense s -> ids_dense s'.
Proof.
  unfold ids_dense. intros Htx (Ha & Hl & Hp & Hi).
  unfold_reads.
  each_result c s env.
  all: repeat split; try assumption; intros i Hrange.
  all: map_cases; cbn.
  all: first [ reflexivity | apply Ha; lia | apply Hl; lia | apply Hp; lia | apply Hi; lia ].
Qed.

Lemma ids_dense_run txs : forall s, ids_dense s -> ids_dense (run txs s).
Proof.
  induction txs as [| [env c] txs IH]; intros s Hs; cbn; [assumption |].
  apply IH. destruct (transact env c s) as [s' o] eqn:Htx.
  exact (ids_dense_result env c s s' o Htx Hs).
Qed.

(** Identifiers are issued densely: in every state reached from
    deployment, each identifier from 1 up to the counter of its kind holds
    a record whose [id] field is that identifier, for appointments, lab
    orders, prescriptions and symptom analyses alike. *)
Theorem issued_ids_dense txs this deployer (usdc sonic : T) bal rej :
  ids_dense (run txs (initialize this deployer usdc sonic bal rej)).
Proof.
  apply ids_dense_run. repeat split; intros i Hi; cbn in Hi; lia.
Qed.

(** *** Appointments *)

Definition appointment_open (st : AppointmentStatus) : Prop :=
  st = Pending \/ st = Confirmed.

Lemma appointment_status_result env c s s' o :
  transact env c s = (s', o) ->
  (forall i, appointment_open (Appointment.status (appointmentOf s i))) ->
  forall i, appointment_open (Appointment.status (appointmentOf s' i)).
Proof.
  unfold appointment_open. intros Htx Hinv. unfold_reads.
  each_result c s env.
  all: try assumption; intros i; map_cases; cbn; auto.
Qed.

(** Of the five appointment statuses only two are ever used: in every
    state reached from deployment every appointment slot is Pending or
    Confirmed; nothing completes, cancels or escalates an appointment. *)
Theorem appointment_never_closed txs this deployer (usdc sonic : T) bal rej i :
  let st := Appointment.status
              (appointmentOf (run txs (initialize this deployer usdc sonic bal rej)) i) in
  st = Pending \/ st = Confirmed.
Proof.
  cbn zeta.
  assert (Hgen : forall s,
             (forall j, appointment_open (Appointment.status (appointmentOf s j))) ->
             forall j, appointment_open (Appointment.status (appointmentOf (run txs s) j))).
  { induction txs as [| [env c] txs IH]; intros s Hs; cbn; [assumption |].
    apply IH. destruct (transact env c s) as [s' o] eqn:Htx.
    exact (appointment_status_result env c s s' o Htx Hs). }
  apply Hgen. intros j. left. reflexivity.
Qed.

(** *** Prescriptions *)

Definition rx_rank (st : PrescriptionStatus) : Z :=
  match st with Generated => 0 | Verified => 1 | Fulfilled => 2 end.

(** What a transaction may do to an issued prescription. *)
Definition rx_evolves (p p' : Prescription.t) : Prop :=
  (Prescription.status p' = Prescription.status p \/
   (Prescription.status p = Generated /\ Prescription.status p' = Verified) \/
   (Prescription.status p = Verified /\ Prescription.status p' = Fulfilled)) /\
  Prescription.id p' = Prescription.id p /\
  Prescription.patient p' = Prescription.patient p /\
  Prescription.doctor p' = Prescription.doctor p /\
  Prescription.verificationCodeHash p' = Prescription.verificationCodeHash p /\
  Prescription.medicationDetails p' = Prescription.medicationDetails p /\
  Prescription.prescriptionIpfsHash p' = Prescription.prescriptionIpfsHash p /\
  Prescription.generatedTimestamp p' = Prescription.generatedTimestamp p /\
  Prescription.expirationTimestamp p' = Prescription.expirationTimestamp p /\
  (Prescription.status p <> Generated ->
   Prescription.pharmacy p' = Prescription.pharmacy p).

(** What a run of transactions preserves of an issued prescription. *)
Definition rx_keeps (p p' : Prescription.t) : Prop :=
  rx_rank (Prescription.status p) <= rx_rank (Prescription.status p') /\
  Prescription.id p' = Prescription.id p /\
  Prescription.patient p' = Prescription.patient p /\
  Prescription.doctor p' = Prescription.doctor p /\
  Prescription.verificationCodeHash p' = Prescription.verificationCodeHash p /\
  Prescription.medicationDetails p' = Prescription.medicationDetails p /\
  Prescription.prescriptionIpfsHash p' = Prescription.prescriptionIpfsHash p /\
  Prescription.generatedTimestamp p' = Prescription.generatedTimestamp p /\
  Prescription.expirationTimestamp p' = Prescription.expirationTimestamp p /\
  (Prescription.status p <> Generated ->
   Prescription.pharmacy p' = Prescription.pharmacy p).

Lemma rx_evolves_keeps p p' : rx_evolves p p' -> rx_keeps p p'.
Proof.
  unfold rx_evolves, rx_keeps.
  intros (Hst & ? & ? & ? & ? & ? & ? & ? & ? & ?).
  repeat split; try assumption.
  destruct Hst as [-> | [[-> ->] | [-> ->]]]; cbn; lia.
Qed.

Lemma rx_keeps_trans p q r : rx_keeps p q -> rx_keeps q r -> rx_keeps p r.
Proof.
  unfold rx_keeps.
  intros (Hr1 & ? & ? & ? & ? & ? & ? & ? & ? & Hph1)
         (Hr2 & ? & ? & ? & ? & ? & ? & ? & ? & Hph2).
  repeat split; try congruence; try lia.
  intros Hne. rewrite Hph2, Hph1; [reflexivity | assumption |].
  intros Hq. rewrite Hq in Hr1. destruct (Prescription.status p); cbn in Hr1; try lia.
  congruence.
Qed.

Lemma rx_result env c s s' o i :
  transact env c s = (s', o) ->
  1 <= i <= prescriptionCounter s ->
  rx_evolves (getPrescriptionDetails s i) (getPrescriptionDetails s' i).
Proof.
  unfold rx_evolves. intros Htx Hi. unfold_reads.
  each_result c s env.
  all: map_cases; cbn.
  all: try solve [repeat split; auto].
  all: try lia.
  all: repeat match goal with
              | H : bool_decide _ = true |- _ => apply bool_decide_eq_true_1 in H
              end.
  all: repeat split; auto; try congruence.
Qed.

(** An issued prescription is immutable but for its lifecycle: over any run
    of transactions its patient, doctor, commitment, medication, content
    hash and both timestamps stay what [reviewLabResults] wrote, its status
    never moves back, and once it has left Generated the recorded pharmacy
    never changes. *)
Theorem prescription_immutable txs : forall s i,
  1 <= i <= prescriptionCounter s ->
  rx_keeps (getPrescriptionDetails s i) (getPrescriptionDetails (run txs s) i).
Proof.
  induction txs as [| [env c] txs IH]; intros s i Hi; cbn [run].
  - apply rx_evolves_keeps. unfold rx_evolves. repeat split; auto.
  - destruct (transact env c s) as [s' o] eqn:Htx. cbn [fst].
    apply rx_keeps_trans with (getPrescriptionDetails s' i).
    + apply rx_evolves_keeps. exact (rx_result env c s s' o i Htx Hi).
    + apply IH.
      destruct (guards_result env c s s' o Htx) as (_ & _ & _ & _ & _ & Hp & _).
      unfold steps_by_one in Hp. lia.
Qed.

(** *** Lab orders *)

(** What a run of transactions preserves of an issued lab order. *)
Definition lab_keeps (o o' : LabTestOrder.t) : Prop :=
  lab_rank (LabTestOrder.status o) <= lab_rank (LabTestOrder.status o') /\
  LabTestOrder.id o' = LabTestOrder.id o /\
  LabTestOrder.patient o' = LabTestOrder.patient o /\
  LabTestOrder.doctor o' = LabTestOrder.doctor o /\
  LabTestOrder.testType o' = LabTestOrder.testType o /\
  LabTestOrder.orderedTimestamp o' = LabTestOrder.orderedTimestamp o /\
  (LabTestOrder.status o <> Requested ->
   LabTestOrder.labTech o' = LabTestOrder.labTech o /\
   LabTestOrder.sampleCollectionIpfsHash o' = LabTestOrder.sampleCollectionIpfsHash o) /\
  (2 <= lab_rank (LabTestOrder.status o) ->
   LabTestOrder.resultsIpfsHash o' = LabTestOrder.resultsIpfsHash o) /\
  (LabTestOrder.status o = Reviewed -> o' = o).

Lemma lab_keeps_result env c s s' o i :
  transact env c s = (s', o) ->
  1 <= i <= labTestCounter s ->
  lab_keeps (getLabTestDetails s i) (getLabTestDetails s' i).
Proof.
  unfold lab_keeps. intros Htx Hi. unfold_reads.
  each_result c s env.
  all: map_cases; cbn.
  all: try solve [repeat split; auto; lia].
  all: try lia.
  all: repeat match goal with
              | H : bool_decide _ = true |- _ => apply bool_decide_eq_true_1 in H
              end.
  all: repeat match goal with
              | H : LabTestOrder.status _ = _ |- _ => rewrite H in *
              end; cbn.
  all: repeat split; auto; try congruence; try lia.
Qed.

Lemma lab_keeps_trans o p q : lab_keeps o p -> lab_keeps p q -> lab_keeps o q.
Proof.
  unfold lab_keeps.
  intros (Hr1 & ? & ? & ? & ? & ? & Ht1 & Hres1 & Hfin1)
         (Hr2 & ? & ? & ? & ? & ? & Ht2 & Hres2 & Hfin2).
  assert (Hp : LabTestOrder.status o <> Requested -> LabTestOrder.status p <> Requested).
  { intros Hne Hp. rewrite Hp in Hr1.
    destruct (LabTestOrder.status o); cbn in Hr1; try lia; congruence. }
  split; [lia |]. do 5 (split; [congruence |]).
  split; [intros Hne; destruct (Ht1 Hne), (Ht2 (Hp Hne)); split; congruence |].
  split; [intros Hge; rewrite Hres2, Hres1; [reflexivity | assumption | lia] |].
  intros Hrev. pose proof (Hfin1 Hrev) as E. subst p. exact (Hfin2 Hrev).
Qed.

(** An issued lab order keeps its patient, ordering doctor, test type and
    order time over any run of transactions; its status never moves back;
    the technician and the sample hash are fixed once a sample has been
    collected, the results hash once results are uploaded, and a Reviewed
    order never changes again. *)
Theorem labTest_immutable txs : forall s i,
  1 <= i <= labTestCounter s ->
  lab_keeps (getLabTestDetails s i) (getLabTestDetails (run txs s) i).
Proof.
  induction txs as [| [env c] txs IH]; intros s i Hi; cbn [run].
  - unfold lab_keeps. repeat split; auto; lia.
  - destruct (transact env c s) as [s' o] eqn:Htx. cbn [fst].
    apply lab_keeps_trans with (getLabTestDetails s' i).
    + exact (lab_keeps_result env c s s' o i Htx Hi).
    + apply IH.
      destruct (guards_result env c s s' o Htx) as (_ & _ & _ & _ & Hl & _).
      unfold steps_by_one in Hl. lia.
Qed.

End IssuedRecords.

Lemma prescription_immutable_witness :
  let txs := [ (Scenario.at_ Scenario.pharm Scenario.t0,
                Call_verifyPrescription 1 PrescriptionExamples.commitment);
               (Scenario.at_ Scenario.pharm (Scenario.t0 + 60), Call_fulfillPrescription 1) ] in
  1 <= 1 <= prescriptionCounter PrescriptionExamples.generated /\
  Prescription.status (getPrescriptionDetails (run txs PrescriptionExamples.generated) 1)
  = Fulfilled /\
  rx_keeps (getPrescriptionDetails PrescriptionExamples.generated 1)
           (getPrescriptionDetails (run txs PrescriptionExamples.generated) 1).
Proof.
  intros txs.
  assert (Hi : 1 <= 1 <= prescriptionCounter PrescriptionExamples.generated) by by_eval.
  split; [exact Hi |]. split; [by_eval |].
  exact (prescription_immutable txs PrescriptionExamples.generated 1 Hi).
Defined.

Lemma labTest_immutable_witness :
  let s := run LabExamples.ordered (Scenario.genesis 0) in
  let txs := skipn 1 Scenario.lab_cycle in
  1 <= 1 <= labTestCounter s /\
  LabTestOrder.status (getLabTestDetails (run txs s) 1) = Reviewed /\
  lab_keeps (getLabTestDetails s 1) (getLabTestDetails (run txs s) 1).
Proof.
  intros s txs.
  assert (Hi : 1 <= 1 <= labTestCounter s) by by_eval.
  split; [exact Hi |]. split; [by_eval |].
  exact (labTest_immutable txs s 1 Hi).
Defined.


(** ** Patient records and payouts *)

Definition is_payout (a : address) (e : Event) : bool :=
  match e with
  | DataRewardClaimed p _ => bool_decide (p = a)
  | _ => false
  end.

Section PatientRecords.

Context {T : Type} `{!ERC20 T}.
Implicit Types (s : State T) (env : Env) (c : Call).

(** Payouts logged for [a], by either path. *)
Definition payouts s (a : address) : nat :=
  length (List.filter (is_payout a) (events s)).

(** An identity that never registered has sharing off and no payout stamp. *)
Definition dormant_unregistered s : Prop :=
  forall a, registered s a = false ->
            Patient.dataSharing (patientOf s a) = Disabled /\
            Patient.lastRewardTimestamp (patientOf s a) = 0.

(** What one transaction may do to the payout stamp of [a]. *)
Definition payout_rule env s s' (a : address) : Prop :=
  let p := patientOf s a in
  let p' := patientOf s' a in
  (Patient.lastRewardTimestamp p' = Patient.lastRewardTimestamp p /\
   payouts s' a = payouts s a) \/
  (Patient.dataSharing p = Enabled /\
   Patient.lastRewardTimestamp p + 1 * days <= block_timestamp env /\
   Patient.lastRewardTimestamp p' = block_timestamp env /\
   payouts s' a = S (payouts s a)).

Lemma payout_result env c s s' o a :
  transact env c s = (s', o) ->
  dormant_unregistered s ->
  dormant_unregistered s' /\ payout_rule env s s' a.
Proof.
  unfold dormant_unregistered, payout_rule, payouts, registered. cbn zeta.
  intros Htx Hdorm. unfold_reads.
  each_result c s env.
  all: rewrite ?lookup_insert_eq in *; cbn in *.
  all: split; [try assumption; intros who_; specialize (Hdorm who_) | pose proof (Hdorm a) as Ha].
  all: map_cases; cbn.
  all: repeat match goal with
              | |- context [bool_decide (?k = ?i)] =>
                  destruct (bool_decide_reflect (k = i)); try subst; cbn; try congruence
              end.
  all: try solve [auto].
  all: try solve [left; split; reflexivity].
  all: try solve [intros Hreg; destruct (Hdorm Hreg); split; congruence].
  all: try solve [intros Hreg; destruct (Hdorm Hreg); congruence].
  all: try solve [left; split; [| reflexivity]; guard_solve; destruct Ha; congruence].
  all: try solve [right; repeat split; guard_solve].
  all: intros Hreg; destruct (Hdorm Hreg); guard_solve.
Qed.

(** The cooldown governs both payout paths together. In any state reached
    from deployment, one more transaction either leaves a patient's payout
    stamp and payout count as they are, or logs exactly one payout for that
    patient and moves the stamp to the current time, and then only with
    sharing enabled and at least a day after the previous stamp. Nothing
    else, toggling the flag included, touches the stamp. *)
Theorem payouts_respect_cooldown txs this deployer (usdc sonic : T) bal rej env c a :
  let s := run txs (initialize this deployer usdc sonic bal rej) in
  payout_rule env s (fst (transact env c s)) a.
Proof.
  cbn zeta.
  assert (Hgen : forall s0, dormant_unregistered s0 -> dormant_unregistered (run txs s0)).
  { induction txs as [| [env0 c0] txs IH]; intros s0 Hs0; cbn; [assumption |].
    apply IH. destruct (transact env0 c0 s0) as [s1 o1] eqn:Htx.
    exact (proj1 (payout_result env0 c0 s0 s1 o1 this Htx Hs0)). }
  set (s := run txs (initialize this deployer usdc sonic bal rej)).
  assert (Hs : dormant_unregistered s).
  { apply Hgen. intros b _. split; reflexivity. }
  destruct (transact env c s) as [s' o] eqn:Htx.
  exact (proj2 (payout_result env c s s' o a Htx Hs)).
Qed.

(** What a transaction may do to a registered patient's profile. *)
Definition profile_kept (p p' : Patient.t) : Prop :=
  Patient.isRegistered p' = true /\
  Patient.encryptedSymmetricKey p' = Patient.encryptedSymmetricKey p /\
  Patient.medicalHistoryHash p' = Patient.medicalHistoryHash p /\
  GamificationData.currentLevel (Patient.gamification p')
  = GamificationData.currentLevel (Patient.gamification p) /\
  GamificationData.mediPoints (Patient.gamification p)
  <= GamificationData.mediPoints (Patient.gamification p').

Lemma profile_result env c s s' o a :
  transact env c s = (s', o) ->
  registered s a = true ->
  profile_kept (patientOf s a) (patientOf s' a).
Proof.
  unfold profile_kept, registered. intros Htx Hreg. unfold_reads.
  each_result c s env.
  all: map_cases; cbn.
  all: try solve [repeat split; auto; lia].
  all: guard_solve.
Qed.

(** Once registered, a patient's key blob, medical-history hash and
    gamification level are never written again, whatever transactions
    follow: the level stays where registration put it and only the points
    grow. *)
Theorem profile_frozen txs : forall s a,
  registered s a = true ->
  profile_kept (patientOf s a) (patientOf (run txs s) a).
Proof.
  induction txs as [| [env c] txs IH]; intros s a Hreg; cbn [run].
  - unfold profile_kept. unfold registered in Hreg. repeat split; auto; lia.
  - destruct (transact env c s) as [s' o] eqn:Htx. cbn [fst].
    pose proof (profile_result env c s s' o a Htx Hreg) as (H1 & H2 & H3 & H4 & H5).
    destruct (IH s' a H1) as (I1 & I2 & I3 & I4 & I5).
    unfold profile_kept. repeat split; try congruence; lia.
Qed.

End PatientRecords.

Lemma profile_frozen_witness :
  let s := BookingExamples.staffed in
  let txs := [ (BookingExamples.overpaying,
                Call_bookAppointment Scenario.doc (Scenario.t0 + 3600) ETH false "");
               (Scenario.at_ Scenario.pat Scenario.t0, Call_requestAISymptomAnalysis "cough") ] in
  registered s Scenario.pat = true /\
  GamificationData.mediPoints (Patient.gamification (patientOf (run txs s) Scenario.pat)) = 30 /\
  profile_kept (patientOf s Scenario.pat) (patientOf (run txs s) Scenario.pat).
Proof.
  intros s txs.
  assert (Hreg : registered s Scenario.pat = true) by by_eval.
  split; [exact Hreg |]. split; [by_eval |].
  exact (profile_frozen txs s Scenario.pat Hreg).
Defined.


(** ** Who may call what *)


Section Authorization.

Context {T : Type} `{!ERC20 T}.
Implicit Types (s : State T) (env : Env) (c : Call).


End Authorization.



(** ** Custody of native currency *)

Lemma ledger_move_other (from to a : address) (v : Z) (bal : gmap address Z) :
  a <> from -> a <> to ->
  default 0 (ledger_move from to v bal !! a) = default 0 (bal !! a).
Proof.
  intros Hf Ht. unfold ledger_move.
  rewrite !lookup_insert_ne by congruence. reflexivity.
Qed.

Section Custody.

Context {T : Type} `{!ERC20 T}.
Implicit Types (s : State T) (env : Env) (c : Call).

(** What a transaction does to the contract's own native balance and to
    the sender's: the contract keeps all of the attached value, except
    that a native-currency booking keeps the fee only. *)
Lemma custody_result env c s s' :
  transact env c s = (s', Success) ->
  msg_sender env <> self s ->
  let kept :=
    match c with
    | Call_bookAppointment d _ ETH _ _ => Doctor.consultationFee (doctorOf s d)
    | _ => msg_value env
    end in
  balance s' (self s) = balance s (self s) + kept /\
  balance s' (msg_sender env) = balance s (msg_sender env) - kept /\
  (forall a, a <> self s -> a <> msg_sender env -> balance s' a = balance s a).
Proof.
  intros Htx Hne. cbn zeta. unfold_reads.
  each_result c s env.
  all: repeat first [ rewrite ledger_move_to by congruence
                    | rewrite ledger_move_from by congruence ].
  all: repeat split; try solve [guard_solve].
  all: intros a Ha1 Ha2; rewrite ?ledger_move_other by congruence; reflexivity.
Qed.

(** Nothing pays native currency out of the contract: whoever calls
    whatever, with fees that are not negative, the contract's native balance
    after a transaction is at least what it was before. The only transfer
    the contract ever makes is the refund of an overpaid booking. *)
Theorem escrow_never_released env c s :
  msg_sender env <> self s ->
  0 <= msg_value env ->
  (forall d, 0 <= Doctor.consultationFee (doctorOf s d)) ->
  balance s (self s) <= balance (fst (transact env c s)) (self s).
Proof.
  intros Hne Hval Hfee.
  destruct (transact env c s) as [s' [| f]] eqn:Htx; cbn [fst].
  - destruct (custody_result env c s s' Htx Hne) as (Hself & _).
    rewrite Hself.
    destruct c; try lia.
    destruct _paymentType; try lia. specialize (Hfee _doctor). lia.
  - apply transact_failed in Htx. subst s'. lia.
Qed.

(** A booking paid in one of the two tokens: the fee is pulled through
    [transferFrom], which must have returned true, the other token is not
    touched, and any native value attached by mistake stays with the
    contract; none of it is sent back. *)
Theorem bookAppointment_token_settlement env s s' d ts pt v link :
  pt <> ETH ->
  transact env (Call_bookAppointment d ts pt v link) s = (s', Success) ->
  let fee := Doctor.consultationFee (doctorOf s d) in
  (pt = USDC ->
   transferFrom (self s) (msg_sender env) (self s) fee (usdcToken s)
   = Some (true, usdcToken s') /\
   sonicToken s' = sonicToken s) /\
  (pt = SONIC ->
   transferFrom (self s) (msg_sender env) (self s) fee (sonicToken s)
   = Some (true, sonicToken s') /\
   usdcToken s' = usdcToken s) /\
  Appointment.fee (appointmentOf s' (appointmentCounter s')) = fee /\
  Appointment.paymentType (appointmentOf s' (appointmentCounter s')) = pt /\
  (msg_sender env <> self s ->
   balance s' (self s) = balance s (self s) + msg_value env /\
   balance s' (msg_sender env) = balance s (msg_sender env) - msg_value env).
Proof.
  intros Hpt Htx. cbn zeta.
  split; [| split; [| split; [| split]]].
  5:{ intros Hne. destruct (custody_result env _ s s' Htx Hne) as (H1 & H2 & _).
      destruct pt; [congruence | auto | auto]. }
  all: revert Htx; unfold_reads; intros Htx.
  all: destruct pt; try congruence.
  all: unfold_calls.
  all: (destruct (negb (covers s env)) eqn:Hc; [discriminate |]).
  all: unfold_monad; unfold_reads; cbn in *; repeat step.
  all: repeat match goal with
              | H : (_, _) = (_, _) |- _ => injection H as H; try subst
              end;
       cbn in *; rewrite ?lookup_insert_eq; cbn.
  all: try discriminate; try reflexivity.
  all: intros _; split; reflexivity.
Qed.

End Custody.

Module TokenBookingExamples.
Import Scenario.

(** The patient holds 5000 of the stable token and has approved the
    contract for 2000 of it. *)
Definition stable : StdToken.t :=
  StdToken.mk {[ pat := 5000 ]} {[ (pat, this) := 2000 ]}.

Definition staffed : State StdToken.t :=
  run onboarding (initialize this admin stable (StdToken.funded this 0)
                             {[ pat := 5000 ]} ∅).

(** A booking in the stable token that also attaches 300 in native
    currency. *)
Definition env : Env := mkEnv pat 300 t0.
Definition booking : Call := Call_bookAppointment doc (t0 + 3600) USDC false "".
Definition booked : State StdToken.t := fst (transact env booking staffed).

Example tokens_pulled_value_kept :
  balanceOf (usdcToken booked) pat = 4000 /\
  balanceOf (usdcToken booked) this = 1000 /\
  balance booked this = 300 /\ balance booked pat = 4700.
Proof. by_eval. Qed.

End TokenBookingExamples.

Lemma escrow_never_released_witness :
  let s := BookingExamples.staffed in
  let c := Call_bookAppointment Scenario.doc (Scenario.t0 + 3600) ETH false "" in
  balance (fst (transact BookingExamples.overpaying c s)) (self s) = 1000 /\
  balance s (self s) <= balance (fst (transact BookingExamples.overpaying c s)) (self s).
Proof.
  intros s c. split; [by_eval |].
  apply (escrow_never_released BookingExamples.overpaying c s); [by_eval | by_eval |].
  intros d. unfold doctorOf.
  assert (Hdocs : doctors s = {[ Scenario.doc := Doctor.mk true 1000 "LIC-D" ]})
    by (vm_compute; reflexivity).
  rewrite Hdocs.
  destruct (decide (d = Scenario.doc)) as [-> | Hne].
  - rewrite lookup_singleton_eq. cbn. lia.
  - rewrite lookup_singleton_ne by congruence. cbn. lia.
Defined.

Lemma bookAppointment_token_settlement_witness :
  let s := TokenBookingExamples.staffed in
  let s' := TokenBookingExamples.booked in
  transact TokenBookingExamples.env TokenBookingExamples.booking s = (s', Success) /\
  balance s' (self s) = balance s (self s) + 300.
Proof.
  intros s s'.
  assert (Htx : transact TokenBookingExamples.env TokenBookingExamples.booking s
                = (s', Success)) by by_eval.
  split; [exact Htx |].
  assert (Hpt : USDC <> ETH) by discriminate.
  pose proof (bookAppointment_token_settlement TokenBookingExamples.env s s'
                Scenario.doc (Scenario.t0 + 3600) USDC false "" Hpt Htx)
    as (_ & _ & _ & _ & Hbal).
  destruct Hbal as [Hself _]; [by_eval |].
  exact Hself.
Defined.


(** ** Doctor-side operations *)

Section DoctorOperations.

Context {T : Type} `{!ERC20 T}.
Implicit Types (s : State T) (env : Env) (c : Call).

(** [confirmAppointment] goes through exactly for the doctor named in a
    Pending appointment: it then sets the status to Confirmed, leaves every
    other field alone and announces the call link if and only if the
    appointment is a video call. A second confirmation, a confirmation by
    another doctor, and a confirmation of an identifier that no booking
    issued (whose doctor field reads as the zero address) all fail. *)
Theorem confirmAppointment_guards env s i :
  let apt := appointmentOf s i in
  let caller := msg_sender env in
  (forall s',
      transact env (Call_confirmAppointment i) s = (s', Success) ->
      hasRole s DOCTOR_ROLE caller = true /\
      Appointment.doctor apt = caller /\
      Appointment.status apt = Pending /\
      appointmentOf s' i = Appointment.with_status Confirmed apt /\
      events s' = (if Appointment.isVideoCall apt
                   then [VideoCallStarted i (Appointment.videoCallLink apt)]
                   else []) ++ events s) /\
  (hasRole s DOCTOR_ROLE caller = true ->
   msg_value env = 0 ->
   snd (transact env (Call_confirmAppointment i) s)
   = if negb (bool_decide (Appointment.doctor apt = caller))
     then Failed (Require "Not your appointment")
     else if negb (bool_decide (Appointment.status apt = Pending))
          then Failed (Require "Not pending")
          else Success) /\
  (appointments s !! i = None -> caller <> 0 ->
   exists f, transact env (Call_confirmAppointment i) s = (s, Failed f)).
Proof.
  cbn zeta. unfold_reads. split; [| split].
  - intros s' Htx.
    this_result s env.
    all: rewrite ?lookup_insert_eq; cbn.
    all: repeat split; guard_solve.
  - intros Hrole Hval.
    unfold_calls.
    destruct (negb (covers s env)) eqn:Hc; [guard_solve |].
    unfold_monad; unfold_reads; cbn in *.
    repeat step; try reflexivity; guard_solve.
  - intros Hnone Hne.
    unfold_calls.
    destruct (negb (covers s env)) eqn:Hc; [eexists; reflexivity |].
    unfold_monad; unfold_reads; cbn in *.
    repeat (step; rewrite ?Hnone in *; cbn in * ); try solve [eexists; reflexivity].
    all: guard_solve.
Qed.

(** *** Symptom analyses *)

(** What a run of transactions preserves of an issued symptom analysis. *)
Definition analysis_keeps (a a' : AISymptomAnalysis.t) : Prop :=
  AISymptomAnalysis.id a' = AISymptomAnalysis.id a /\
  AISymptomAnalysis.patient a' = AISymptomAnalysis.patient a /\
  AISymptomAnalysis.symptoms a' = AISymptomAnalysis.symptoms a /\
  (AISymptomAnalysis.doctorReviewed a = true -> a' = a).

Lemma analysis_result env c s s' o i :
  transact env c s = (s', o) ->
  1 <= i <= aiAnalysisCounter s ->
  analysis_keeps (getAIAnalysisDetails s i) (getAIAnalysisDetails s' i).
Proof.
  unfold analysis_keeps. intros Htx Hi. unfold_reads.
  each_result c s env.
  all: map_cases; cbn.
  all: try solve [repeat split; auto].
  all: try lia.
  all: repeat split; auto; guard_solve.
Qed.

(** A submitted symptom analysis keeps its patient and its symptoms text
    over any run of transactions, and the first doctor's review is final:
    once [doctorReviewed] is set, no transaction changes the record. *)
Theorem analysis_review_final txs : forall s i,
  1 <= i <= aiAnalysisCounter s ->
  analysis_keeps (getAIAnalysisDetails s i) (getAIAnalysisDetails (run txs s) i).
Proof.
  induction txs as [| [env c] txs IH]; intros s i Hi; cbn [run].
  - unfold analysis_keeps. repeat split; auto.
  - destruct (transact env c s) as [s' o] eqn:Htx. cbn [fst].
    destruct (analysis_result env c s s' o i Htx Hi) as (H1 & H2 & H3 & H4).
    destruct (IH s' i) as (I1 & I2 & I3 & I4).
    { destruct (guards_result env c s s' o Htx) as (_ & _ & _ & _ & _ & _ & Ha).
      unfold steps_by_one in Ha. lia. }
    unfold analysis_keeps. repeat split; try congruence.
    intros Hrev. rewrite (H4 Hrev) in *. exact (I4 Hrev).
Qed.

(** Any holder of the doctor role may review any analysis, whoever the
    patient is; nothing ties an analysis to a doctor. The review stores
    the given content hash and sets the flag; reviewing again fails. *)
Theorem reviewAISymptomAnalysis_guards env s i h :
  hasRole s DOCTOR_ROLE (msg_sender env) = true ->
  msg_value env = 0 ->
  if AISymptomAnalysis.doctorReviewed (getAIAnalysisDetails s i)
  then transact env (Call_reviewAISymptomAnalysis i h) s
       = (s, Failed (Require "Already reviewed"))
  else exists s',
      transact env (Call_reviewAISymptomAnalysis i h) s = (s', Success) /\
      getAIAnalysisDetails s' i =
        AISymptomAnalysis.with_doctorReviewed true
          (AISymptomAnalysis.with_analysisIpfsHash h (getAIAnalysisDetails s i)) /\
      transact env (Call_reviewAISymptomAnalysis i h) s'
      = (s', Failed (Require "Already reviewed")).
Proof.
  intros Hrole Hval.
  destruct (AISymptomAnalysis.doctorReviewed (getAIAnalysisDetails s i)) eqn:Hrev.
  - unfold_calls.
    destruct (negb (covers s env)) eqn:Hc; [guard_solve |].
    unfold_monad; unfold_reads; cbn in *.
    repeat step; guard_solve.
  - unfold_calls.
    destruct (negb (covers s env)) eqn:Hc; [guard_solve |].
    unfold_monad; unfold_reads; cbn in *.
    repeat step; try solve [guard_solve].
    eexists; split; [reflexivity |]. cbn.
    rewrite lookup_insert_eq. cbn. split; [reflexivity |].
    rewrite Heqb0. cbn. rewrite lookup_insert_eq. cbn. reflexivity.
Qed.

End DoctorOperations.

Module AnalysisExamples.
Import Scenario.

Definition submitted : State StdToken.t :=
  run (onboarding ++ [(at_ pat t0, Call_requestAISymptomAnalysis "cough")]) (genesis 0).

Definition reviewed : list (Env * Call) :=
  [ (at_ doc t0, Call_reviewAISymptomAnalysis 1 "Qm-first");
    (at_ doc (t0 + 60), Call_reviewAISymptomAnalysis 1 "Qm-second");
    (at_ pat (t0 + 90), Call_requestAISymptomAnalysis "fever") ].

End AnalysisExamples.

Lemma analysis_review_final_witness :
  let s := AnalysisExamples.submitted in
  1 <= 1 <= aiAnalysisCounter s /\
  AISymptomAnalysis.analysisIpfsHash
    (getAIAnalysisDetails (run AnalysisExamples.reviewed s) 1) = "Qm-first" /\
  analysis_keeps (getAIAnalysisDetails s 1)
                 (getAIAnalysisDetails (run AnalysisExamples.reviewed s) 1).
Proof.
  intros s.
  assert (Hi : 1 <= 1 <= aiAnalysisCounter s) by by_eval.
  split; [exact Hi |]. split; [by_eval |].
  exact (analysis_review_final AnalysisExamples.reviewed s 1 Hi).
Defined.

Lemma reviewAISymptomAnalysis_guards_witness :
  let s := AnalysisExamples.submitted in
  let env := Scenario.at_ Scenario.doc Scenario.t0 in
  exists s',
    transact env (Call_reviewAISymptomAnalysis 1 "Qm-first") s = (s', Success) /\
    transact env (Call_reviewAISymptomAnalysis 1 "Qm-first") s'
    = (s', Failed (Require "Already reviewed")).
Proof.
  intros s env.
  assert (Hrole : hasRole s DOCTOR_ROLE (msg_sender env) = true) by by_eval.
  pose proof (reviewAISymptomAnalysis_guards env s 1 "Qm-first" Hrole eq_refl) as Hg.
  assert (Hfresh : AISymptomAnalysis.doctorReviewed (getAIAnalysisDetails s 1) = false)
    by by_eval.
  rewrite Hfresh in Hg.
  destruct Hg as (s' & Htx & _ & Hagain).
  exists s'. split; assumption.
Defined.

Lemma confirmAppointment_guards_witness :
  let s := BookingExamples.booked in
  snd (transact (Scenario.at_ Scenario.doc Scenario.t0) (Call_confirmAppointment 1) s)
  = Success /\
  (exists f, transact (Scenario.at_ Scenario.doc Scenario.t0)
                      (Call_confirmAppointment 9) s = (s, Failed f)).
Proof.
  intros s. split.
  - pose proof (confirmAppointment_guards (Scenario.at_ Scenario.doc Scenario.t0) s 1)
      as (_ & Hdec & _).
    rewrite Hdec; by_eval.
  - pose proof (confirmAppointment_guards (Scenario.at_ Scenario.doc Scenario.t0) s 9)
      as (_ & _ & Hnone).
    apply Hnone; by_eval.
Defined.


(** ** Registries *)

Section Registries.

Context {T : Type} `{!ERC20 T}.
Implicit Types (s : State T) (env : Env) (c : Call).

Definition labTechnicianOf s (a : address) : LabTechnician.t :=
  default LabTechnician.default (labTechnicians s !! a).
Definition pharmacyOf s (a : address) : Pharmacy.t :=
  default Pharmacy.default (pharmacies s !! a).

(** The participants on record in a state. *)
Definition on_record s (a : address) : bool * bool * bool * bool :=
  (Patient.isRegistered (patientOf s a), Doctor.isVerified (doctorOf s a),
   LabTechnician.isVerified (labTechnicianOf s a), Pharmacy.isRegistered (pharmacyOf s a)).

Definition flag_kept (before after : bool) : Prop := before = true -> after = true.

Lemma registry_result env c s s' o a :
  transact env c s = (s', o) ->
  flag_kept (Patient.isRegistered (patientOf s a)) (Patient.isRegistered (patientOf s' a)) /\
  flag_kept (Doctor.isVerified (doctorOf s a)) (Doctor.isVerified (doctorOf s' a)) /\
  flag_kept (LabTechnician.isVerified (labTechnicianOf s a))
            (LabTechnician.isVerified (labTechnicianOf s' a)) /\
  flag_kept (Pharmacy.isRegistered (pharmacyOf s a)) (Pharmacy.isRegistered (pharmacyOf s' a)).
Proof.
  unfold flag_kept, labTechnicianOf, pharmacyOf. intros Htx. unfold_reads.
  each_result c s env.
  all: repeat split; try solve [auto].
  all: map_cases; cbn; auto.
Qed.

(** Nothing removes a participant: a registered patient, a verified doctor
    or lab technician and a registered pharmacy keep their flag over any
    run of transactions. There is no entry point that unregisters or
    unverifies anyone. *)
Theorem registry_only_grows txs : forall s a,
  let s' := run txs s in
  flag_kept (Patient.isRegistered (patientOf s a)) (Patient.isRegistered (patientOf s' a)) /\
  flag_kept (Doctor.isVerified (doctorOf s a)) (Doctor.isVerified (doctorOf s' a)) /\
  flag_kept (LabTechnician.isVerified (labTechnicianOf s a))
            (LabTechnician.isVerified (labTechnicianOf s' a)) /\
  flag_kept (Pharmacy.isRegistered (pharmacyOf s a)) (Pharmacy.isRegistered (pharmacyOf s' a)).
Proof.
  cbn zeta.
  induction txs as [| [env c] txs IH]; intros s a; cbn [run].
  - unfold flag_kept. repeat split; auto.
  - destruct (transact env c s) as [s' o] eqn:Htx. cbn [fst].
    destruct (registry_result env c s s' o a Htx) as (H1 & H2 & H3 & H4).
    destruct (IH s' a) as (I1 & I2 & I3 & I4).
    unfold flag_kept in *. repeat split; auto.
Qed.

(** The admin's [verifyDoctor] overwrites: called for a doctor already on
    record it succeeds again, replaces fee and licence, and leaves the
    other doctors alone; the role is held afterwards, and when it was held
    before no role is granted anew. *)
Theorem verifyDoctor_overwrites env s d lic fee :
  hasRole s ADMIN_ROLE (msg_sender env) = true ->
  msg_value env = 0 ->
  exists s',
    transact env (Call_verifyDoctor d lic fee) s = (s', Success) /\
    doctorOf s' d = Doctor.mk true fee lic /\
    (forall other, other <> d -> doctorOf s' other = doctorOf s other) /\
    hasRole s' DOCTOR_ROLE d = true /\
    (hasRole s DOCTOR_ROLE d = true ->
     _roles s' = _roles s /\ events s' = DoctorVerified d :: events s).
Proof.
  intros Hrole Hval. unfold_calls.
  destruct (negb (covers s env)) eqn:Hc; [guard_solve |].
  unfold_monad; unfold_reads; cbn in *.
  repeat step; try solve [guard_solve].
  all: eexists; split; [reflexivity |]; cbn.
  all: rewrite lookup_insert_eq; cbn.
  all: split; [reflexivity |].
  all: split; [intros other Hne; rewrite lookup_insert_ne by congruence; reflexivity |].
  all: split; [first [assumption | apply bool_decide_eq_true_2; set_solver] |].
  all: first [intros _; split; reflexivity | intros; congruence].
Qed.

(** *** Appointments *)

(** What a run of transactions preserves of an issued appointment. *)
Definition appointment_keeps (a a' : Appointment.t) : Prop :=
  Appointment.id a' = Appointment.id a /\
  Appointment.patient a' = Appointment.patient a /\
  Appointment.doctor a' = Appointment.doctor a /\
  Appointment.scheduledTimestamp a' = Appointment.scheduledTimestamp a /\
  Appointment.fee a' = Appointment.fee a /\
  Appointment.paymentType a' = Appointment.paymentType a /\
  Appointment.videoCallLink a' = Appointment.videoCallLink a /\
  Appointment.isVideoCall a' = Appointment.isVideoCall a /\
  (Appointment.status a = Confirmed -> Appointment.status a' = Confirmed).

Lemma appointment_result env c s s' o i :
  transact env c s = (s', o) ->
  1 <= i <= appointmentCounter s ->
  appointment_keeps (appointmentOf s i) (appointmentOf s' i).
Proof.
  unfold appointment_keeps. intros Htx Hi. unfold_reads.
  each_result c s env.
  all: map_cases; cbn.
  all: try solve [repeat split; auto].
  all: lia.
Qed.

(** A booked appointment keeps its patient, doctor, time, fee, payment
    asset and call link over any run of transactions; in particular the
    fee is the one charged at booking, whatever fee the doctor is given
    later. A confirmed appointment stays confirmed. *)
Theorem appointment_immutable txs : forall s i,
  1 <= i <= appointmentCounter s ->
  appointment_keeps (appointmentOf s i) (appointmentOf (run txs s) i).
Proof.
  induction txs as [| [env c] txs IH]; intros s i Hi; cbn [run].
  - unfold appointment_keeps. repeat split; auto.
  - destruct (transact env c s) as [s' o] eqn:Htx. cbn [fst].
    pose proof (appointment_result env c s s' o i Htx Hi) as Hstep.
    destruct (IH s' i) as (I1 & I2 & I3 & I4 & I5 & I6 & I7 & I8 & I9).
    { destruct (guards_result env c s s' o Htx) as (_ & _ & _ & Ha & _).
      unfold steps_by_one in Ha. lia. }
    destruct Hstep as (H1 & H2 & H3 & H4 & H5 & H6 & H7 & H8 & H9).
    unfold appointment_keeps. repeat split; try congruence. auto.
Qed.

End Registries.

Lemma verifyDoctor_overwrites_witness :
  let s := BookingExamples.booked in
  let env := Scenario.at_ Scenario.admin (Scenario.t0 + 60) in
  exists s',
    transact env (Call_verifyDoctor Scenario.doc "LIC-D2" 2500) s = (s', Success) /\
    doctorOf s' Scenario.doc = Doctor.mk true 2500 "LIC-D2" /\
    _roles s' = _roles s.
Proof.
  intros s env.
  assert (Hadmin : hasRole s ADMIN_ROLE (msg_sender env) = true) by by_eval.
  assert (Hdoc : hasRole s DOCTOR_ROLE Scenario.doc = true) by by_eval.
  destruct (verifyDoctor_overwrites env s Scenario.doc "LIC-D2" 2500 Hadmin eq_refl)
    as (s' & Htx & Hrec & _ & _ & Hsame).
  exists s'. split; [exact Htx |]. split; [exact Hrec |].
  exact (proj1 (Hsame Hdoc)).
Defined.

Lemma appointment_immutable_witness :
  let s := BookingExamples.booked in
  let txs := [ (Scenario.at_ Scenario.admin (Scenario.t0 + 60),
                Call_verifyDoctor Scenario.doc "LIC-D2" 2500);
               (Scenario.at_ Scenario.doc (Scenario.t0 + 90), Call_confirmAppointment 1) ] in
  1 <= 1 <= appointmentCounter s /\
  Doctor.consultationFee (doctorOf (run txs s) Scenario.doc) = 2500 /\
  Appointment.fee (appointmentOf s 1) = 1000 /\
  appointment_keeps (appointmentOf s 1) (appointmentOf (run txs s) 1).
Proof.
  intros s txs.
  assert (Hi : 1 <= 1 <= appointmentCounter s) by by_eval.
  split; [exact Hi |]. split; [by_eval |]. split; [by_eval |].
  exact (appointment_immutable txs s 1 Hi).
Defined.


(** ** Issuing a prescription *)

Lemma cast_small w x : 0 <= x < UInt.modulus w -> UInt.cast w x = x.
Proof. intros Hx. unfold UInt.cast. apply Z.mod_small. exact Hx. Qed.

Section Issuance.

Context {T : Type} `{!ERC20 T}.
Implicit Types (s : State T) (env : Env) (c : Call).

(** The verification code of the prescription that [reviewLabResults]
    issues under number [id]: a hash of the number, the doctor and the
    block time, all three of them public. *)
Definition issued_code (id : Z) env : bytes32 :=
  Keccak.keccak256
    (abi_encodePacked_uint256_address_uint256 id (msg_sender env) (block_timestamp env)).

Lemma review_result env s i m h s' :
  transact env (Call_reviewLabResults i m h) s = (s', Success) ->
  let id := prescriptionCounter s + 1 in
  let order := getLabTestDetails s i in
  hasRole s DOCTOR_ROLE (msg_sender env) = true /\
  LabTestOrder.doctor order = msg_sender env /\
  LabTestOrder.status order = ResultsUploaded /\
  prescriptionCounter s' = id /\
  getPrescriptionDetails s' id =
    Prescription.mk id (LabTestOrder.patient order) (msg_sender env) (issued_code id env)
                    m h Generated 0
                    (UInt.cast 48 (block_timestamp env))
                    (UInt.cast 48 (block_timestamp env + 30 * days)) /\
  getLabTestDetails s' i =
    LabTestOrder.with_completedTimestamp (UInt.cast 48 (block_timestamp env))
      (LabTestOrder.with_status Reviewed order).
Proof.
  cbn zeta. unfold issued_code. intros Htx. unfold_reads.
  this_result s env.
  all: rewrite ?lookup_insert_eq; cbn.
  all: repeat split; try reflexivity; guard_solve.
Qed.

Lemma verify_accepts env s id code :
  hasRole s PHARMACY_ROLE (msg_sender env) = true ->
  msg_value env = 0 ->
  Prescription.status (getPrescriptionDetails s id) = Generated ->
  Prescription.verificationCodeHash (getPrescriptionDetails s id) = code ->
  exists s', transact env (Call_verifyPrescription id code) s = (s', Success) /\
    getPrescriptionDetails s' id =
      Prescription.with_pharmacy (msg_sender env)
        (Prescription.with_status Verified (getPrescriptionDetails s id)).
Proof.
  intros Hrole Hval Hst Hcode. unfold_reads. unfold_calls.
  destruct (negb (covers s env)) eqn:Hc; [guard_solve |].
  unfold_monad; unfold_reads; cbn in *.
  repeat step; try solve [guard_solve].
  eexists; split; [reflexivity |]. cbn. rewrite lookup_insert_eq. reflexivity.
Qed.

(** A successful [reviewLabResults] needs the caller to be the ordering
    doctor of an order whose results are uploaded; it marks the order
    Reviewed and issues the next prescription number to the order's
    patient, in status Generated with no pharmacy. For a block time below
    2^48 - 30 days the stored times are the block time and the block time
    plus thirty days. *)
Theorem reviewLabResults_issues env s i m h s' :
  transact env (Call_reviewLabResults i m h) s = (s', Success) ->
  let id := prescriptionCounter s + 1 in
  let order := getLabTestDetails s i in
  let p := getPrescriptionDetails s' id in
  hasRole s DOCTOR_ROLE (msg_sender env) = true /\
  LabTestOrder.doctor order = msg_sender env /\
  LabTestOrder.status order = ResultsUploaded /\
  LabTestOrder.status (getLabTestDetails s' i) = Reviewed /\
  prescriptionCounter s' = id /\
  Prescription.id p = id /\
  Prescription.patient p = LabTestOrder.patient order /\
  Prescription.doctor p = msg_sender env /\
  Prescription.status p = Generated /\
  Prescription.pharmacy p = 0 /\
  (0 <= block_timestamp env -> block_timestamp env + 30 * days < 2 ^ 48 ->
   Prescription.generatedTimestamp p = block_timestamp env /\
   Prescription.expirationTimestamp p = block_timestamp env + 30 * days).
Proof.
  intros Htx. cbn zeta.
  destruct (review_result env s i m h s' Htx) as (Hrole & Hdoc & Hst & Hctr & Hp & Ho).
  rewrite Hp, Ho. cbn.
  repeat split; try assumption; try reflexivity.
  all: apply cast_small; unfold UInt.modulus, days in *; lia.
Qed.

(** The verification code is no secret of doctor and patient: it is the
    hash of the prescription number, the doctor's address and the block
    time of the review, so after a successful [reviewLabResults] any
    holder of the Pharmacy role who recomputes it gets the prescription
    verified in their own name. *)
Theorem prescription_code_public env s i m h s' env2 :
  transact env (Call_reviewLabResults i m h) s = (s', Success) ->
  hasRole s' PHARMACY_ROLE (msg_sender env2) = true ->
  msg_value env2 = 0 ->
  let id := prescriptionCounter s + 1 in
  exists s'',
    transact env2 (Call_verifyPrescription id (issued_code id env)) s' = (s'', Success) /\
    Prescription.status (getPrescriptionDetails s'' id) = Verified /\
    Prescription.pharmacy (getPrescriptionDetails s'' id) = msg_sender env2.
Proof.
  intros Htx Hrole Hval. cbn zeta.
  destruct (review_result env s i m h s' Htx) as (_ & _ & _ & _ & Hp & _).
  destruct (verify_accepts env2 s' (prescriptionCounter s + 1)
              (issued_code (prescriptionCounter s + 1) env) Hrole Hval) as (s'' & Hv & Hq).
  - rewrite Hp. reflexivity.
  - rewrite Hp. reflexivity.
  - exists s''. split; [exact Hv |]. rewrite Hq. cbn. split; reflexivity.
Qed.

End Issuance.

Module IssuanceExamples.
Import Scenario.

(** The lab cycle up to the uploaded results, and the review that follows. *)
Definition uploaded : State StdToken.t :=
  run (onboarding ++ firstn 3 lab_cycle) (genesis 0).

Definition review_env : Env := at_ doc (t0 + 120).

Definition issued : State StdToken.t :=
  fst (transact review_env (Call_reviewLabResults 1 "amoxicillin" "Qm-rx") uploaded).

Example review_succeeds :
  transact review_env (Call_reviewLabResults 1 "amoxicillin" "Qm-rx") uploaded
  = (issued, Success).
Proof. by_eval. Qed.

End IssuanceExamples.

Lemma reviewLabResults_issues_witness :
  let p := getPrescriptionDetails IssuanceExamples.issued 1 in
  Prescription.patient p = Scenario.pat /\
  Prescription.doctor p = Scenario.doc /\
  Prescription.status p = Generated /\
  Prescription.generatedTimestamp p = Scenario.t0 + 120 /\
  Prescription.expirationTimestamp p = Scenario.t0 + 120 + 30 * days.
Proof.
  cbn zeta.
  destruct (reviewLabResults_issues IssuanceExamples.review_env IssuanceExamples.uploaded
              1 "amoxicillin" "Qm-rx" IssuanceExamples.issued
              IssuanceExamples.review_succeeds)
    as (_ & _ & _ & _ & _ & _ & Hpat & Hdoc & Hst & _ & Htimes).
  assert (Hid : prescriptionCounter IssuanceExamples.uploaded + 1 = 1) by by_eval.
  rewrite Hid in *.
  destruct Htimes as [Hgen Hexp]; [vm_compute; discriminate | vm_compute; reflexivity |].
  split; [rewrite Hpat; by_eval |].
  split; [exact Hdoc |]. split; [exact Hst |]. split; [exact Hgen | exact Hexp].
Defined.

Lemma prescription_code_public_witness :
  exists s'',
    transact (Scenario.at_ Scenario.pharm (Scenario.t0 + 500))
             (Call_verifyPrescription 1
                (issued_code 1 IssuanceExamples.review_env)) IssuanceExamples.issued
    = (s'', Success) /\
    Prescription.pharmacy (getPrescriptionDetails s'' 1) = Scenario.pharm.
Proof.
  assert (Hrole : hasRole IssuanceExamples.issued PHARMACY_ROLE
                    (msg_sender (Scenario.at_ Scenario.pharm (Scenario.t0 + 500))) = true)
    by by_eval.
  destruct (prescription_code_public IssuanceExamples.review_env IssuanceExamples.uploaded
              1 "amoxicillin" "Qm-rx" IssuanceExamples.issued
              (Scenario.at_ Scenario.pharm (Scenario.t0 + 500))
              IssuanceExamples.review_succeeds Hrole eq_refl)
    as (s'' & Hv & _ & Hph).
  assert (Hid : prescriptionCounter IssuanceExamples.uploaded + 1 = 1) by by_eval.
  rewrite Hid in *.
  exists s''. split; [exact Hv | exact Hph].
Defined.


(** ** The appointment listing *)

(** Memory arrays: reading or writing past the end is panic 0x32. *)
Definition array_get {A} (l : list A) (i : Z) : Result A :=
  match l !! Z.to_nat i with
  | Some x => Ok x
  | None => Revert (Panic 0x32)
  end.

Definition array_set {A} (l : list A) (i : Z) (x : A) : Result (list A) :=
  if Z.of_nat (length l) <=? i then Revert (Panic 0x32) else Ok (<[Z.to_nat i := x]> l).

Section Listing.

Context {T : Type} `{!ERC20 T}.
Implicit Types (s : State T) (env : Env) (c : Call).

(** The first loop of [getPatientAppointments], from [i] on: the patient's
    appointments are stored at the front of [result]. [None] is a loop
    that has not finished within the fuel. *)
Fixpoint getPatientAppointments_fill s (_patient : address) (fuel : nat) (i : Z)
         (result : list Appointment.t) (count : Z)
  : option (Result (list Appointment.t * Z)) :=
  match fuel with
  | O => None
  | S fuel =>
      if i <=? appointmentCounter s then
        if bool_decide (Appointment.patient (appointmentOf s i) = _patient) then
          match array_set result count (appointmentOf s i) with
          | Revert f => Some (Revert f)
          | Ok result' =>
              if count + 1 <=? UInt.max 256 then
                if i + 1 <=? UInt.max 256
                then getPatientAppointments_fill s _patient fuel (i + 1) result' (count + 1)
                else Some (Revert (Panic 0x11))
              else Some (Revert (Panic 0x11))
          end
        else
          if i + 1 <=? UInt.max 256
          then getPatientAppointments_fill s _patient fuel (i + 1) result count
          else Some (Revert (Panic 0x11))
      else Some (Ok (result, count))
  end.

(** The second loop, from [i] on: the first [count] entries are copied. *)
Fixpoint getPatientAppointments_trim (fuel : nat) (i count : Z)
         (result trimmed : list Appointment.t) : option (Result (list Appointment.t)) :=
  match fuel with
  | O => None
  | S fuel =>
      if i <? count then
        match array_get result i with
        | Revert f => Some (Revert f)
        | Ok x =>
            match array_set trimmed i x with
            | Revert f => Some (Revert f)
            | Ok trimmed' =>
                if i + 1 <=? UInt.max 256
                then getPatientAppointments_trim fuel (i + 1) count result trimmed'
                else Some (Revert (Panic 0x11))
            end
        end
      else Some (Ok trimmed)
  end.

Definition getPatientAppointments (fuel : nat) s (_patient : address)
  : option (Result (list Appointment.t)) :=
  let result := replicate (Z.to_nat (appointmentCounter s)) Appointment.default in
  match getPatientAppointments_fill s _patient fuel 1 result 0 with
  | None => None
  | Some (Revert f) => Some (Revert f)
  | Some (Ok (result, count)) =>
      let trimmed := replicate (Z.to_nat count) Appointment.default in
      getPatientAppointments_trim fuel 0 count result trimmed
  end.

(** The appointments of [_patient] among the [n] numbers from [i] on, in
    the order of their numbers. *)
Definition appointments_of s (_patient : address) (i n : Z) : list Appointment.t :=
  filter (fun a => Appointment.patient a = _patient) (appointmentOf s <$> seqZ i n).

Lemma appointments_of_length s p i n :
  0 <= n -> Z.of_nat (length (appointments_of s p i n)) <= n.
Proof.
  intros Hn. unfold appointments_of.
  pose proof (length_filter (fun a => Appointment.patient a = p)
                (appointmentOf s <$> seqZ i n)) as Hle.
  rewrite length_fmap, length_seqZ in Hle. lia.
Qed.

Lemma array_set_next {A} (found rest : list A) (d x : A) :
  array_set (found ++ d :: rest) (Z.of_nat (length found)) x = Ok ((found ++ [x]) ++ rest).
Proof.
  unfold array_set.
  rewrite length_app. cbn [length].
  destruct (Z.leb_spec (Z.of_nat (length found + S (length rest))) (Z.of_nat (length found)));
    [lia |].
  rewrite Nat2Z.id.
  rewrite insert_app_r_alt by lia. rewrite Nat.sub_diag. cbn.
  rewrite <- app_assoc. reflexivity.
Qed.

Lemma fill_spec s p (k : nat) : forall fuel i found rest,
  (k < fuel)%nat ->
  i + Z.of_nat k = appointmentCounter s + 1 ->
  appointmentCounter s < UInt.max 256 ->
  (k <= length rest)%nat ->
  Z.of_nat (length found) < i ->
  exists rest',
    getPatientAppointments_fill s p fuel i (found ++ rest) (Z.of_nat (length found))
    = Some (Ok ((found ++ appointments_of s p i (Z.of_nat k)) ++ rest',
                Z.of_nat (length (found ++ appointments_of s p i (Z.of_nat k))))).
Proof.
  induction k as [| k IH]; intros fuel i found rest Hfuel Hi Hmax Hrest Hcount.
  - destruct fuel as [| fuel]; [lia |]. cbn [getPatientAppointments_fill].
    destruct (Z.leb_spec i (appointmentCounter s)); [lia |].
    exists rest. unfold appointments_of. cbn. rewrite app_nil_r. reflexivity.
  - destruct fuel as [| fuel]; [lia |]. cbn [getPatientAppointments_fill].
    destruct (Z.leb_spec i (appointmentCounter s)); [| lia].
    unfold appointments_of.
    rewrite seqZ_cons by lia. rewrite fmap_cons.
    replace (Z.pred (Z.of_nat (S k))) with (Z.of_nat k) by lia.
    replace (Z.succ i) with (i + 1) by lia.
    destruct (Z.leb_spec (i + 1) (UInt.max 256)); [| lia].
    destruct (bool_decide_reflect (Appointment.patient (appointmentOf s i) = p)) as [Hp | Hp].
    + destruct rest as [| d rest]; [cbn in Hrest; lia |].
      rewrite array_set_next.
      destruct (Z.leb_spec (Z.of_nat (length found) + 1) (UInt.max 256)); [| lia].
      rewrite filter_cons_True by exact Hp.
      replace (Z.of_nat (length found) + 1)
        with (Z.of_nat (length (found ++ [appointmentOf s i])))
        by (rewrite length_app; cbn; lia).
      destruct (IH fuel (i + 1) (found ++ [appointmentOf s i]) rest) as [rest' Hrun];
        try lia.
      { cbn in Hrest. lia. }
      { rewrite length_app. cbn. lia. }
      exists rest'. rewrite Hrun. unfold appointments_of.
      rewrite <- !app_assoc. reflexivity.
    + rewrite filter_cons_False by exact Hp.
      destruct (IH fuel (i + 1) found rest) as [rest' Hrun]; try lia.
      exists rest'. exact Hrun.
Qed.

Lemma trim_spec (todo : list Appointment.t) : forall fuel done pad rest,
  (length todo < fuel)%nat ->
  length pad = length todo ->
  Z.of_nat (length (done ++ todo)) <= UInt.max 256 ->
  getPatientAppointments_trim fuel (Z.of_nat (length done))
    (Z.of_nat (length (done ++ todo))) ((done ++ todo) ++ rest) (done ++ pad)
  = Some (Ok (done ++ todo)).
Proof.
  induction todo as [| x todo IH]; intros fuel done pad rest Hfuel Hpad Hmax.
  - destruct fuel as [| fuel]; [cbn in Hfuel; lia |]. cbn [getPatientAppointments_trim].
    rewrite app_nil_r.
    destruct (Z.ltb_spec (Z.of_nat (length done)) (Z.of_nat (length done))); [lia |].
    destruct pad; [| discriminate]. rewrite app_nil_r. reflexivity.
  - destruct fuel as [| fuel]; [cbn in Hfuel; lia |]. cbn [getPatientAppointments_trim].
    rewrite length_app in Hmax. cbn [length] in Hmax, Hfuel, Hpad.
    destruct (Z.ltb_spec (Z.of_nat (length done))
                          (Z.of_nat (length (done ++ x :: todo)))) as [_ | Hge];
      [| rewrite length_app in Hge; cbn in Hge; lia].
    assert (Hget : ((done ++ x :: todo) ++ rest) !! length done = Some x).
    { rewrite <- app_assoc, <- app_comm_cons. apply list_lookup_middle. reflexivity. }
    unfold array_get. rewrite Nat2Z.id, Hget.
    destruct pad as [| d pad]; [discriminate |].
    rewrite array_set_next.
    destruct (Z.leb_spec (Z.of_nat (length done) + 1) (UInt.max 256)); [| lia].
    replace (Z.of_nat (length done) + 1) with (Z.of_nat (length (done ++ [x])))
      by (rewrite length_app; cbn; lia).
    replace (done ++ x :: todo) with ((done ++ [x]) ++ todo)
      by (rewrite <- app_assoc; reflexivity).
    apply IH.
    + lia.
    + cbn in Hpad. lia.
    + rewrite !length_app. cbn. lia.
Qed.

Lemma listing_result s p fuel :
  0 <= appointmentCounter s < UInt.max 256 ->
  (Z.to_nat (appointmentCounter s) < fuel)%nat ->
  getPatientAppointments fuel s p
  = Some (Ok (appointments_of s p 1 (appointmentCounter s))).
Proof.
  intros Hn Hfuel. unfold getPatientAppointments.
  destruct (fill_spec s p (Z.to_nat (appointmentCounter s)) fuel 1 []
              (replicate (Z.to_nat (appointmentCounter s)) Appointment.default))
    as [rest' Hrun]; try lia.
  { rewrite length_replicate. lia. }
  { cbn. lia. }
  cbn [app length] in Hrun. rewrite Z2Nat.id in Hrun by lia.
  change (Z.of_nat 0) with 0 in Hrun. rewrite Hrun.
  pose proof (appointments_of_length s p 1 (appointmentCounter s) (proj1 Hn)) as Hlen.
  rewrite Nat2Z.id.
  exact (trim_spec (appointments_of s p 1 (appointmentCounter s)) fuel []
           (replicate (length (appointments_of s p 1 (appointmentCounter s)))
                      Appointment.default) rest'
           ltac:(lia) ltac:(apply length_replicate) ltac:(cbn [app]; lia)).
Qed.

(** The two loops of [getPatientAppointments] finish and return exactly
    the appointments numbered 1 to [appointmentCounter] whose patient is
    the one asked for, in the order of their numbers: any fuel above the
    counter is enough, the scratch array is never overrun and no counter
    overflows. *)
Theorem getPatientAppointments_lists s p fuel :
  0 <= appointmentCounter s < UInt.max 256 ->
  (Z.to_nat (appointmentCounter s) < fuel)%nat ->
  exists l,
    getPatientAppointments fuel s p = Some (Ok l) /\
    l = appointments_of s p 1 (appointmentCounter s) /\
    Z.of_nat (length l) <= appointmentCounter s /\
    forall a, a ∈ l ->
      Appointment.patient a = p /\
      exists i, 1 <= i <= appointmentCounter s /\ a = appointmentOf s i.
Proof.
  intros Hn Hfuel. exists (appointments_of s p 1 (appointmentCounter s)).
  split; [apply listing_result; assumption |].
  split; [reflexivity |].
  split; [apply appointments_of_length; lia |].
  intros a Ha. unfold appointments_of in Ha.
  apply list_elem_of_filter in Ha as [Hp Hin].
  split; [exact Hp |].
  apply list_elem_of_fmap in Hin as (i & -> & Hi).
  apply elem_of_seqZ in Hi.
  exists i. split; [lia | reflexivity].
Qed.

Lemma booking_result env s d ts pt video link s' :
  transact env (Call_bookAppointment d ts pt video link) s = (s', Success) ->
  appointmentCounter s' = appointmentCounter s + 1 /\
  appointmentCounter s + 1 <= UInt.max 256 /\
  Appointment.patient (appointmentOf s' (appointmentCounter s + 1)) = msg_sender env /\
  Appointment.doctor (appointmentOf s' (appointmentCounter s + 1)) = d /\
  Appointment.status (appointmentOf s' (appointmentCounter s + 1)) = Pending /\
  forall i, i <> appointmentCounter s + 1 -> appointmentOf s' i = appointmentOf s i.
Proof.
  intros Htx. unfold_reads.
  this_result s env.
  all: rewrite ?lookup_insert_eq; cbn.
  all: repeat split; try reflexivity; try solve [guard_solve].
  all: intros j Hj; rewrite lookup_insert_ne by congruence; reflexivity.
Qed.

Lemma appointments_of_ext s s' p i n :
  (forall j, i <= j < i + n -> appointmentOf s' j = appointmentOf s j) ->
  appointments_of s' p i n = appointments_of s p i n.
Proof.
  intros Hsame. unfold appointments_of. f_equal.
  apply list_eq. intros k. rewrite !list_lookup_fmap.
  destruct (seqZ i n !! k) as [j |] eqn:Hk; [| reflexivity]. cbn.
  apply lookup_seqZ in Hk. rewrite Hsame by lia. reflexivity.
Qed.

(** A booking shows up in the listing: after a successful
    [bookAppointment] the caller's list is the one before with the new
    appointment added at the end, and the list of every other address is
    as before. *)
Theorem booking_listed env s d ts pt video link s' fuel who :
  transact env (Call_bookAppointment d ts pt video link) s = (s', Success) ->
  0 <= appointmentCounter s ->
  appointmentCounter s + 1 < UInt.max 256 ->
  (Z.to_nat (appointmentCounter s) + 1 < fuel)%nat ->
  exists before,
    getPatientAppointments fuel s who = Some (Ok before) /\
    getPatientAppointments fuel s' who
    = Some (Ok (if bool_decide (who = msg_sender env)
                then before ++ [appointmentOf s' (appointmentCounter s')]
                else before)).
Proof.
  intros Htx Hn Hmax Hfuel.
  destruct (booking_result env s d ts pt video link s' Htx)
    as (Hctr & _ & Hpat & _ & _ & Hsame).
  exists (appointments_of s who 1 (appointmentCounter s)).
  split; [apply listing_result; lia |].
  rewrite listing_result by (rewrite Hctr; lia).
  do 2 f_equal. rewrite Hctr.
  unfold appointments_of at 1.
  replace (appointmentCounter s + 1) with (Z.of_nat (S (Z.to_nat (appointmentCounter s))))
    at 1 by lia.
  rewrite seqZ_S, fmap_app, filter_app. rewrite Z2Nat.id by lia.
  change (filter (fun a => Appointment.patient a = who)
            (appointmentOf s' <$> seqZ 1 (appointmentCounter s)))
    with (appointments_of s' who 1 (appointmentCounter s)).
  rewrite (appointments_of_ext s s') by (intros j Hj; apply Hsame; lia).
  replace (1 + appointmentCounter s) with (appointmentCounter s + 1) by lia.
  cbn [fmap list_fmap].
  destruct (bool_decide_reflect (who = msg_sender env)) as [Hwho | Hwho].
  - rewrite filter_cons_True by (rewrite Hpat; congruence). reflexivity.
  - rewrite filter_cons_False by (rewrite Hpat; congruence).
    cbn. rewrite app_nil_r. reflexivity.
Qed.

End Listing.

Lemma getPatientAppointments_lists_witness :
  exists l,
    getPatientAppointments 5 BookingExamples.booked Scenario.pat = Some (Ok l) /\
    l = appointments_of BookingExamples.booked Scenario.pat 1
          (appointmentCounter BookingExamples.booked) /\
    length l = 1%nat.
Proof.
  destruct (getPatientAppointments_lists BookingExamples.booked Scenario.pat 5)
    as (l & Hl & Heq & _ & _).
  - vm_compute. split; [discriminate | reflexivity].
  - vm_compute. lia.
  - exists l. split; [exact Hl |]. split; [exact Heq |]. rewrite Heq. by_eval.
Defined.

Module ListingExamples.
Import Scenario.

Example booking_succeeds :
  transact BookingExamples.overpaying (Call_bookAppointment doc (t0 + 3600) ETH false "")
           BookingExamples.staffed
  = (BookingExamples.booked, Success).
Proof. by_eval. Qed.

End ListingExamples.

Lemma booking_listed_witness :
  getPatientAppointments 3 BookingExamples.staffed Scenario.pat = Some (Ok []) /\
  getPatientAppointments 3 BookingExamples.booked Scenario.pat
  = Some (Ok [appointmentOf BookingExamples.booked 1]) /\
  getPatientAppointments 3 BookingExamples.booked Scenario.doc = Some (Ok []).
Proof.
  assert (H0 : 0 <= appointmentCounter BookingExamples.staffed)
    by (vm_compute; discriminate).
  assert (Hmax : appointmentCounter BookingExamples.staffed + 1 < UInt.max 256)
    by (vm_compute; reflexivity).
  assert (Hfuel : (Z.to_nat (appointmentCounter BookingExamples.staffed) + 1 < 3)%nat)
    by (vm_compute; lia).
  assert (Hnone : forall who, getPatientAppointments 3 BookingExamples.staffed who
                              = Some (Ok [])).
  { intros who. vm_compute. reflexivity. }
  assert (Hctr : appointmentCounter BookingExamples.booked = 1) by by_eval.
  split; [apply Hnone |]. split.
  - destruct (booking_listed _ _ _ _ _ _ _ _ 3 Scenario.pat
                ListingExamples.booking_succeeds H0 Hmax Hfuel) as (before & Hb & Ha).
    rewrite Hnone in Hb. injection Hb as <-.
    rewrite Hctr in Ha. exact Ha.
  - destruct (booking_listed _ _ _ _ _ _ _ _ 3 Scenario.doc
                ListingExamples.booking_succeeds H0 Hmax Hfuel) as (before & Hb & Ha).
    rewrite Hnone in Hb. injection Hb as <-.
    exact Ha.
Defined.
